(** * go-pickleball: the field-extraction and normalization engine

    A shallow embedding of the Python scraping back end
    ([backend/python/data_models.py], [paddle_scraper.py],
    [galaxy_scraper.py], [central_scraper.py]) and the properties of its
    numeric normalizer, name cleaner, shape classifier, field resolver and
    identity assigner.

    Conventions of the embedding.
    - A Python [str] is a list of Unicode code points ([N]).  Whitespace
      ([str.strip], [str.split], [\s], the trimming of [float]) is the full
      [str.isspace] set.  The other character tables of the Unicode
      database are taken on ASCII: [str.lower] and [re.IGNORECASE] fold
      [A-Z], [\d] and the digits of [float] are [0-9], [\w] and [\b] know
      the ASCII letters, the digits and the underscore.  On ASCII text the
      embedding is exact.
    - A Python [float] is an IEEE 754 binary64 value, [spec_float] with
      precision 53 and [emax] 1024, rounded to nearest even.
    - A raised exception is the [Raise] outcome of the [result] type.
    - A [dict] is a [gmap]. *)

From Stdlib Require Import ZArith NArith List Bool Ascii String Lia.
From Stdlib Require Import Floats.SpecFloat.
From stdpp Require Import base option list gmap.

Import ListNotations.
Local Open Scope N_scope.

(** ** Python strings *)

Abbreviation char := N (only parsing).
Abbreviation str := (list N) (only parsing).

(** A string literal of the source, as code points (ASCII literals only). *)
Definition lit (s : string) : str :=
  List.map N_of_ascii (list_ascii_of_string s).

Module Py.

(** [str.isspace] on one code point (Unicode White_Space together with the
    information separators U+001C..U+001F, as CPython has it). *)
Definition isspace (c : char) : bool :=
  ((9 <=? c) && (c <=? 13)) || ((28 <=? c) && (c <=? 32))
  || (c =? 133) || (c =? 160) || (c =? 5760)
  || ((8192 <=? c) && (c <=? 8202))
  || (c =? 8232) || (c =? 8233) || (c =? 8239) || (c =? 8287)
  || (c =? 12288).

Definition isdigit (c : char) : bool := (48 <=? c) && (c <=? 57).

Definition isupper (c : char) : bool := (65 <=? c) && (c <=? 90).

Definition isalpha (c : char) : bool :=
  isupper c || ((97 <=? c) && (c <=? 122)).

(** [\w]: letters, digits and the underscore. *)
Definition isword (c : char) : bool := isalpha c || isdigit c || (c =? 95).

Definition lower_char (c : char) : char := if isupper c then c + 32 else c.

(** [s.lower()] *)
Definition lower (s : str) : str := List.map lower_char s.

(** Truth value of a string: [not s] holds for the empty string. *)
Definition truthy (s : str) : bool :=
  match s with [] => false | _ => true end.

Fixpoint lstrip (s : str) : str :=
  match s with
  | c :: s' => if isspace c then lstrip s' else s
  | [] => []
  end.

Definition rstrip (s : str) : str := rev (lstrip (rev s)).

(** [s.strip()] *)
Definition strip (s : str) : str := rstrip (lstrip s).

(** [s.startswith(p)] *)
Fixpoint startswith (p s : str) : bool :=
  match p, s with
  | [], _ => true
  | a :: p', b :: s' => (a =? b) && startswith p' s'
  | _ :: _, [] => false
  end.

(** [a == b] *)
Fixpoint eqb (a b : str) : bool :=
  match a, b with
  | [], [] => true
  | x :: a', y :: b' => (x =? y) && eqb a' b'
  | _, _ => false
  end.

(** [s.endswith(suf)] *)
Definition endswith (s suf : str) : bool := startswith (rev suf) (rev s).

(** [sub in s] *)
Fixpoint contains (sub s : str) : bool :=
  startswith sub s
  || match s with
     | [] => false
     | _ :: s' => contains sub s'
     end.

(** [s[:-n]] for [0 < n]. *)
Definition drop_last (n : nat) (s : str) : str :=
  firstn (length s - n) s.

(** [s.replace(old, new)] for a non-empty [old]: the occurrences are taken
    from the left and do not overlap.  [skip] counts the characters of an
    occurrence that are still to be dropped. *)
Fixpoint replace_from (old new : str) (skip : nat) (s : str) : str :=
  match s with
  | [] => []
  | c :: s' =>
      match skip with
      | S n => replace_from old new n s'
      | O =>
          if startswith old s
          then new ++ replace_from old new (length old - 1) s'
          else c :: replace_from old new 0 s'
      end
  end.

(** With an empty [old], Python puts [new] before every character and at
    the end. *)
Definition replace (old new s : str) : str :=
  match old with
  | [] => List.fold_right (fun c acc => new ++ c :: acc) new s
  | _ => replace_from old new 0 s
  end.

(** [s.count(sub)] for a non-empty [sub]. *)
Fixpoint count_from (sub : str) (skip : nat) (s : str) : nat :=
  match s with
  | [] => 0%nat
  | _ :: s' =>
      match skip with
      | S n => count_from sub n s'
      | O =>
          if startswith sub s
          then S (count_from sub (length sub - 1) s')
          else count_from sub 0 s'
      end
  end.

Definition count (sub s : str) : nat :=
  match sub with
  | [] => S (length s)
  | _ => count_from sub 0 s
  end.

(** [s.split(sep)] for a non-empty [sep]: [cur] is the piece being read,
    in reverse. *)
Fixpoint split_from (sep : str) (skip : nat) (cur : str) (s : str)
  : list str :=
  match s with
  | [] => [rev cur]
  | c :: s' =>
      match skip with
      | S n => split_from sep n cur s'
      | O =>
          if startswith sep s
          then rev cur :: split_from sep (length sep - 1) [] s'
          else split_from sep 0 (c :: cur) s'
      end
  end.

Definition split_on (sep s : str) : list str := split_from sep 0 [] s.

(** [s.split(sep, 1)]: at most one cut, at the first occurrence. *)
Fixpoint split_once_from (sep : str) (cur : str) (s : str) : list str :=
  match s with
  | [] => [rev cur]
  | c :: s' =>
      if startswith sep s
      then [rev cur; skipn (length sep) s]
      else split_once_from sep (c :: cur) s'
  end.

Definition split_once (sep s : str) : list str := split_once_from sep [] s.

(** [s.split()]: the maximal runs of non-whitespace characters. *)
Fixpoint split_ws_from (cur : str) (s : str) : list str :=
  match s with
  | [] => match cur with [] => [] | _ => [rev cur] end
  | c :: s' =>
      if isspace c
      then match cur with
           | [] => split_ws_from [] s'
           | _ => rev cur :: split_ws_from [] s'
           end
      else split_ws_from (c :: cur) s'
  end.

Definition split_ws (s : str) : list str := split_ws_from [] s.

End Py.

(** ** Regular expressions

    The patterns of the source only repeat single characters, so a star is
    over a character class.  The matcher is the backtracking one of [re]:
    alternatives are tried in priority order (greedy first) and the first
    complete match wins. *)

Module Re.

Inductive regex : Type :=
| Eps                                  (* the empty pattern *)
| One (cls : char -> bool)             (* one character of a class *)
| Star (cls : char -> bool)            (* cls*, greedy *)
| Cat (r1 r2 : regex)
| Opt (r : regex)                      (* r?, greedy *)
| Group (r : regex)                    (* the capturing group 1 *)
| Dollar                               (* $ *)
| WordB.                               (* \b *)

(** cls+ *)
Definition Plus (cls : char -> bool) : regex := Cat (One cls) (Star cls).

(** Character classes. *)
Definition chr (c : char) : char -> bool := fun x => x =? c.
Definition chr_i (c : char) : char -> bool :=
  fun x => Py.lower_char x =? Py.lower_char c.
Definition dot : char -> bool := fun x => negb (x =? 10).
Definition none_of (l : list char) : char -> bool :=
  fun x => negb (existsb (N.eqb x) l).
Definition one_of (l : list char) : char -> bool :=
  fun x => existsb (N.eqb x) l.
Definition either (p q : char -> bool) : char -> bool :=
  fun x => p x || q x.

(** A literal word; [ci] is the IGNORECASE flag. *)
Definition word (ci : bool) (w : str) : regex :=
  List.fold_right (fun c r => Cat (One (if ci then chr_i c else chr c)) r)
                  Eps w.

(** The state of one match attempt: the character before the current
    position, the rest of the subject, the number of characters consumed
    since the start of the match, and the span of group 1 (as offsets from
    the start of the match). *)
Record mstate : Type := MState {
  ms_prev : option char;
  ms_rest : str;
  ms_off : nat;
  ms_grp : option (nat * nat)
}.

Definition set_grp (st : mstate) (g : nat * nat) : mstate :=
  MState (ms_prev st) (ms_rest st) (ms_off st) (Some g).

Definition is_word_opt (c : option char) : bool :=
  match c with Some x => Py.isword x | None => false end.

(** [$] without MULTILINE: the end of the string, or just before a final
    newline. *)
Definition at_dollar (rest : str) : bool :=
  match rest with
  | [] => true
  | [c] => c =? 10
  | _ => false
  end.

Section Matcher.
Context {R : Type}.

Fixpoint star (cls : char -> bool) (rest : str) (prev : option char)
  (off : nat) (grp : option (nat * nat)) (k : mstate -> option R)
  : option R :=
  match rest with
  | c :: rest' =>
      if cls c then
        match star cls rest' (Some c) (S off) grp k with
        | Some r => Some r
        | None => k (MState prev rest off grp)
        end
      else k (MState prev rest off grp)
  | [] => k (MState prev rest off grp)
  end.

Fixpoint rmatch (r : regex) (st : mstate) (k : mstate -> option R)
  : option R :=
  match r with
  | Eps => k st
  | One cls =>
      match ms_rest st with
      | c :: rest' =>
          if cls c
          then k (MState (Some c) rest' (S (ms_off st)) (ms_grp st))
          else None
      | [] => None
      end
  | Star cls =>
      star cls (ms_rest st) (ms_prev st) (ms_off st) (ms_grp st) k
  | Cat r1 r2 => rmatch r1 st (fun st' => rmatch r2 st' k)
  | Opt r1 =>
      match rmatch r1 st k with
      | Some x => Some x
      | None => k st
      end
  | Group r1 =>
      rmatch r1 st (fun st' => k (set_grp st' (ms_off st, ms_off st')))
  | Dollar => if at_dollar (ms_rest st) then k st else None
  | WordB =>
      if xorb (is_word_opt (ms_prev st)) (is_word_opt (head (ms_rest st)))
      then k st else None
  end.
End Matcher.

(** A match attempt at one position: the length of the match and the span
    of group 1. *)
Definition match_at (r : regex) (prev : option char) (rest : str)
  : option (nat * option (nat * nat)) :=
  rmatch r (MState prev rest 0 None)
         (fun st => Some (ms_off st, ms_grp st)).

(** The match object of [re.search]. *)
Record mobj : Type := MObj {
  mo_group0 : str;
  mo_group1 : option str
}.

Definition slice (a b : nat) (s : str) : str := firstn (b - a) (skipn a s).

Definition mk_mobj (rest : str) (m : nat * option (nat * nat)) : mobj :=
  MObj (firstn (fst m) rest)
       (match snd m with
        | Some (a, b) => Some (slice a b rest)
        | None => None
        end).

Fixpoint search_from (r : regex) (prev : option char) (s : str)
  : option mobj :=
  match match_at r prev s with
  | Some m => Some (mk_mobj s m)
  | None =>
      match s with
      | [] => None
      | c :: s' => search_from r (Some c) s'
      end
  end.

(** [re.search(r, s)] *)
Definition search (r : regex) (s : str) : option mobj :=
  search_from r None s.

(** [re.sub(r, repl, s)] for a replacement without group references.
    [skip] counts the characters of the current match still to be
    dropped.  An empty match puts [repl] in front of the character it
    stands at. *)
Fixpoint sub_from (r : regex) (repl : str) (skip : nat)
  (prev : option char) (s : str) : str :=
  match skip with
  | S n =>
      match s with
      | [] => []
      | c :: s' => sub_from r repl n (Some c) s'
      end
  | O =>
      match match_at r prev s with
      | Some (len, _) =>
          match s with
          | [] => repl
          | c :: s' =>
              match len with
              | O => repl ++ c :: sub_from r repl 0 (Some c) s'
              | S n => repl ++ sub_from r repl n (Some c) s'
              end
          end
      | None =>
          match s with
          | [] => []
          | c :: s' => c :: sub_from r repl 0 (Some c) s'
          end
      end
  end.

Definition sub (r : regex) (repl : str) (s : str) : str :=
  sub_from r repl 0 None s.

End Re.


(** ** Exceptions *)

Inductive exn : Type :=
  ValueError | TypeError | ZeroDivisionError | IndexError.

Inductive result (A : Type) : Type :=
| Ok (a : A)
| Raise (e : exn).

Arguments Ok {A} a.
Arguments Raise {A} e.

Definition exn_eqb (a b : exn) : bool :=
  match a, b with
  | ValueError, ValueError => true
  | TypeError, TypeError => true
  | ZeroDivisionError, ZeroDivisionError => true
  | IndexError, IndexError => true
  | _, _ => false
  end.

#[global] Instance result_ret : MRet result := fun A a => Ok a.

#[global] Instance result_bind : MBind result := fun A B f c =>
  match c with
  | Ok a => f a
  | Raise e => Raise e
  end.

(** [try: body  except (handled): handler] *)
Definition try_except {A : Type} (body : result A) (handled : list exn)
  (handler : result A) : result A :=
  match body with
  | Ok a => Ok a
  | Raise e => if existsb (exn_eqb e) handled then handler else Raise e
  end.

(** [l[i]] *)
Definition index {A : Type} (l : list A) (i : nat) : result A :=
  match l !! i with
  | Some x => Ok x
  | None => Raise IndexError
  end.

(** ** Floats *)

Module Float.

Abbreviation float := spec_float (only parsing).

Definition prec : Z := 53.
Definition emax : Z := 1024.

Definition add (x y : float) : float := SFadd prec emax x y.
Definition mul (x y : float) : float := SFmul prec emax x y.
Definition sub (x y : float) : float := SFsub prec emax x y.

Definition is_zero (x : float) : bool :=
  match x with S754_zero _ => true | _ => false end.

Definition is_nan (x : float) : bool :=
  match x with S754_nan => true | _ => false end.

(** [x / y]: Python raises on a zero divisor. *)
Definition truediv (x y : float) : result float :=
  if is_zero y then Raise ZeroDivisionError else Ok (SFdiv prec emax x y).

(** [x >= y], [x < y], [x == y] *)
Definition ge (x y : float) : bool := SFleb y x.
Definition lt (x y : float) : bool := SFltb x y.
Definition eqb (x y : float) : bool := SFeqb x y.

(** Truth value of a float: [not x] holds for [0.0] and [-0.0]. *)
Definition truthy (x : float) : bool := negb (is_zero x).

(** The float nearest to [m * 10^e10] (ties to even), for a natural number
    [m]: the value of a decimal numeral or of [float(s)]. *)
Definition of_decimal (neg : bool) (m : Z) (e10 : Z) : float :=
  match m with
  | Zpos p =>
      if (0 <=? e10)%Z
      then binary_normalize prec emax
             (cond_Zopp neg (Zpos p * 10 ^ e10)%Z) 0%Z false
      else
        let '(q, e, l) :=
          SFdiv_core_binary prec emax (Zpos p) 0%Z (10 ^ (- e10))%Z 0%Z in
        binary_round_aux prec emax neg q e l
  | _ => S754_zero neg
  end.

Definition digit_val (c : char) : Z := Z.of_N (c - 48).

(** digitpart ::= digit (["_"] digit)*, after its first digit: the value
    read so far, the number of digits, and the rest. *)
Fixpoint digitpart_rest (acc : Z) (n : nat) (s : str) : Z * nat * str :=
  match s with
  | c :: s' =>
      if Py.isdigit c
      then digitpart_rest (10 * acc + digit_val c)%Z (S n) s'
      else if c =? 95 then
        match s' with
        | d :: s'' =>
            if Py.isdigit d
            then digitpart_rest (10 * acc + digit_val d)%Z (S n) s''
            else (acc, n, s)
        | [] => (acc, n, s)
        end
      else (acc, n, s)
  | [] => (acc, n, s)
  end.

Definition digitpart (s : str) : option (Z * nat * str) :=
  match s with
  | c :: s' =>
      if Py.isdigit c then Some (digitpart_rest (digit_val c) 1 s') else None
  | [] => None
  end.

Definition sign (s : str) : bool * str :=
  match s with
  | 45 :: s' => (true, s')
  | 43 :: s' => (false, s')
  | _ => (false, s)
  end.

(** number ::= [digitpart] "." digitpart | digitpart ["."]: the digits as
    one integer, the number of fraction digits, and the rest. *)
Definition number (s : str) : option (Z * nat * str) :=
  match digitpart s with
  | Some (ip, _, r) =>
      match r with
      | 46 :: r' =>
          match digitpart r' with
          | Some (fp, nf, r'') =>
              Some ((ip * 10 ^ Z.of_nat nf + fp)%Z, nf, r'')
          | None => Some (ip, 0%nat, r')
          end
      | _ => Some (ip, 0%nat, r)
      end
  | None =>
      match s with
      | 46 :: r' => digitpart r'
      | _ => None
      end
  end.

(** floatnumber ::= number [("e" | "E") [sign] digitpart], the whole of
    [s]. *)
Definition floatnumber (neg : bool) (s : str) : option float :=
  match number s with
  | Some (m, nf, r) =>
      match r with
      | [] => Some (of_decimal neg m (- Z.of_nat nf))
      | c :: r1 =>
          if (c =? 101) || (c =? 69) then
            let '(eneg, r2) := sign r1 in
            match digitpart r2 with
            | Some (ev, _, []) =>
                Some (of_decimal neg m
                        ((if eneg then - ev else ev) - Z.of_nat nf))
            | _ => None
            end
          else None
      end
  | None => None
  end.

(** [float(s)]: surrounding whitespace is dropped, then a sign and one of
    a decimal number, [inf], [infinity], [nan] (in any case); anything else
    raises [ValueError]. *)
Definition of_str (s : str) : result float :=
  let '(neg, r) := sign (Py.strip s) in
  let w := Py.lower r in
  if Py.eqb w (lit "inf") || Py.eqb w (lit "infinity")
  then Ok (S754_infinity neg)
  else if Py.eqb w (lit "nan") then Ok S754_nan
  else match floatnumber neg r with
       | Some x => Ok x
       | None => Raise ValueError
       end.

(** A float literal of the source. *)
Definition flt (s : string) : float :=
  match of_str (lit s) with
  | Ok x => x
  | Raise _ => S754_nan
  end.

End Float.


(** ** data_models.py *)

(** The dataclasses.  Python does not enforce the annotations: a field holds
    [None] whenever the scraper passes it, so the fields are options. *)
Record Metadata : Type := mkMetadata {
  brand : str;
  model : str;
  source : str
}.

Record Specs : Type := mkSpecs {
  shape : option str;
  surface : option str;
  average_weight : option spec_float;
  core : option spec_float;
  paddle_length : option spec_float;
  paddle_width : option spec_float;
  grip_length : option spec_float;
  grip_type : option str;
  grip_circumference : option spec_float
}.

Record Performance : Type := mkPerformance {
  power : spec_float;
  pop : spec_float;
  spin : spec_float;
  twist_weight : spec_float;
  swing_weight : spec_float;
  balance_point : spec_float
}.

Record Paddle : Type := mkPaddle {
  id : str;
  metadata : Metadata;
  specs : Specs;
  performance : option Performance
}.

(** The pattern [\d+\.?\d*] in one capturing group, used by both
    [extract_float]s and by the Central scraper. *)
Definition number_re : Re.regex :=
  Re.Group (Re.Cat (Re.Plus Py.isdigit)
              (Re.Cat (Re.Opt (Re.One (Re.chr 46))) (Re.Star Py.isdigit))).

(** [float(match.group(1))]: [float(None)] raises [TypeError]. *)
Definition float_of_group1 (m : Re.mobj) : result spec_float :=
  match Re.mo_group1 m with
  | Some t => Float.of_str t
  | None => Raise TypeError
  end.

Module data_models.

(** [generate_paddle_id] *)
Definition generate_paddle_id (brand model : str) : str :=
  let brand := Py.replace (lit " ") (lit "-") (Py.lower brand) in
  let model := Py.replace (lit " ") (lit "-") (Py.lower model) in
  brand ++ lit "-" ++ model.

(** [extract_float] *)
Definition extract_float (text : str) : result (option spec_float) :=
  if negb (Py.truthy text) then Ok None
  else
    match Re.search number_re text with
    | Some m => x ← float_of_group1 m; Ok (Some x)
    | None => Ok None
    end.

(** [\s*\|\s*.*$] *)
Definition pipe_tail_re : Re.regex :=
  Re.Cat (Re.Star Py.isspace)
    (Re.Cat (Re.One (Re.chr 124))
       (Re.Cat (Re.Star Py.isspace) (Re.Cat (Re.Star Re.dot) Re.Dollar))).

(** The characters of the class [[|│｜︱丨｜]]: U+007C, U+2502, U+FF5C,
    U+FE31, U+4E28, U+FF5C. *)
Definition pipe_chars : list char := [124; 9474; 65372; 65073; 20008; 65372].

(** [[|│｜︱丨｜]+] *)
Definition pipes_re : Re.regex := Re.Plus (Re.one_of pipe_chars).

Definition unwanted_suffixes : list str :=
  [ lit "Pickleball Paddle"; lit "Paddle"; lit " - PBC"; lit " - NEW";
    lit " - Limited Edition"; lit " - LE"; lit " -"; [124]; [9474];
    lit " - Elongated"; lit " - Standard"; lit " - Teardrop" ].

(** The loop over [unwanted_suffixes]. *)
Definition strip_suffix (model suffix : str) : str :=
  if Py.endswith model suffix
  then Py.strip (Py.drop_last (length suffix) model)
  else model.

Definition strip_suffixes (model : str) : str :=
  List.fold_left strip_suffix unwanted_suffixes model.

(** [\s*\([^)]*\)\s*] *)
Definition paren_re : Re.regex :=
  Re.Cat (Re.Star Py.isspace)
    (Re.Cat (Re.One (Re.chr 40))
       (Re.Cat (Re.Star (Re.none_of [41]))
          (Re.Cat (Re.One (Re.chr 41)) (Re.Star Py.isspace)))).

Definition common_descriptors : list str :=
  [ lit "New"; lit "NEW"; lit "Limited Edition"; lit "SALE"; lit "In Stock" ].

(** [rf'\b{re.escape(descriptor)}\b'] with [re.IGNORECASE] *)
Definition descriptor_re (descriptor : str) : Re.regex :=
  Re.Cat Re.WordB (Re.Cat (Re.word true descriptor) Re.WordB).

Definition remove_descriptors (model : str) : str :=
  List.fold_left (fun m d => Re.sub (descriptor_re d) [] m)
                 common_descriptors model.

(** [re.sub(r'\s+', ' ', model).strip()] *)
Definition squeeze (model : str) : str :=
  Py.strip (Re.sub (Re.Plus Py.isspace) (lit " ") model).

(** [clean_model_name] *)
Definition clean_model_name (model : str) : str :=
  if negb (Py.truthy model) then model
  else
    let model := Re.sub pipe_tail_re [] model in
    let model := Re.sub pipes_re [] model in
    let model := strip_suffixes model in
    let model := Py.strip (Re.sub paren_re (lit " ") model) in
    let model := remove_descriptors model in
    squeeze model.

(** [determine_paddle_shape_from_length] *)
Definition determine_paddle_shape_from_length (paddle_length : spec_float)
  : str :=
  if Float.ge paddle_length (Float.flt "16.5") then lit "Elongated"
  else if Float.ge paddle_length (Float.flt "16.25") then lit "Hybrid"
  else lit "Wide-body".

Definition shape_mapping : gmap (list N) (list N) :=
  list_to_map
    [ (lit "elongated", lit "Elongated");
      (lit "elongated shape", lit "Elongated");
      (lit "long", lit "Elongated");
      (lit "hybrid", lit "Hybrid");
      (lit "hybrid shape", lit "Hybrid");
      (lit "wide-body", lit "Wide-body");
      (lit "widebody", lit "Wide-body");
      (lit "wide body", lit "Wide-body");
      (lit "standard", lit "Wide-body");
      (lit "teardrop", lit "Wide-body");
      (lit "traditional", lit "Wide-body");
      (lit "classic", lit "Wide-body");
      (lit "", lit "Wide-body") ].

(** [normalize_paddle_shape]; the argument is [None] or a string. *)
Definition normalize_paddle_shape (shape : option str) : str :=
  match shape with
  | None => lit "Wide-body"
  | Some shape =>
      if negb (Py.truthy shape) then lit "Wide-body"
      else
        let shape_lower := Py.strip (Py.lower shape) in
        default (lit "Wide-body") (shape_mapping !! shape_lower)
  end.

End data_models.


(** ** paddle_scraper.py *)

Module paddle_scraper.

(** [text.replace('in', '').replace('oz', '').replace('ounces', '').strip()] *)
Definition strip_units (text : str) : str :=
  Py.strip
    (Py.replace (lit "ounces") []
       (Py.replace (lit "oz") [] (Py.replace (lit "in") [] text))).

(** The mixed-number branch, for [parts = text.split()]: [Ok (Some x)] is
    [return x], [Ok None] falls through to the next statement. *)
Definition mixed_number (parts : list str) : result (option spec_float) :=
  match parts with
  | [p0; p1] =>
      try_except
        (whole ← Float.of_str p0;
         if Py.contains (lit "/") p1 then
           match Py.split_on (lit "/") p1 with
           | [n; d] =>
               a ← Float.of_str n;
               b ← Float.of_str d;
               fraction ← Float.truediv a b;
               Ok (Some (Float.add whole fraction))
           | _ => Ok None
           end
         else Ok None)
        [ValueError; ZeroDivisionError] (Ok None)
  | _ => Ok None
  end.

(** The simple-fraction branch. *)
Definition simple_fraction (text : str) : result (option spec_float) :=
  try_except
    (let frac_parts := Py.split_on (lit "/") text in
     n ← index frac_parts 0;
     a ← Float.of_str n;
     d ← index frac_parts 1;
     b ← Float.of_str d;
     q ← Float.truediv a b;
     Ok (Some q))
    [ValueError; ZeroDivisionError] (Ok None).

(** The last branch: the first decimal number of the text. *)
Definition regular_number (text : str) : result (option spec_float) :=
  match Re.search number_re text with
  | Some m =>
      try_except (x ← float_of_group1 m; Ok (Some x)) [ValueError] (Ok None)
  | None => Ok None
  end.

(** [extract_float] *)
Definition extract_float (text : str) : result (option spec_float) :=
  if negb (Py.truthy text) then Ok None
  else
    let text := strip_units text in
    r1 ← (if Py.contains (lit " ") text
          then mixed_number (Py.split_ws text) else Ok None);
    match r1 with
    | Some x => Ok (Some x)
    | None =>
        r2 ← (if Py.contains (lit "/") text
                 && Nat.eqb (Py.count (lit "/") text) 1
              then simple_fraction text else Ok None);
        match r2 with
        | Some x => Ok (Some x)
        | None => regular_number text
        end
    end.

End paddle_scraper.


(** ** galaxy_scraper.py

    [PickleballGalaxyScraper.scrape_paddle], from the point where the brand,
    the model and the title are known.  The page enters through the texts
    of its [.o-layout__item] elements, the text of [.prod_description]
    (empty when the element is absent) and the title. *)

Module galaxy_scraper.

(** One round of the loop over [spec_items]. *)
Definition add_spec_item (specs_data : gmap (list N) (list N))
  (item_text : str) : result (gmap (list N) (list N)) :=
  if Py.contains (lit ":") item_text then
    match Py.split_once (lit ":") item_text with
    | [key; value] =>
        Ok (<[ Py.lower (Py.strip key) := Py.strip value ]> specs_data)
    | _ => Raise ValueError
    end
  else Ok specs_data.

Fixpoint build_specs_data (specs_data : gmap (list N) (list N))
  (items : list str) : result (gmap (list N) (list N)) :=
  match items with
  | [] => Ok specs_data
  | item :: items' =>
      d ← add_spec_item specs_data item;
      build_specs_data d items'
  end.

(** Truth value of [None] or a float. *)
Definition truthy_float (o : option spec_float) : bool :=
  match o with
  | Some x => Float.truthy x
  | None => false
  end.

(** The length. *)
Definition resolve_length (specs_data : gmap (list N) (list N))
  : result (option spec_float) :=
  match specs_data !! lit "paddle length" with
  | Some v =>
      data_models.extract_float (Py.strip (Py.replace (lit "in") [] v))
  | None => Ok None
  end.

(** The weight; a range is averaged. *)
Definition resolve_weight (specs_data : gmap (list N) (list N))
  : result (option spec_float) :=
  match specs_data !! lit "weight" with
  | Some v =>
      let weight_str := Py.strip (Py.replace (lit "ounces") [] v) in
      if Py.contains (lit "-") weight_str then
        match Py.split_on (lit "-") weight_str with
        | [p0; p1] =>
            try_except
              (min_weight ← Float.of_str (Py.strip p0);
               max_weight ← Float.of_str (Py.strip p1);
               weight ← Float.truediv (Float.add min_weight max_weight)
                                      (Float.flt "2");
               Ok (Some weight))
              [ValueError] (Ok None)
        | _ => Ok None
        end
      else data_models.extract_float weight_str
  | None => Ok None
  end.

(** The width. *)
Definition resolve_width (specs_data : gmap (list N) (list N))
  : result (option spec_float) :=
  match specs_data !! lit "paddle width" with
  | Some v =>
      data_models.extract_float (Py.strip (Py.replace (lit "in") [] v))
  | None => Ok None
  end.

(** The shape, from the length when there is one. *)
Definition resolve_shape (length : option spec_float) : option str :=
  match length with
  | Some x =>
      if Float.truthy x
      then Some (data_models.normalize_paddle_shape
                   (Some (data_models.determine_paddle_shape_from_length x)))
      else None
  | None => None
  end.

Definition surface_of_text (t : str) : option str :=
  if Py.contains (lit "fiberglass") t then Some (lit "Fiberglass")
  else if Py.contains (lit "carbon") t && Py.contains (lit "fiber") t
  then Some (lit "Carbon Fiber")
  else if Py.contains (lit "graphite") t then Some (lit "Graphite")
  else if Py.contains (lit "composite") t then Some (lit "Composite")
  else None.

(** The surface material. *)
Definition resolve_surface (specs_data : gmap (list N) (list N))
  (specs_text : str) : option str :=
  match specs_data !! lit "surface material" with
  | Some v =>
      match surface_of_text (Py.lower v) with
      | Some s => Some s
      | None => Some v
      end
  | None => surface_of_text (Py.lower specs_text)
  end.

(** The three patterns tried on the description, with [re.IGNORECASE]:
    the number followed by [\s*mm\s*core], [core thickness[:\s]*] followed
    by the number, and [core[:\s]*] followed by the number. *)
Definition core_patterns : list Re.regex :=
  [ Re.Cat number_re
      (Re.Cat (Re.Star Py.isspace)
         (Re.Cat (Re.word true (lit "mm"))
            (Re.Cat (Re.Star Py.isspace) (Re.word true (lit "core")))));
    Re.Cat (Re.word true (lit "core thickness"))
      (Re.Cat (Re.Star (Re.either (Re.chr 58) Py.isspace)) number_re);
    Re.Cat (Re.word true (lit "core"))
      (Re.Cat (Re.Star (Re.either (Re.chr 58) Py.isspace)) number_re) ].

(** The pattern tried on the title: the number followed by [mm]. *)
Definition core_title_re : Re.regex :=
  Re.Cat number_re (Re.word true (lit "mm")).

(** The loop over [core_patterns]: the first pattern that matches sets the
    value and ends the loop. *)
Fixpoint core_from_description (patterns : list Re.regex) (specs_text : str)
  (core_thickness : option spec_float) : result (option spec_float) :=
  match patterns with
  | [] => Ok core_thickness
  | core_pattern :: patterns' =>
      match Re.search core_pattern specs_text with
      | Some core_match => x ← float_of_group1 core_match; Ok (Some x)
      | None => core_from_description patterns' specs_text core_thickness
      end
  end.

(** The core thickness: the structured key, then the description, then the
    title. *)
Definition resolve_core (specs_data : gmap (list N) (list N))
  (specs_text title_text : str) : result (option spec_float) :=
  core_thickness ←
    match specs_data !! lit "core thickness" with
    | Some v =>
        data_models.extract_float (Py.strip (Py.replace (lit "mm") [] v))
    | None => Ok None
    end;
  core_thickness ←
    (if negb (truthy_float core_thickness)
     then core_from_description core_patterns specs_text core_thickness
     else Ok core_thickness);
  core_thickness ←
    (if negb (truthy_float core_thickness)
     then match Re.search core_title_re title_text with
          | Some core_name_match =>
              x ← float_of_group1 core_name_match; Ok (Some x)
          | None => Ok core_thickness
          end
     else Ok core_thickness);
  Ok (if negb (truthy_float core_thickness) then None else core_thickness).

(** The grip length. *)
Definition resolve_grip_length (specs_data : gmap (list N) (list N))
  : result (option spec_float) :=
  grip_length ←
    match specs_data !! lit "handle length" with
    | Some v =>
        data_models.extract_float (Py.strip (Py.replace (lit "in") [] v))
    | None => Ok None
    end;
  Ok (if negb (truthy_float grip_length) then None else grip_length).

(** The grip type. *)
Definition resolve_grip_type (specs_data : gmap (list N) (list N))
  : option str :=
  match specs_data !! lit "factory grip" with
  | Some v => if Py.truthy v then Some v else None
  | None => None
  end.

(** The grip circumference; a footnote after [*] is cut off. *)
Definition resolve_grip_circumference (specs_data : gmap (list N) (list N))
  : result (option spec_float) :=
  grip_circumference ←
    match specs_data !! lit "grip size" with
    | Some v =>
        let grip_str := Py.strip (Py.replace (lit "in") [] v) in
        first ← index (Py.split_on (lit "*") grip_str) 0;
        data_models.extract_float (Py.strip first)
    | None => Ok None
    end;
  Ok (if negb (truthy_float grip_circumference)
      then None else grip_circumference).

(** The body of the [try] block from the specifications on. *)
Definition assemble (brand model title_text specs_text : str)
  (spec_items : list str) : result Paddle :=
  specs_data ← build_specs_data ∅ spec_items;
  length ← resolve_length specs_data;
  weight ← resolve_weight specs_data;
  width ← resolve_width specs_data;
  let shape := resolve_shape length in
  let surface := resolve_surface specs_data specs_text in
  core_thickness ← resolve_core specs_data specs_text title_text;
  grip_length ← resolve_grip_length specs_data;
  let grip_type := resolve_grip_type specs_data in
  grip_circumference ← resolve_grip_circumference specs_data;
  let specs :=
    mkSpecs shape surface weight core_thickness length width grip_length
            grip_type grip_circumference in
  (* Do not generate synthetic performance metrics; leave unset when not
     scraped *)
  let performance := None in
  let metadata := mkMetadata brand model (lit "Pickleball Galaxy") in
  let paddle_id := data_models.generate_paddle_id brand model in
  Ok (mkPaddle paddle_id metadata specs performance).

(** [except Exception]: the page is given up and [None] is returned. *)
Definition scrape_paddle (brand model title_text specs_text : str)
  (spec_items : list str) : option Paddle :=
  match assemble brand model title_text specs_text spec_items with
  | Ok paddle => Some paddle
  | Raise _ => None
  end.

End galaxy_scraper.


(** ** central_scraper.py

    One round of the loop of [scrape_central_paddles] over the product
    cards.  A card enters through the texts of its elements; [page_specs] is
    what [scrape_product_specs] returns for its product page.  The
    generator behind [random.uniform] is a counter into the sequence
    [entropy] of the values [random.random()] returns. *)

Module central_scraper.

Record card : Type := mkCard {
  card_brand : option str;        (* text of p.card-brand *)
  card_title : option str;        (* text of h3.card-title a *)
  card_href : option str;         (* its href *)
  card_price : option str;        (* text of span.price--withoutTax *)
  card_description : option str;  (* text of div.tab-shortdescription *)
  page_specs : gmap (list N) (list N)
}.

Definition shape_keywords : list (str * list str) :=
  [ (lit "Elongated", [lit "elongated"; lit "long"; lit "16.5"; lit "16.75"]);
    (lit "Hybrid", [lit "hybrid"; lit "16.25"; lit "16.3"]);
    (lit "Standard", [lit "standard"; lit "traditional"; lit "classic";
                      lit "16"; lit "16.0"]) ].

(** The shape from the length of the specifications. *)
Definition shape_from_length (specs : gmap (list N) (list N))
  : result (option str) :=
  match specs !! lit "paddle_length" with
  | Some length_text =>
      if Py.truthy length_text then
        try_except
          (match Re.search number_re length_text with
           | Some length_match =>
               paddle_length ← float_of_group1 length_match;
               Ok (Some (data_models.normalize_paddle_shape
                           (Some (data_models.determine_paddle_shape_from_length
                                    paddle_length))))
           | None => Ok None
           end)
          [ValueError; TypeError] (Ok None)
      else Ok None
  | None => Ok None
  end.

(** The loops over [shape_keywords]: the first shape one of whose keywords
    occurs in the description. *)
Fixpoint shape_from_keywords (table : list (str * list str))
  (description : str) : option str :=
  match table with
  | [] => None
  | (shape_type, keywords) :: table' =>
      if existsb (fun keyword =>
                    Py.contains (Py.lower keyword) (Py.lower description))
                 keywords
      then Some shape_type
      else shape_from_keywords table' description
  end.

Definition truthy_str (o : option str) : bool :=
  match o with
  | Some s => Py.truthy s
  | None => false
  end.

(** The shape of the record. *)
Definition resolve_shape (specs : gmap (list N) (list N))
  (description : str) : result str :=
  shape ← shape_from_length specs;
  let shape :=
    if negb (truthy_str shape)
    then shape_from_keywords shape_keywords description
    else shape in
  Ok (match shape with
      | Some s => if Py.truthy s then s else lit "Standard"
      | None => lit "Standard"
      end).

Section Random.

(** The successive values of [random.random()]. *)
Variable entropy : nat -> spec_float.

(** [random.uniform(a, b)] is [a + (b - a) * random()]. *)
Definition uniform (a b : spec_float) (seed : nat) : spec_float * nat :=
  (Float.add a (Float.mul (Float.sub b a) (entropy seed)), S seed).

(** The performance metrics: a base value and a random offset. *)
Definition make_performance (seed : nat) : Performance * nat :=
  let '(j1, seed) := uniform (Float.flt "-5") (Float.flt "5") seed in
  let '(j2, seed) := uniform (Float.flt "-5") (Float.flt "5") seed in
  let '(j3, seed) := uniform (Float.flt "-400") (Float.flt "400") seed in
  let '(j4, seed) := uniform (Float.flt "-15") (Float.flt "15") seed in
  let '(j5, seed) := uniform (Float.flt "-15") (Float.flt "15") seed in
  let '(j6, seed) := uniform (Float.flt "-2") (Float.flt "2") seed in
  (mkPerformance (Float.add (Float.flt "80.0") j1)
                 (Float.add (Float.flt "75.0") j2)
                 (Float.add (Float.flt "3000.0") j3)
                 (Float.add (Float.flt "200.0") j4)
                 (Float.add (Float.flt "215.0") j5)
                 (Float.add (Float.flt "29.0") j6),
   seed).

(** The body of the [try] block for one card: [Ok None] is [continue]. *)
Definition process_card (c : card) (seed : nat)
  : result (option Paddle) * nat :=
  match card_brand c, card_title c, card_price c with
  | Some brand_text, Some title_text, Some price_text =>
      let brand := Py.strip brand_text in
      let name := Py.strip title_text in
      if (negb (Py.truthy brand)
          || Py.eqb (Py.lower brand) (lit "unknown"))
         && (negb (Py.truthy name)
             || Py.eqb (Py.lower name) (lit "unknown product"))
      then (Ok None, seed)
      else
        match Float.of_str
                (Py.replace (lit ",") []
                   (Py.replace (lit "$") [] (Py.strip price_text))) with
        | Raise e => (Raise e, seed)
        | Ok price =>
            let description :=
              match card_description c with
              | Some d => Py.strip d
              | None => []
              end in
            let product_url := default [] (card_href c) in
            let '(specs, seed) :=
              if Py.truthy product_url
              then (page_specs c,
                    snd (uniform (Float.flt "1") (Float.flt "2") seed))
              else (∅, seed) in
            match resolve_shape specs description with
            | Raise e => (Raise e, seed)
            | Ok shape =>
                let metadata :=
                  mkMetadata brand name (lit "Pickleball Central") in
                let paddle_id := data_models.generate_paddle_id brand name in
                let paddle_specs :=
                  mkSpecs (Some shape) (Some (lit "Carbon Fiber"))
                    (Some (Float.flt "215.0")) (Some (Float.flt "14.5"))
                    (Some (Float.flt "16.0")) (Some (Float.flt "7.5"))
                    (Some (Float.flt "5.0")) (Some (lit "Standard"))
                    (Some (Float.flt "4.25")) in
                let '(performance, seed) := make_performance seed in
                (Ok (Some (mkPaddle paddle_id metadata paddle_specs
                             (Some performance))), seed)
            end
        end
  | _, _, _ => (Ok None, seed)
  end.

(** The loop over the cards: a card whose round raises is logged and
    leaves no record. *)
Fixpoint scrape_cards (cards : list card) (seed : nat) : list Paddle :=
  match cards with
  | [] => []
  | c :: cards' =>
      let '(r, seed) := process_card c seed in
      match r with
      | Ok (Some paddle) => paddle :: scrape_cards cards' seed
      | _ => scrape_cards cards' seed
      end
  end.

End Random.

End central_scraper.

(** ** Notions used in the statements and proofs

    The slug in the words of the specification, the forms of a failed
    fraction, the strategies of the core thickness, and the auxiliary
    functions the proofs about the matcher go through. *)

(** The slug in the words of the specification: both inputs lower-cased,
    every whitespace character replaced by a hyphen, joined by a hyphen. *)
Definition hyphenate_spec (s : str) : str :=
  List.map (fun c => if Py.isspace c then 45 else c) s.

Definition slug_spec (brand model : str) : str :=
  hyphenate_spec (Py.lower brand) ++ lit "-" ++ hyphenate_spec (Py.lower model).

(** [needs q r]: every match of [r] consumes a character of the class
    [q]. *)
Inductive needs (q : N -> bool) : Re.regex -> Prop :=
| needs_one cls : (forall c, cls c = true -> q c = true) -> needs q (Re.One cls)
| needs_cat_l r1 r2 : needs q r1 -> needs q (Re.Cat r1 r2)
| needs_cat_r r1 r2 : needs q r2 -> needs q (Re.Cat r1 r2)
| needs_group r : needs q r -> needs q (Re.Group r).

(** The length of the longest prefix of [s] in the class [cls]. *)
Fixpoint run_length (cls : N -> bool) (s : str) : nat :=
  match s with
  | c :: s' => if cls c then S (run_length cls s') else 0%nat
  | [] => 0%nat
  end.

(** [s] with every maximal run of characters of the class [cls] replaced by
    [repl]; [inrun] tells that the character before belongs to a run. *)
Fixpoint collapse (cls : N -> bool) (repl : str) (inrun : bool) (s : str)
  : str :=
  match s with
  | [] => []
  | c :: s' =>
      if cls c
      then (if inrun then [] else repl) ++ collapse cls repl true s'
      else c :: collapse cls repl false s'
  end.

(** The length of what [\.?\d*] takes at the head of [rest]. *)
Definition number_tail_len (rest : str) : nat :=
  match rest with
  | c :: r => if c =? 46 then S (run_length Py.isdigit r)
              else run_length Py.isdigit rest
  | [] => 0%nat
  end.

(** The length of the match of the number pattern at the head of [s]. *)
Definition number_len (s : str) : option nat :=
  match s with
  | c :: s' =>
      if Py.isdigit c then
        let n1 := run_length Py.isdigit s' in
        Some (S n1 + number_tail_len (skipn n1 s'))%nat
      else None
  | [] => None
  end.

(** The first match of the number pattern in [s]. *)
Fixpoint first_number (s : str) : option str :=
  match number_len s with
  | Some n => Some (firstn n s)
  | None =>
      match s with
      | [] => None
      | _ :: s' => first_number s'
      end
  end.

(** The continuation that ends a match of the number pattern: the length
    of the match and the span of the group opened at [g0]. *)
Definition number_final (g0 : nat) (st : Re.mstate)
  : option (nat * option (nat * nat)) :=
  Some (Re.ms_off st, Some (g0, Re.ms_off st)).

(** The value of the first decimal number of a text, if there is one. *)
Definition first_number_value (s : str) : option spec_float :=
  match first_number s with
  | Some t =>
      match Float.of_str t with
      | Ok x => Some x
      | Raise _ => None
      end
  | None => None
  end.

(** A fraction [n/d] that has no value: [n] or [d] is not a number, or [d]
    is zero. *)
Definition fraction_fails (n d : str) : Prop :=
  forall a b, Float.of_str n = Ok a -> Float.of_str d = Ok b ->
              Float.is_zero b = true.

(** The text is a bare fraction [n/d] without a value. *)
Definition bare_fraction_fails (t : str) : Prop :=
  exists n d, t = n ++ 47 :: d
    /\ ~ In 32 (n ++ d) /\ ~ In 47 (n ++ d) /\ fraction_fails n d.

(** The text is a mixed number [w n/d] without a value: [w] is not a
    number, or [n/d] has no value. *)
Definition mixed_number_fails (t : str) : Prop :=
  exists w n d, t = w ++ 32 :: n ++ 47 :: d
    /\ w <> [] /\ n <> []
    /\ (forall c, In c (w ++ n ++ d) -> Py.isspace c = false /\ c <> 47)
    /\ (forall x, Float.of_str w = Ok x -> fraction_fails n d).

(** The three canonical shapes. *)
Definition canonical_shapes : list str :=
  [lit "Elongated"; lit "Hybrid"; lit "Wide-body"].

(** The first strategy of the core thickness: the structured key. *)
Definition core_structured (specs_data : gmap (list N) (list N))
  : result (option spec_float) :=
  match specs_data !! lit "core thickness" with
  | Some v => data_models.extract_float (Py.strip (Py.replace (lit "mm") [] v))
  | None => Ok None
  end.

(** The last strategy of the core thickness: the title. *)
Definition core_from_title (title_text : str) : result (option spec_float) :=
  match Re.search galaxy_scraper.core_title_re title_text with
  | Some m => x ← float_of_group1 m; Ok (Some x)
  | None => Ok None
  end.

(** [s] starts with a whitespace character. *)
Definition head_is_space (s : str) : bool :=
  match s with
  | c :: _ => Py.isspace c
  | [] => false
  end.

(** Every whitespace character of [s] is a space that no whitespace
    follows. *)
Fixpoint single_spaced (s : str) : bool :=
  match s with
  | [] => true
  | c :: s' =>
      (if Py.isspace c then (c =? 32) && negb (head_is_space s') else true)
      && single_spaced s'
  end.

(** [s] is single-spaced and neither starts nor ends with whitespace: the
    form [re.sub(r'\s+', ' ', s).strip()] gives. *)
Definition squeezed (s : str) : bool :=
  single_spaced s && negb (head_is_space s) && negb (head_is_space (rev s)).

(** The cleaned name [y] is settled: it ends with none of the unwanted
    suffixes, has no opening parenthesis, and contains none of the
    descriptors in any case. *)
Definition settled (y : str) : bool :=
  forallb (fun suffix => negb (Py.endswith y suffix))
          data_models.unwanted_suffixes
  && negb (Py.contains (lit "(") y)
  && forallb (fun d => negb (Py.contains (Py.lower d) (Py.lower y)))
             data_models.common_descriptors.

(** [y] has none of the pipe characters. *)
Definition pipe_free (y : str) : Prop :=
  Forall (fun c => Re.one_of data_models.pipe_chars c = false) y.

(** ** Further operations of the Python library *)

From Stdlib Require DecimalString.

Module PyLib.

(** [s.lstrip(chars)] and [s.strip(chars)] for a set of characters. *)
Fixpoint lstrip_chars (chars : list N) (s : str) : str :=
  match s with
  | c :: s' => if existsb (N.eqb c) chars then lstrip_chars chars s' else s
  | [] => []
  end.

Definition strip_chars (chars : list N) (s : str) : str :=
  rev (lstrip_chars chars (rev (lstrip_chars chars s))).

(** [l[-1]] of a non-empty list. *)
Definition last_item (l : list str) : str := List.last l [].

(** [re.findall(r, s)] for a pattern with one group: the texts of group 1
    of the successive matches, the empty string for a group that took no
    part.  [skip] counts the characters of the current match still to be
    passed. *)
Fixpoint findall_from (r : Re.regex) (skip : nat) (prev : option N)
  (s : str) : list str :=
  match skip with
  | S n =>
      match s with
      | [] => []
      | c :: s' => findall_from r n (Some c) s'
      end
  | O =>
      match Re.match_at r prev s with
      | Some m =>
          default [] (Re.mo_group1 (Re.mk_mobj s m))
          :: match s with
             | [] => []
             | c :: s' => findall_from r (Nat.pred (fst m)) (Some c) s'
             end
      | None =>
          match s with
          | [] => []
          | c :: s' => findall_from r 0 (Some c) s'
          end
      end
  end.

Definition findall (r : Re.regex) (s : str) : list str :=
  findall_from r 0 None s.

(** [os.path.join(a, b)] on a POSIX system. *)
Definition path_join (a b : str) : str :=
  if Py.startswith (lit "/") b then b
  else if negb (Py.truthy a) || Py.endswith a (lit "/") then a ++ b
  else a ++ lit "/" ++ b.

(** [s.title()] with the ASCII case tables: a letter after a letter is
    lower-cased, any other letter is upper-cased. *)
Definition upper_char (c : N) : N :=
  if (97 <=? c) && (c <=? 122) then c - 32 else c.

Fixpoint title_from (previous_is_cased : bool) (s : str) : str :=
  match s with
  | [] => []
  | c :: s' =>
      (if previous_is_cased then Py.lower_char c else upper_char c)
      :: title_from (Py.isalpha c) s'
  end.

Definition title (s : str) : str := title_from false s.

(** [re.sub] for a pattern [^r] without MULTILINE and a replacement
    without group references: the pattern can only match at the start of
    the text. *)
Definition sub_caret (r : Re.regex) (repl s : str) : str :=
  match Re.match_at r None s with
  | Some (len, _) => repl ++ skipn len s
  | None => s
  end.

(** [x in l] for a list of strings. *)
Definition is_in (x : str) (l : list str) : bool := existsb (Py.eqb x) l.

(** [str(n)] for a natural number. *)
Definition str_of_nat (n : nat) : str :=
  lit (DecimalString.NilZero.string_of_uint (Nat.to_uint n)).

End PyLib.

(** ** image_downloader.py *)

Module image_downloader.

(** The characters of the class of the first substitution: [<], [>],
    [:], the double quote, [/], the backslash, [|], [?] and [*]. *)
Definition invalid_chars : list N := [60; 62; 58; 34; 47; 92; 124; 63; 42].

(** [sanitize_filename] *)
Definition sanitize_filename (filename : str) : str :=
  let filename :=
    Re.sub (Re.One (Re.one_of invalid_chars)) (lit "_") filename in
  let filename := Re.sub (Re.Plus Py.isspace) (lit "_") filename in
  let filename := PyLib.strip_chars (lit " .") filename in
  filename.

Definition image_extensions : list str :=
  [lit "jpg"; lit "jpeg"; lit "png"; lit "gif"; lit "webp"].

(** The extension [download_image] gives the file, from the path of the
    URL. *)
Definition file_extension (path : str) : str :=
  if Py.contains (lit ".") path then
    let extension := Py.lower (PyLib.last_item (Py.split_on (lit ".") path)) in
    if negb (existsb (Py.eqb extension) image_extensions)
    then lit "jpg" else extension
  else lit "jpg".

(** The path [download_image] saves the image to; [path] is the path of
    the URL ([urlparse(image_url).path]). *)
Definition filepath (path brand model base_folder : str) : str :=
  let brand_folder := PyLib.path_join base_folder (sanitize_filename brand) in
  let filename := sanitize_filename brand ++ lit "_" ++ sanitize_filename model in
  let extension := file_extension path in
  let filename := filename ++ lit "." ++ extension in
  PyLib.path_join brand_folder filename.

(** The test a candidate of the first three priorities has to pass. *)
Definition is_product_image (image_url : str) : bool :=
  Py.startswith (lit "graphics/") image_url
  && negb (Py.endswith image_url (lit "blank.gif"))
  && negb (Py.contains (lit "logo") (Py.lower image_url))
  && negb (Py.contains (lit "header") (Py.lower image_url))
  && negb (Py.contains (lit "banner") (Py.lower image_url)).

(** The test of the last priority: no thumbnail, and the dimensions in the
    file name. *)
Definition is_sized_product_image (image_url : str) : bool :=
  Py.startswith (lit "graphics/") image_url
  && negb (Py.endswith image_url (lit "blank.gif"))
  && negb (Py.endswith image_url (lit "_80x80.jpg"))
  && negb (Py.endswith image_url (lit "_80x80.png"))
  && negb (Py.contains (lit "logo") (Py.lower image_url))
  && negb (Py.contains (lit "header") (Py.lower image_url))
  && negb (Py.contains (lit "banner") (Py.lower image_url))
  && (Py.contains (lit "_480x480") image_url
      || Py.contains (lit "_960x960") image_url).

Definition mm5 (image_url : str) : str :=
  lit "https://www.pickleballgalaxy.com/mm5/" ++ image_url.

Definition not_gt : N -> bool := Re.none_of [62].
Definition not_quote : N -> bool := Re.none_of [34].

(** [src=Q([^Q]+)Q], where [Q] stands for the double quote. *)
Definition src_re : Re.regex :=
  Re.Cat (Re.word false (lit "src=" ++ [34]))
    (Re.Cat (Re.Group (Re.Plus not_quote)) (Re.One (Re.chr 34))).

(** [<img[^>]*id=Q<id>Q[^>]*src=Q([^Q]+)Q] *)
Definition img_id_re (id : str) : Re.regex :=
  Re.Cat (Re.word false (lit "<img"))
    (Re.Cat (Re.Star not_gt)
       (Re.Cat (Re.word false (lit "id=" ++ [34] ++ id ++ [34]))
          (Re.Cat (Re.Star not_gt) src_re))).

(** [<img[^>]*class=Q[^Q]*x-product-layout-images__image[^Q]*Q[^>]*src=Q([^Q]+)Q] *)
Definition img_class_re : Re.regex :=
  Re.Cat (Re.word false (lit "<img"))
    (Re.Cat (Re.Star not_gt)
       (Re.Cat (Re.word false (lit "class=" ++ [34]))
          (Re.Cat (Re.Star not_quote)
             (Re.Cat (Re.word false (lit "x-product-layout-images__image"))
                (Re.Cat (Re.Star not_quote)
                   (Re.Cat (Re.One (Re.chr 34))
                      (Re.Cat (Re.Star not_gt) src_re))))))).

(** [<img[^>]*src=Q(G)Q], where the group [G] is [graphics] between two
    runs of characters other than [Q]. *)
Definition img_graphics_re : Re.regex :=
  Re.Cat (Re.word false (lit "<img"))
    (Re.Cat (Re.Star not_gt)
       (Re.Cat (Re.word false (lit "src=" ++ [34]))
          (Re.Cat
             (Re.Group
                (Re.Cat (Re.Star not_quote)
                   (Re.Cat (Re.word false (lit "graphics"))
                      (Re.Star not_quote))))
             (Re.One (Re.chr 34))))).

(** One of the first three priorities: [Some url] is [return url], [None]
    goes on to the next priority. *)
Definition try_pattern (img_pattern : Re.regex) (html_content : str)
  : option str :=
  match Re.search img_pattern html_content with
  | Some m =>
      let image_url := default [] (Re.mo_group1 m) in
      if is_product_image image_url then Some (mm5 image_url) else None
  | None => None
  end.

(** The loop over the matches of the last priority. *)
Fixpoint first_sized (matches : list str) : option str :=
  match matches with
  | [] => None
  | image_url :: matches' =>
      if is_sized_product_image image_url then Some (mm5 image_url)
      else first_sized matches'
  end.

(** [extract_image_url_from_galaxy_html] *)
Definition extract_image_url_from_galaxy_html (html_content : str)
  : option str :=
  match try_pattern (img_id_re (lit "closeup_image")) html_content with
  | Some url => Some url
  | None =>
      match try_pattern (img_id_re (lit "main_image")) html_content with
      | Some url => Some url
      | None =>
          match try_pattern img_class_re html_content with
          | Some url => Some url
          | None => first_sized (PyLib.findall img_graphics_re html_content)
          end
      end
  end.

End image_downloader.

(** ** The objects of the loaders

    What [json.load] gives: numbers, strings, [None] and the booleans are
    values; a dictionary or a list is an object of the heap, and a value
    refers to it.  An operation of the program runs on a world: the heap,
    the next free location, and the payloads posted so far (the latest
    first).  It ends with a result or with an exception. *)

Module Obj.

Inductive value : Type :=
| VNone
| VBool (b : bool)
| VInt (z : Z)
| VFloat (x : spec_float)
| VStr (s : list N)
| VDict (l : positive)
| VList (l : positive).

Inductive object : Type :=
| ODict (d : gmap (list N) value)
| OList (l : list value).

Record world : Type := World {
  heap : gmap positive object;
  next : positive;
  posts : list value
}.

Inductive exc : Type :=
  KeyError | TypeError | AttributeError | ZeroDivisionError.

Inductive outcome (A : Type) : Type :=
| Done (a : A)
| Throw (e : exc).

Arguments Done {A} a.
Arguments Throw {A} e.

Definition op (A : Type) : Type := world -> outcome A * world.

#[global] Instance op_ret : MRet op := fun A a w => (Done a, w).

#[global] Instance op_bind : MBind op := fun A B f c w =>
  match c w with
  | (Done a, w') => f a w'
  | (Throw e, w') => (Throw e, w')
  end.

Definition throw {A : Type} (e : exc) : op A := fun w => (Throw e, w).

(** [v is None] *)
Definition is_none (v : value) : bool :=
  match v with VNone => true | _ => false end.

(** [v[key]] for a string [key]: only a dictionary has such an item. *)
Definition getitem (v : value) (key : str) : op value := fun w =>
  match v with
  | VDict l =>
      match heap w !! l with
      | Some (ODict d) =>
          match d !! key with
          | Some x => (Done x, w)
          | None => (Throw KeyError, w)
          end
      | _ => (Throw TypeError, w)
      end
  | _ => (Throw TypeError, w)
  end.

(** [v.get(key)]: only a dictionary has the method. *)
Definition get (v : value) (key : str) : op value := fun w =>
  match v with
  | VDict l =>
      match heap w !! l with
      | Some (ODict d) => (Done (default VNone (d !! key)), w)
      | _ => (Throw AttributeError, w)
      end
  | _ => (Throw AttributeError, w)
  end.

(** [v[key] = x] for a string [key]: the dictionary is changed in place. *)
Definition setitem (v : value) (key : str) (x : value) : op unit := fun w =>
  match v with
  | VDict l =>
      match heap w !! l with
      | Some (ODict d) =>
          (Done tt,
           World (<[ l := ODict (<[ key := x ]> d) ]> (heap w)) (next w)
                 (posts w))
      | _ => (Throw TypeError, w)
      end
  | _ => (Throw TypeError, w)
  end.

(** A dictionary display [{...}]: a new object. *)
Definition new_dict (d : gmap (list N) value) : op value := fun w =>
  (Done (VDict (next w)),
   World (<[ next w := ODict d ]> (heap w)) (Pos.succ (next w)) (posts w)).

(** [a % b] on integers. *)
Definition modulo (a b : Z) : op Z :=
  if (b =? 0)%Z then throw ZeroDivisionError else mret (a mod b)%Z.

End Obj.

(** ** insert_paddles_fixed.py *)

Module insert_paddles_fixed.

Import Obj.

(** One [if] statement of [fix_paddle_data]: an entry of the
    specifications that is missing or [None] gets a default. *)
Definition fix_null (paddle_data : value) (key : str) (x : value) : op unit :=
  specs ← getitem paddle_data (lit "specs");
  v ← get specs key;
  if is_none v then
    specs ← getitem paddle_data (lit "specs");
    setitem specs key x
  else mret tt.

(** [PaddleInserter.fix_paddle_data] *)
Definition fix_paddle_data (paddle_data : value) : op value :=
  _ ← fix_null paddle_data (lit "average_weight") (VFloat (Float.flt "8.0"));
  _ ← fix_null paddle_data (lit "core") (VFloat (Float.flt "16.0"));
  mret paddle_data.

(** [PaddleInserter.transform_paddle_data] *)
Definition transform_paddle_data (paddle_data : value) : op value :=
  paddle_data ← fix_paddle_data paddle_data;
  metadata ← getitem paddle_data (lit "metadata");
  brand ← getitem metadata (lit "brand");
  metadata ← getitem paddle_data (lit "metadata");
  model ← getitem metadata (lit "model");
  meta ← new_dict (<[ lit "model" := model ]> {[ lit "brand" := brand ]});
  specs ← getitem paddle_data (lit "specs");
  performance ← getitem paddle_data (lit "performance");
  new_dict (<[ lit "performance" := performance ]>
              (<[ lit "specs" := specs ]> {[ lit "metadata" := meta ]})).

Section Server.

(** The answer to a POST of a payload, as the heap has it: the status code
    of the response, or [None] when the request raises a
    [RequestException]. *)
Variable respond : gmap positive object -> value -> option Z.

(** [requests.post(..., json=paddle_data, ...)] *)
Definition post (paddle_data : value) : op (option Z) := fun w =>
  (Done (respond (heap w) paddle_data),
   World (heap w) (next w) (paddle_data :: posts w)).

(** The brand and the model a log message of [insert_paddle] shows. *)
Definition log_paddle (paddle_data : value) : op unit :=
  metadata ← getitem paddle_data (lit "metadata");
  _ ← getitem metadata (lit "brand");
  metadata ← getitem paddle_data (lit "metadata");
  _ ← getitem metadata (lit "model");
  mret tt.

(** [PaddleInserter.insert_paddle] *)
Definition insert_paddle (paddle_data : value) : op bool :=
  response ← post paddle_data;
  match response return op bool with
  | Some status_code =>
      if (status_code =? 201)%Z then
        _ ← log_paddle paddle_data; mret true
      else if (status_code =? 409)%Z then
        _ ← log_paddle paddle_data; mret true
      else
        _ ← log_paddle paddle_data; mret false
  | None => _ ← log_paddle paddle_data; mret false
  end.

(** The loop of [insert_paddles], from the index [i] on, with the two
    counters. *)
Fixpoint insert_loop (paddles : list value) (batch_size : Z) (i : Z)
  (successful_inserts failed_inserts : nat) : op (nat * nat) :=
  match paddles with
  | [] => mret (successful_inserts, failed_inserts)
  | paddle_data :: paddles' =>
      transformed_paddle ← transform_paddle_data paddle_data;
      insert_paddle transformed_paddle ≫= fun ok : bool =>
      let successful_inserts :=
        if ok then S successful_inserts else successful_inserts in
      let failed_inserts :=
        if ok then failed_inserts else S failed_inserts in
      _ ← modulo (i + 1) batch_size;
      insert_loop paddles' batch_size (i + 1) successful_inserts
                  failed_inserts
  end.

(** [PaddleInserter.insert_paddles], for the list [paddles] that
    [load_paddles_from_json] returns: the two counts of the last log
    message, or [None] when there is nothing to insert. *)
Definition insert_paddles (paddles : list value) (batch_size : Z)
  : op (option (nat * nat)) :=
  match paddles with
  | [] => mret None
  | _ =>
      counts ← insert_loop paddles batch_size 0 0 0;
      mret (Some counts)
  end.

End Server.

End insert_paddles_fixed.

(** ** galaxy_scraper.py: the listing pages, the title, the brand and the model

    [PickleballGalaxyScraper.get_paddle_urls], and the first part of
    [PickleballGalaxyScraper.scrape_paddle], up to the point where
    [galaxy_scraper.assemble] takes over.  A listing page enters through
    what the selectors find on it.  A product page enters through the
    text of the first element one of the title selectors finds
    ([title_elem], [None] when none does), the text of its [title]
    element ([title_from_head]), its URL, and the texts [assemble] reads.
    The case tables are the ASCII ones, as everywhere. *)

Module PickleballGalaxyScraper.

Definition base_url : str := lit "https://www.pickleballgalaxy.com".

(** What [get_paddle_urls] reads on a listing page: the [href] attributes
    ([None] for a link without one) of the links each of the four
    selectors finds, and whether one of the selectors of a next-page link
    finds an element. *)
Record listing : Type := mkListing {
  product_list_block_links : list (option str);
  product_list_links : list (option str);
  href_links : list (option str);
  title_links : list (option str);
  next_page : bool
}.

(** The address of the listing page [page]. *)
Definition page_url (page : nat) : str :=
  let base_url := base_url ++ lit "/all-pickleball-paddles.html" in
  let per_page := 40%nat in
  if (page =? 1)%nat then base_url
  else
    let offset := ((page - 1) * per_page)%nat in
    base_url ++ lit "?CatListingOffset=" ++ PyLib.str_of_nat offset
    ++ lit "&Offset=" ++ PyLib.str_of_nat offset
    ++ lit "&Per_Page=" ++ PyLib.str_of_nat per_page
    ++ lit "&Sort_By=disp_order".

(** The links of a listing page, by the first selector that finds some. *)
Definition select_paddle_links (soup : listing) : list (option str) :=
  let paddle_links := product_list_block_links soup in
  let paddle_links :=
    match paddle_links with
    | [] => product_list_links soup
    | _ => paddle_links
    end in
  match paddle_links with
  | [] =>
      match href_links soup with
      | [] => title_links soup
      | paddle_links => paddle_links
      end
  | _ => paddle_links
  end.

(** The loop over the links of a page. *)
Fixpoint add_links (paddle_urls : list str) (paddle_links : list (option str))
  : list str :=
  match paddle_links with
  | [] => paddle_urls
  | link :: paddle_links' =>
      match link with
      | Some ((_ :: _) as href) =>
          let href :=
            if negb (Py.startswith (lit "http") href) then
              if Py.startswith (lit "/") href
              then base_url ++ href
              else base_url ++ lit "/" ++ href
            else href in
          add_links (paddle_urls ++ [href]) paddle_links'
      | _ => add_links paddle_urls paddle_links'
      end
  end.

Section Listing.

(** [get_page] on a listing address: what the page shows, [None] when the
    request fails. *)
Variable get_page : str -> option listing.

(** The [while] loop of [get_paddle_urls].  [todo] is
    [max_pages + 1 - page], so that [page <= max_pages] reads [0 < todo];
    [requested] collects the addresses handed to [get_page]. *)
Fixpoint crawl (todo : nat) (page : nat) (paddle_urls requested : list str)
  : list str * list str :=
  match todo with
  | O => (paddle_urls, requested)
  | S todo' =>
      let page_url := page_url page in
      let requested := requested ++ [page_url] in
      match get_page page_url with
      | None => (paddle_urls, requested)
      | Some soup =>
          let paddle_links := select_paddle_links soup in
          match paddle_links with
          | [] => (paddle_urls, requested)
          | _ =>
              let paddle_urls := add_links paddle_urls paddle_links in
              if (match paddle_links with [] => true | _ => false end)
                 || ((1 <? page)%nat && negb (next_page soup))
              then (paddle_urls, requested)
              else crawl todo' (page + 1) paddle_urls requested
          end
      end
  end.

(** [get_paddle_urls]: the addresses of the paddles, and the addresses of
    the listing pages that were requested. *)
Definition get_paddle_urls : list str * list str :=
  let max_pages := 10%nat in
  crawl max_pages 1 [] [].

End Listing.

(** The first look at [title_elem]: an empty, short or navigation title is
    dropped. *)
Definition checked_title_elem (title_elem : option str) : option str :=
  match title_elem with
  | Some text =>
      let title_text := Py.strip text in
      if negb (Py.truthy title_text) || (length title_text <? 5)%nat
         || PyLib.is_in (Py.lower title_text)
              [lit "home"; lit "products"; lit "paddles"]
      then None
      else Some text
  | None => None
  end.

(** [title_text] before the URL is looked at. *)
Definition page_title (title_elem title_from_head : option str)
  : result str :=
  match checked_title_elem title_elem with
  | None =>
      match title_from_head with
      | Some text =>
          let title_text := Py.strip text in
          if Py.contains (lit " - ") title_text then
            first ← index (Py.split_on (lit " - ") title_text) 0;
            Ok (Py.strip first)
          else Ok title_text
      | None => Ok (lit "Unknown Product")
      end
  | Some text => Ok (Py.strip text)
  end.

(** The test on navigation text that ends the scrape. *)
Definition is_navigation (title_text : str) : bool :=
  PyLib.is_in (Py.lower title_text)
    [lit "home"; lit "products"; lit "categories"; lit "paddles"].

(** The name in the URL replaces a suspicious title. *)
Definition title_from_url (title_text url : str) : result str :=
  let url_parts := Py.split_on (lit "/") url in
  if (3 <? length url_parts)%nat then
    let url_filename := PyLib.last_item url_parts in
    if Py.contains (lit ".html") url_filename then
      url_paddle_name ← index (Py.split_on (lit ".html") url_filename) 0;
      let url_paddle_name :=
        PyLib.title (Py.replace (lit "-") (lit " ") url_paddle_name) in
      if (length title_text <? 10)%nat
         || PyLib.is_in (Py.lower title_text)
              [lit "home"; lit "products"; lit "paddles"]
      then Ok url_paddle_name
      else Ok title_text
    else Ok title_text
  else Ok title_text.

Definition common_brands : list str :=
  [ lit "Selkirk Labs"; lit "Selkirk"; lit "Engage"; lit "Joola";
    lit "Paddletek"; lit "Gearbox";
    lit "Franklin"; lit "CRBN"; lit "Diadem"; lit "HEAD"; lit "Gamma";
    lit "Players";
    lit "adidas"; lit "Adidas"; lit "OneShot"; lit "Electrum"; lit "SLK";
    lit "Legacy Pro"; lit "Rokne";
    lit "Babolat"; lit "TMPR"; lit "Pickleball Apes"; lit "ProKennex";
    lit "Vulcan";
    lit "Wilson"; lit "Onix"; lit "Prince"; lit "Rally"; lit "PROLITE";
    lit "Pro-Lite" ].

(** [f"\\b{re.escape(possible_brand)}\\b"] with [re.IGNORECASE] *)
Definition brand_re (possible_brand : str) : Re.regex :=
  Re.Cat Re.WordB (Re.Cat (Re.word true possible_brand) Re.WordB).

(** The loop over the brands of the list. *)
Fixpoint brand_in_title (brands : list str) (title_text : str)
  : option str :=
  match brands with
  | [] => None
  | possible_brand :: brands' =>
      if Py.startswith (Py.lower possible_brand) (Py.lower title_text)
      then Some possible_brand
      else
        match Re.search (brand_re possible_brand) title_text with
        | Some _ => Some possible_brand
        | None => brand_in_title brands' title_text
        end
  end.

(** [not brand] for [None] or a string. *)
Definition no_brand (brand : option str) : bool :=
  match brand with
  | Some b => negb (Py.truthy b)
  | None => true
  end.

(** The first word of the title, or its first two words, as the brand. *)
Definition brand_from_words (title_text url : str) : result (option str) :=
  let words := Py.split_ws title_text in
  if (1 <=? length words)%nat then
    brand ← index words 0;
    if (2 <=? length words)%nat then
      w0 ← index words 0;
      w1 ← index words 1;
      let two_word_brand := w0 ++ lit " " ++ w1 in
      if Py.contains (Py.replace (lit " ") (lit "-") (Py.lower two_word_brand))
                     (Py.lower url)
         || existsb (fun b => Py.contains (Py.lower two_word_brand) (Py.lower b))
                    common_brands
      then Ok (Some two_word_brand)
      else Ok (Some brand)
    else Ok (Some brand)
  else Ok None.

(** The brand of the list the URL names, for a brand that is not of the
    list. *)
Fixpoint brand_in_url (brands : list str) (url : str) : option str :=
  match brands with
  | [] => None
  | common_brand :: brands' =>
      if Py.contains (Py.replace (lit " ") (lit "-") (Py.lower common_brand))
                     (Py.lower url)
      then Some common_brand
      else brand_in_url brands' url
  end.

Definition resolve_brand (title_text url : str) : result str :=
  let brand := brand_in_title common_brands title_text in
  brand ← (if no_brand brand then brand_from_words title_text url
           else Ok brand);
  let brand := if no_brand brand then lit "Unknown" else default [] brand in
  if negb (Py.eqb brand (lit "Unknown"))
     && negb (existsb (fun common_brand =>
                         Py.eqb (Py.lower brand) (Py.lower common_brand))
                      common_brands)
  then
    match brand_in_url common_brands url with
    | Some url_brand => Ok url_brand
    | None => Ok brand
    end
  else Ok brand.

(** [f"^{re.escape(brand)}\\s+"] with [re.IGNORECASE], after the [^] *)
Definition brand_prefix_re (brand : str) : Re.regex :=
  Re.Cat (Re.word true brand) (Re.Plus Py.isspace).

Definition common_suffixes : list str :=
  [ lit "Pickleball Paddle"; lit "Paddle"; lit "Pickleball";
    lit "(Elongated)"; lit "Elongated"; lit "(Standard)"; lit "Standard";
    lit "(Lightweight)"; lit "Lightweight" ].

(** [f"{re.escape(suffix)}$"] with [re.IGNORECASE] *)
Definition suffix_re (suffix : str) : Re.regex :=
  Re.Cat (Re.word true suffix) Re.Dollar.

Definition source_names : list str :=
  [ lit "Pickleball Galaxy"; lit "Pickleball Central"; lit "Pickleball" ].

Definition resolve_model (brand title_text : str) : str :=
  let model := title_text in
  let model :=
    if negb (Py.eqb brand (lit "Unknown"))
    then Py.strip (PyLib.sub_caret (brand_prefix_re brand) [] model)
    else model in
  let model :=
    List.fold_left
      (fun model suffix => Py.strip (Re.sub (suffix_re suffix) [] model))
      common_suffixes model in
  let model := Py.strip (Re.sub data_models.paren_re (lit " ") model) in
  let model := data_models.squeeze model in
  let model :=
    List.fold_left
      (fun model source =>
         Py.strip (Re.sub (data_models.descriptor_re source) [] model))
      source_names model in
  let model := data_models.clean_model_name model in
  let model := data_models.squeeze model in
  if negb (Py.truthy model) then lit "Unknown Model" else model.

(** The body of the [try] block. *)
Definition scrape (title_elem title_from_head : option str)
  (url specs_text : str) (spec_items : list str) : result (option Paddle) :=
  title_text ← page_title title_elem title_from_head;
  if is_navigation title_text then Ok None
  else
    title_text ← title_from_url title_text url;
    brand ← resolve_brand title_text url;
    let model := resolve_model brand title_text in
    paddle ← galaxy_scraper.assemble brand model title_text specs_text
               spec_items;
    Ok (Some paddle).

(** [scrape_paddle] on a page that could be fetched; [except Exception]
    gives the page up. *)
Definition scrape_paddle (title_elem title_from_head : option str)
  (url specs_text : str) (spec_items : list str) : option Paddle :=
  match scrape title_elem title_from_head url specs_text spec_items with
  | Ok paddle => paddle
  | Raise _ => None
  end.

End PickleballGalaxyScraper.

(** ** Notions of the further properties

    The relation the matcher searches, the forms of the texts it captures,
    and the predicates the properties of the scrapers and of the loaders
    are stated with. *)

(** The sign of a float: [None] for a NaN. *)
Definition sign_bit (x : spec_float) : option bool :=
  match x with
  | S754_zero s | S754_infinity s | S754_finite s _ _ => Some s
  | S754_nan => None
  end.

(** [steps r st st']: a match of [r] can lead from the state [st] to the
    state [st'] (the relation the backtracking matcher searches). *)
Inductive steps : Re.regex -> Re.mstate -> Re.mstate -> Prop :=
| steps_eps st : steps Re.Eps st st
| steps_one cls c prev rest off grp :
    cls c = true ->
    steps (Re.One cls) (Re.MState prev (c :: rest) off grp)
          (Re.MState (Some c) rest (S off) grp)
| steps_star_stop cls st : steps (Re.Star cls) st st
| steps_star_more cls c prev rest off grp st' :
    cls c = true ->
    steps (Re.Star cls) (Re.MState (Some c) rest (S off) grp) st' ->
    steps (Re.Star cls) (Re.MState prev (c :: rest) off grp) st'
| steps_cat r1 r2 st st' st'' :
    steps r1 st st' -> steps r2 st' st'' -> steps (Re.Cat r1 r2) st st''
| steps_opt_some r st st' : steps r st st' -> steps (Re.Opt r) st st'
| steps_opt_none r st : steps (Re.Opt r) st st
| steps_group r st st' :
    steps r st st' ->
    steps (Re.Group r) st (Re.set_grp st' (Re.ms_off st, Re.ms_off st'))
| steps_dollar st :
    Re.at_dollar (Re.ms_rest st) = true -> steps Re.Dollar st st
| steps_wordb st :
    xorb (Re.is_word_opt (Re.ms_prev st))
         (Re.is_word_opt (head (Re.ms_rest st))) = true ->
    steps Re.WordB st st.

(** A pattern without a capturing group. *)
Fixpoint group_free (r : Re.regex) : bool :=
  match r with
  | Re.Cat r1 r2 => group_free r1 && group_free r2
  | Re.Opt r1 => group_free r1
  | Re.Group _ => false
  | _ => true
  end.

(** The texts the number pattern matches: digits, then nothing, or a point
    and digits. *)
Definition number_text (w : str) : Prop :=
  exists c ds fs,
    w = (c :: ds) ++ fs
    /\ Forall (fun x => Py.isdigit x = true) (c :: ds)
    /\ (fs = [] \/ exists d2, fs = 46 :: d2
                              /\ Forall (fun x => Py.isdigit x = true) d2).

(** [captures_number r]: [r] is the number pattern between two patterns
    without a group, so that group 1 of a match of [r] is a match of the
    number pattern. *)
Inductive captures_number : Re.regex -> Prop :=
| cn_here : captures_number number_re
| cn_left r1 r2 :
    captures_number r1 -> group_free r2 = true ->
    captures_number (Re.Cat r1 r2)
| cn_right r1 r2 :
    group_free r1 = true -> captures_number r2 ->
    captures_number (Re.Cat r1 r2).

(** The entry an [.o-layout__item] text writes into [specs_data]: the key,
    lower-cased and trimmed, and the trimmed value, cut at the first
    colon. *)
Definition item_entry (item_text : str) : option (str * str) :=
  if Py.contains (lit ":") item_text then
    match Py.split_once (lit ":") item_text with
    | [key; value] => Some (Py.lower (Py.strip key), Py.strip value)
    | _ => None
    end
  else None.

(** The value of the last of the items that writes the key. *)
Definition last_value (key : str) (items : list str) : option str :=
  snd <$> List.find (fun e => Py.eqb (fst e) key)
                    (rev (omap item_entry items)).

(** The card [c] with another price text. *)
Definition with_price (c : central_scraper.card) (price_text : str)
  : central_scraper.card :=
  central_scraper.mkCard (central_scraper.card_brand c)
    (central_scraper.card_title c) (central_scraper.card_href c)
    (Some price_text) (central_scraper.card_description c)
    (central_scraper.page_specs c).

(** The price text as [float] receives it. *)
Definition price_number (price_text : str) : str :=
  Py.replace (lit ",") [] (Py.replace (lit "$") [] (Py.strip price_text)).

(** The shapes a record of the Central scraper can have. *)
Definition central_shapes : list str :=
  [lit "Elongated"; lit "Hybrid"; lit "Wide-body"; lit "Standard"].

(** No closing parenthesis comes after an opening one. *)
Fixpoint no_paren_group (s : str) : bool :=
  match s with
  | [] => true
  | c :: s' =>
      (negb (c =? 40) || negb (existsb (N.eqb 41) s')) && no_paren_group s'
  end.

(** The characters a sanitized file name is made of: none of the invalid
    characters, no whitespace. *)
Definition safe_char (c : N) : bool :=
  negb (Re.one_of image_downloader.invalid_chars c) && negb (Py.isspace c).

(** [s] neither starts nor ends with a character of [chars]. *)
Definition clean_ends (chars : list N) (s : str) : Prop :=
  (forall c, head s = Some c -> existsb (N.eqb c) chars = false)
  /\ (forall c, head (rev s) = Some c -> existsb (N.eqb c) chars = false).

(** [captures body r]: the only group of [r] is [Group body], between
    patterns without a group, so that group 1 of a match of [r] is a match
    of [body]. *)
Inductive captures (body : Re.regex) : Re.regex -> Prop :=
| cap_here : captures body (Re.Group body)
| cap_left r1 r2 :
    captures body r1 -> group_free r2 = true ->
    captures body (Re.Cat r1 r2)
| cap_right r1 r2 :
    group_free r1 = true -> captures body r2 ->
    captures body (Re.Cat r1 r2).

(** [matched body w]: the pattern [body] can consume the text [w]. *)
Definition matched (body : Re.regex) (w : str) : Prop :=
  exists sa sb, steps body sa sb /\ Re.ms_rest sa = w ++ Re.ms_rest sb.

(** The dictionary a value refers to in a heap. *)
Definition dict_of (h : gmap positive Obj.object) (v : Obj.value)
  : option (gmap (list N) Obj.value) :=
  match v with
  | Obj.VDict l =>
      match h !! l with
      | Some (Obj.ODict d) => Some d
      | _ => None
      end
  | _ => None
  end.

(** Every location from the next free one on is free. *)
Definition fresh_from (w : Obj.world) : Prop :=
  forall l, (Obj.next w <= l)%positive -> Obj.heap w !! l = None.

(** An entry with a value other than [None]. *)
Definition has_value (d : gmap (list N) Obj.value) (key : str) : Prop :=
  exists x, d !! key = Some x /\ Obj.is_none x = false.

(** The specifications after [fix_paddle_data]. *)
Definition fixed_specs (d : gmap (list N) Obj.value)
  : gmap (list N) Obj.value :=
  let d1 :=
    if Obj.is_none (default Obj.VNone (d !! lit "average_weight"))
    then <[ lit "average_weight" := Obj.VFloat (Float.flt "8.0") ]> d
    else d in
  if Obj.is_none (default Obj.VNone (d1 !! lit "core"))
  then <[ lit "core" := Obj.VFloat (Float.flt "16.0") ]> d1
  else d1.

(** [possible_brand] passes one of the two tests of the loop over the
    brands. *)
Definition brand_hit (title_text possible_brand : str) : bool :=
  Py.startswith (Py.lower possible_brand) (Py.lower title_text)
  || match Re.search (PickleballGalaxyScraper.brand_re possible_brand)
             title_text with
     | Some _ => true
     | None => false
     end.

(** The key [brand_in_url] looks for in the URL. *)
Definition url_key (common_brand : str) : str :=
  Py.replace (lit " ") (lit "-") (Py.lower common_brand).

(** [u] is an absolute address. *)
Definition absolute (u : str) : Prop := Py.startswith (lit "http") u = true.

(** * Properties *)

(** ** Examples of the embedding *)

Example lower_ex : Py.lower (lit "SLK Era") = lit "slk era".
Proof. reflexivity. Qed.

Example replace_ex :
  Py.replace (lit "in") [] (lit "4 1/4in") = lit "4 1/4".
Proof. reflexivity. Qed.

Example split_ex :
  Py.split_on (lit "-") (lit "7.9-8.3") = [lit "7.9"; lit "8.3"].
Proof. reflexivity. Qed.

Example split_ws_ex :
  Py.split_ws (lit " 4  1/4 ") = [lit "4"; lit "1/4"].
Proof. reflexivity. Qed.

Example split_once_ex :
  Py.split_once (lit ":") (lit "a:b:c") = [lit "a"; lit "b:c"].
Proof. reflexivity. Qed.

Example re_search_ex :
  Re.search (Re.Group (Re.Cat (Re.Plus Py.isdigit)
               (Re.Cat (Re.Opt (Re.One (Re.chr 46))) (Re.Star Py.isdigit))))
            (lit "abc 16.5 in") = Some (Re.MObj (lit "16.5") (Some (lit "16.5"))).
Proof. reflexivity. Qed.

Example re_sub_ex :
  Re.sub (Re.Plus Py.isspace) (lit " ") (lit "a  b   c") = lit "a b c".
Proof. reflexivity. Qed.

Example float_tenth :
  Float.flt "0.1" = S754_finite false 7205759403792794 (-56).
Proof. vm_compute. reflexivity. Qed.

Example float_7_9 :
  Float.flt "7.9" = S754_finite false 8894609264056730 (-50).
Proof. vm_compute. reflexivity. Qed.

Example float_mean :
  Float.truediv (Float.add (Float.flt "7.9") (Float.flt "8.3")) (Float.flt "2")
  = Ok (Float.flt "8.100000000000001").
Proof. vm_compute. reflexivity. Qed.

Example float_mean_ne :
  Float.flt "8.100000000000001" <> Float.flt "8.1".
Proof. vm_compute. discriminate. Qed.

Example float_forms :
  Float.of_str (lit " 16. ") = Ok (Float.flt "16")
  /\ Float.of_str (lit "1_0e-1") = Ok (Float.flt "1.0")
  /\ Float.of_str (lit ".5") = Ok (Float.flt "0.5")
  /\ Float.of_str (lit "1e") = Raise ValueError
  /\ Float.of_str (lit "4 1") = Raise ValueError
  /\ Float.of_str (lit "") = Raise ValueError
  /\ Float.of_str (lit "-Inf") = Ok (S754_infinity true)
  /\ Float.of_str (lit "1e400") = Ok (S754_infinity false)
  /\ Float.of_str (lit "5e-324") = Ok (S754_finite false 1 (-1074))
  /\ Float.of_str (lit "2e-324") = Ok (S754_zero false)
  /\ Float.of_str (lit "1.7976931348623157e308") = Ok (S754_finite false 9007199254740991 971).
Proof. vm_compute. repeat split; reflexivity. Qed.

Example clean_ex1 :
  data_models.clean_model_name (lit "Selkirk Paddle | SALE") = lit "Selkirk".
Proof. vm_compute. reflexivity. Qed.

Example clean_ex2 :
  data_models.clean_model_name (lit "Foo Paddle SALE") = lit "Foo Paddle"
  /\ data_models.clean_model_name (lit "Foo Paddle") = lit "Foo".
Proof. vm_compute. split; reflexivity. Qed.

Example norm_ex :
  data_models.normalize_paddle_shape (Some (lit " Standard ")) = lit "Wide-body"
  /\ data_models.normalize_paddle_shape (Some (lit "LONG")) = lit "Elongated".
Proof. vm_compute. split; reflexivity. Qed.

Example dm_extract_ex :
  data_models.extract_float (lit "1/4") = Ok (Some (Float.flt "1")).
Proof. vm_compute. reflexivity. Qed.

Example ps_extract_ex :
  paddle_scraper.extract_float (lit "4 1/4in") = Ok (Some (Float.flt "4.25"))
  /\ paddle_scraper.extract_float (lit "1/4") = Ok (Some (Float.flt "0.25"))
  /\ paddle_scraper.extract_float (lit "7.9-8.3 ounces") = Ok (Some (Float.flt "7.9"))
  /\ paddle_scraper.extract_float (lit "not a number") = Ok None
  /\ paddle_scraper.extract_float (lit "1/0") = Ok (Some (Float.flt "1"))
  /\ paddle_scraper.extract_float (lit "4 1/0") = Ok (Some (Float.flt "4"))
  /\ paddle_scraper.extract_float (lit "x/4") = Ok (Some (Float.flt "4"))
  /\ paddle_scraper.extract_float (lit "") = Ok None.
Proof. vm_compute. repeat split; reflexivity. Qed.

Example galaxy_ex :
  galaxy_scraper.scrape_paddle (lit "Selkirk") (lit "SLK Era Power")
    (lit "Selkirk SLK Era Power Elongated Pickleball Paddle") (lit "A 16mm core paddle.")
    [lit "Paddle Length: 16.5 in"; lit "Weight: 7.9-8.3 ounces"; lit "Grip Size: 4 1/8 in *may vary"]
  = Some (mkPaddle (lit "selkirk-slk-era-power")
            (mkMetadata (lit "Selkirk") (lit "SLK Era Power") (lit "Pickleball Galaxy"))
            (mkSpecs (Some (lit "Elongated")) None (Some (Float.flt "8.100000000000001"))
               (Some (Float.flt "16")) (Some (Float.flt "16.5")) None None None (Some (Float.flt "4")))
            None).
Proof. vm_compute. reflexivity. Qed.

Example central_ex :
  central_scraper.scrape_cards (fun _ => Float.flt "0.5")
    [central_scraper.mkCard (Some (lit "Selkirk")) (Some (lit "SLK Era")) None
       (Some (lit "$199.99")) None ∅] 0
  = [mkPaddle (lit "selkirk-slk-era")
       (mkMetadata (lit "Selkirk") (lit "SLK Era") (lit "Pickleball Central"))
       (mkSpecs (Some (lit "Standard")) (Some (lit "Carbon Fiber"))
          (Some (Float.flt "215.0")) (Some (Float.flt "14.5"))
          (Some (Float.flt "16.0")) (Some (Float.flt "7.5"))
          (Some (Float.flt "5.0")) (Some (lit "Standard"))
          (Some (Float.flt "4.25")))
       (Some (mkPerformance (Float.flt "80") (Float.flt "75") (Float.flt "3000")
                (Float.flt "200") (Float.flt "215") (Float.flt "29")))].
Proof. vm_compute. reflexivity. Qed.

(** ** The shape classifier *)

Lemma SFcompare_antisym x y c :
  SFcompare x y = Some c -> SFcompare y x = Some (CompOpp c).
Proof.
  destruct x as [sx|sx| |sx mx ex], y as [sy|sy| |sy my ey]; simpl;
    intros H; try discriminate; injection H as <-;
    try (destruct sx; try destruct sy; reflexivity);
    try (destruct sy; reflexivity).
  destruct sx, sy; try reflexivity; f_equal;
    rewrite (Z.compare_antisym ex ey);
    destruct (ex ?= ey)%Z; simpl; try reflexivity.
  all: rewrite (Pos.compare_cont_antisym mx my Eq); reflexivity.
Qed.

Lemma lt_negb_ge x c :
  Float.is_nan x = false -> Float.is_nan c = false ->
  Float.lt x c = negb (Float.ge x c).
Proof.
  intros Hx Hc. unfold Float.lt, Float.ge, SFltb, SFleb.
  destruct (SFcompare c x) as [r|] eqn:E.
  - rewrite (SFcompare_antisym _ _ _ E). destruct r; reflexivity.
  - destruct x, c; simpl in *; try discriminate;
      repeat match goal with s : bool |- _ => destruct s end; discriminate.
Qed.

Lemma flt_16_5 : Float.flt "16.5" = S754_finite false 4644337115725824 (-48).
Proof. vm_compute. reflexivity. Qed.

Lemma flt_16_25 : Float.flt "16.25" = S754_finite false 4573968371548160 (-48).
Proof. vm_compute. reflexivity. Qed.

Lemma SFleb_mono m1 m2 e0 x :
  (m2 <= m1)%positive ->
  SFleb (S754_finite false m1 e0) x = true ->
  SFleb (S754_finite false m2 e0) x = true.
Proof.
  intros Hm. unfold SFleb.
  destruct x as [[|]|[|]| |[|] m e]; cbn [SFcompare]; try congruence.
  destruct (e0 ?= e)%Z; try congruence.
  change (Pos.compare_cont Eq m1 m) with (Pos.compare m1 m).
  change (Pos.compare_cont Eq m2 m) with (Pos.compare m2 m).
  destruct (Pos.compare_spec m1 m), (Pos.compare_spec m2 m);
    try congruence; lia.
Qed.

Lemma ge_thresholds x :
  Float.ge x (Float.flt "16.5") = true -> Float.ge x (Float.flt "16.25") = true.
Proof.
  rewrite flt_16_5, flt_16_25. unfold Float.ge.
  apply SFleb_mono. apply Pos.leb_le. vm_compute. reflexivity.
Qed.

Lemma shape_names_distinct :
  lit "Elongated" <> lit "Hybrid" /\ lit "Elongated" <> lit "Wide-body"
  /\ lit "Hybrid" <> lit "Wide-body".
Proof. repeat split; discriminate. Qed.

(** C6 (amended).  For every float [x], the length classifier returns
    "Elongated" exactly when [x >= 16.5], "Hybrid" exactly when
    [16.25 <= x < 16.5], and "Wide-body" exactly when [x < 16.25] or [x] is
    NaN; at the boundaries 16.5 is Elongated, 16.25 is Hybrid and 16.0 is
    Wide-body. *)
Theorem C6_length_classifier (x : spec_float) :
  (data_models.determine_paddle_shape_from_length x = lit "Elongated"
   <-> Float.ge x (Float.flt "16.5") = true)
  /\ (data_models.determine_paddle_shape_from_length x = lit "Hybrid"
      <-> Float.ge x (Float.flt "16.25") = true
          /\ Float.lt x (Float.flt "16.5") = true)
  /\ (data_models.determine_paddle_shape_from_length x = lit "Wide-body"
      <-> Float.lt x (Float.flt "16.25") = true \/ x = S754_nan)
  /\ data_models.determine_paddle_shape_from_length (Float.flt "16.5")
     = lit "Elongated"
  /\ data_models.determine_paddle_shape_from_length (Float.flt "16.25")
     = lit "Hybrid"
  /\ data_models.determine_paddle_shape_from_length (Float.flt "16.0")
     = lit "Wide-body".
Proof.
  destruct shape_names_distinct as (H1 & H2 & H3).
  split; [|split; [|split; [|repeat split; vm_compute; reflexivity]]].
  all: unfold data_models.determine_paddle_shape_from_length.
  all: pose proof (ge_thresholds x) as Hm.
  all: pose proof (lt_negb_ge x (Float.flt "16.5")) as L1.
  all: pose proof (lt_negb_ge x (Float.flt "16.25")) as L2.
  all: assert (Hnan : x = S754_nan ->
                 Float.ge x (Float.flt "16.5") = false
                 /\ Float.ge x (Float.flt "16.25") = false
                 /\ Float.lt x (Float.flt "16.5") = false
                 /\ Float.lt x (Float.flt "16.25") = false)
         by (intros ->; vm_compute; auto).
  all: assert (Hn : Float.is_nan x = true -> x = S754_nan)
         by (destruct x; simpl; congruence).
  all: assert (Hn' : x = S754_nan -> Float.is_nan x = true)
         by (intros ->; reflexivity).
  all: revert Hm L1 L2 Hnan.
  all: generalize (Float.lt x (Float.flt "16.5")) (Float.lt x (Float.flt "16.25")).
  all: generalize (Float.ge x (Float.flt "16.5")) (Float.ge x (Float.flt "16.25")).
  all: generalize dependent (Float.is_nan x).
  all: generalize (lit "Elongated") (lit "Hybrid") (lit "Wide-body") H1 H2 H3.
  all: clear; intros E H W H1 H2 H3 n Hn Hn' a b l1 l2 Hm L1 L2 Hnan.
  all: destruct n, a, b; simpl in *.
  all: try (specialize (Hm eq_refl); discriminate Hm).
  all: try (destruct (Hnan (Hn eq_refl)) as (? & ? & ? & ?); discriminate).
  all: try (rewrite (L1 eq_refl eq_refl)).
  all: try (rewrite (L2 eq_refl eq_refl)).
  all: simpl; split; intros K; try tauto; try congruence.
  all: try (symmetry in K; tauto).
  all: try (destruct K; congruence).
  all: try (destruct K as [K|K]; [congruence|specialize (Hn' K); discriminate]).
  all: try (destruct (Hnan (Hn eq_refl)) as (? & ? & ? & ?); congruence).
Qed.

(** C6 (as stated) fails at NaN: the classifier answers "Wide-body", and
    [NaN < 16.25] is false. *)
Lemma C6_counterexample :
  ~ (data_models.determine_paddle_shape_from_length S754_nan = lit "Wide-body"
     <-> Float.lt S754_nan (Float.flt "16.25") = true).
Proof. vm_compute. intros [H _]. specialize (H eq_refl). discriminate H. Qed.

(** ** The identity assigner *)

Lemma replace_space_hyphen (s : str) :
  Py.replace (lit " ") (lit "-") s
  = List.map (fun c => if c =? 32 then 45 else c) s.
Proof.
  change (lit " ") with [32]. change (lit "-") with [45].
  unfold Py.replace.
  induction s as [|c s IH]; [reflexivity|].
  cbn [Py.replace_from Py.startswith length Nat.sub List.map].
  rewrite andb_true_r, N.eqb_sym, IH.
  destruct (c =? 32); reflexivity.
Qed.

Lemma isspace_printable (c : N) : 33 <= c <= 132 -> Py.isspace c = false.
Proof.
  intros H. unfold Py.isspace.
  replace (c <=? 13) with false by (symmetry; apply N.leb_gt; lia).
  replace (c <=? 32) with false by (symmetry; apply N.leb_gt; lia).
  replace (8192 <=? c) with false by (symmetry; apply N.leb_gt; lia).
  repeat match goal with
         | |- context [c =? ?k] =>
             replace (c =? k) with false by (symmetry; apply N.eqb_neq; lia)
         end.
  rewrite ?andb_false_r. reflexivity.
Qed.

Lemma isupper_range (c : N) : Py.isupper c = true -> 65 <= c <= 90.
Proof.
  unfold Py.isupper. intros H. apply andb_true_iff in H as [H1 H2].
  apply N.leb_le in H1, H2. lia.
Qed.

Lemma isspace_lower_char (c : N) :
  Py.isspace (Py.lower_char c) = Py.isspace c.
Proof.
  unfold Py.lower_char. destruct (Py.isupper c) eqn:E; [|reflexivity].
  apply isupper_range in E.
  rewrite !isspace_printable by lia. reflexivity.
Qed.

Lemma lower_char_space (c : N) : (Py.lower_char c =? 32) = (c =? 32).
Proof.
  unfold Py.lower_char. destruct (Py.isupper c) eqn:E; [|reflexivity].
  apply isupper_range in E.
  destruct (N.eqb_spec (c + 32) 32), (N.eqb_spec c 32); try reflexivity; lia.
Qed.

Lemma isspace_32 : Py.isspace 32 = true.
Proof. reflexivity. Qed.

Lemma hyphenate_lower (s : str) :
  (forall c, In c s -> Py.isspace c = true -> c = 32) ->
  Py.replace (lit " ") (lit "-") (Py.lower s) = hyphenate_spec (Py.lower s).
Proof.
  intros H. rewrite replace_space_hyphen. unfold hyphenate_spec, Py.lower.
  rewrite !List.map_map. apply List.map_ext_in. intros c Hc.
  rewrite lower_char_space, isspace_lower_char.
  destruct (N.eqb_spec c 32) as [->|Hne]; [reflexivity|].
  destruct (Py.isspace c) eqn:E; [|reflexivity].
  exfalso. apply Hne. apply H; assumption.
Qed.

(** C8 (amended).  For all brand and model strings whose only whitespace
    characters are spaces (U+0020), the id is the lower-cased,
    whitespace-to-hyphen slug of the specification; and whatever the
    strings, two calls whose inputs are equal after lower-casing yield the
    same id. *)
Theorem C8_identity_slug (brand model : str) :
  (forall c, In c (brand ++ model) -> Py.isspace c = true -> c = 32) ->
  data_models.generate_paddle_id brand model = slug_spec brand model
  /\ (forall brand' model',
         Py.lower brand' = Py.lower brand ->
         Py.lower model' = Py.lower model ->
         data_models.generate_paddle_id brand' model'
         = data_models.generate_paddle_id brand model).
Proof.
  intros H. split.
  - unfold data_models.generate_paddle_id, slug_spec.
    rewrite !hyphenate_lower; [reflexivity| |];
      intros c Hc; apply H; apply in_or_app; auto.
  - intros brand' model' Hb Hm. unfold data_models.generate_paddle_id.
    rewrite Hb, Hm. reflexivity.
Qed.

Lemma C8_witness :
  data_models.generate_paddle_id (lit "Selkirk") (lit "SLK Era")
  = slug_spec (lit "Selkirk") (lit "SLK Era")
  /\ data_models.generate_paddle_id (lit "selkirk") (lit "slk era")
     = data_models.generate_paddle_id (lit "Selkirk") (lit "SLK Era").
Proof.
  assert (H : forall c, In c (lit "Selkirk" ++ lit "SLK Era") ->
                        Py.isspace c = true -> c = 32).
  { intros c Hc Hs. vm_compute in Hc.
    repeat (destruct Hc as [<-|Hc]; [first [reflexivity|discriminate Hs]|]).
    destruct Hc. }
  destruct (C8_identity_slug (lit "Selkirk") (lit "SLK Era") H) as [H1 H2].
  split; [exact H1|].
  apply H2; reflexivity.
Defined.

(** C8 (as stated) fails on whitespace other than the space: a tab is kept,
    where the slug of the specification has a hyphen. *)
Lemma C8_counterexample :
  data_models.generate_paddle_id [97; 9; 98] (lit "c") = [97; 9; 98; 45; 99]
  /\ slug_spec [97; 9; 98] (lit "c") = lit "a-b-c"
  /\ data_models.generate_paddle_id [97; 9; 98] (lit "c")
     <> slug_spec [97; 9; 98] (lit "c").
Proof. vm_compute. repeat split; try reflexivity. discriminate. Qed.

(** C10.  The id collides across distinct brand and model pairs: a space
    inside a name and the separator between brand and model are both
    rendered as a hyphen. *)
Theorem C10_id_collision :
  data_models.generate_paddle_id (lit "a b") (lit "c") = lit "a-b-c"
  /\ data_models.generate_paddle_id (lit "a") (lit "b c") = lit "a-b-c"
  /\ exists b1 m1 b2 m2 : list N,
       b1 <> b2 /\ m1 <> m2
       /\ data_models.generate_paddle_id b1 m1
          = data_models.generate_paddle_id b2 m2.
Proof.
  split; [reflexivity|]. split; [reflexivity|].
  exists (lit "a b"), (lit "c"), (lit "a"), (lit "b c").
  split; [discriminate|split; [discriminate|reflexivity]].
Qed.

(** ** The performance ratings *)

Lemma galaxy_assemble_performance brand model title_text specs_text items p :
  galaxy_scraper.assemble brand model title_text specs_text items = Ok p ->
  performance p = None.
Proof.
  unfold galaxy_scraper.assemble. intros H.
  repeat match type of H with
         | (mbind _ ?c = Ok _) =>
             let E := fresh "E" in
             destruct c eqn:E; cbn [mbind result_bind] in H;
             [|discriminate H]
         end.
  injection H as <-. reflexivity.
Qed.

(** The Galaxy adapter never synthesizes performance metrics. *)
Lemma galaxy_never_synthesizes brand model title_text specs_text items p :
  galaxy_scraper.scrape_paddle brand model title_text specs_text items
  = Some p ->
  performance p = None.
Proof.
  unfold galaxy_scraper.scrape_paddle.
  destruct (galaxy_scraper.assemble _ _ _ _ _) eqn:E; [|discriminate].
  intros [= <-]. eapply galaxy_assemble_performance; eassumption.
Qed.

(** Every record of the Central adapter carries performance metrics, made
    of the base values and the random offsets. *)
Lemma central_always_synthesizes entropy c seed p seed' :
  central_scraper.process_card entropy c seed = (Ok (Some p), seed') ->
  exists seed0,
    performance p
    = Some (fst (central_scraper.make_performance entropy seed0)).
Proof.
  unfold central_scraper.process_card.
  destruct (central_scraper.card_brand c), (central_scraper.card_title c),
    (central_scraper.card_price c);
    try discriminate.
  destruct (_ && _); [discriminate|].
  destruct (Float.of_str _); [|discriminate].
  destruct (if Py.truthy _ then _ else _) as [specs seed1].
  destruct (central_scraper.resolve_shape _ _); [|discriminate].
  destruct (central_scraper.make_performance entropy seed1) as [perf seed2] eqn:E.
  intros [= <- <-]. exists seed1. rewrite E. reflexivity.
Qed.

(** C2: the Central adapter on a card that shows no performance data at
    all.  The record carries six ratings, and they follow the random
    generator: with every draw 0.5 they are the base values, with
    every draw 0.25 they are not. *)
Theorem C2_central_fabricates_performance :
  let c := central_scraper.mkCard (Some (lit "Selkirk")) (Some (lit "SLK Era"))
             None (Some (lit "$199.99")) None ∅ in
  List.map performance
    (central_scraper.scrape_cards (fun _ => Float.flt "0.5") [c] 0)
  = [Some (mkPerformance (Float.flt "80") (Float.flt "75") (Float.flt "3000")
             (Float.flt "200") (Float.flt "215") (Float.flt "29"))]
  /\ List.map performance
       (central_scraper.scrape_cards (fun _ => Float.flt "0.25") [c] 0)
     = [Some (mkPerformance (Float.flt "77.5") (Float.flt "72.5")
                (Float.flt "2800") (Float.flt "192.5") (Float.flt "207.5")
                (Float.flt "28"))].
Proof. vm_compute. split; reflexivity. Qed.

(** ** The two numeric extractors *)

(** C9: on the input ["1/4"] the extractor of [data_models.py], the one the
    Galaxy scraper imports, returns 1.0 where the extractor of
    [paddle_scraper.py] returns 0.25; on ["4 1/8"] it returns 4.0 where the
    other returns 4.125. *)
Theorem C9_extractors_differ :
  data_models.extract_float (lit "1/4") = Ok (Some (Float.flt "1.0"))
  /\ paddle_scraper.extract_float (lit "1/4") = Ok (Some (Float.flt "0.25"))
  /\ data_models.extract_float (lit "1/4")
     <> paddle_scraper.extract_float (lit "1/4")
  /\ data_models.extract_float (lit "4 1/8") = Ok (Some (Float.flt "4.0"))
  /\ paddle_scraper.extract_float (lit "4 1/8")
     = Ok (Some (Float.flt "4.125")).
Proof. vm_compute. repeat split; try reflexivity. discriminate. Qed.

(** ** Lemmas on the string operations *)

Lemma startswith_single (k c : N) (s : str) :
  Py.startswith [k] (c :: s) = (k =? c).
Proof. simpl. apply andb_true_r. Qed.

Lemma contains_single_in (k : N) (s : str) :
  In k s -> Py.contains [k] s = true.
Proof.
  induction s as [|c s IH]; [intros []|].
  intros [->|H]; cbn [Py.contains]; rewrite startswith_single.
  - rewrite N.eqb_refl. reflexivity.
  - rewrite IH by assumption. apply orb_true_r.
Qed.

Lemma contains_single_not_in (k : N) (s : str) :
  ~ In k s -> Py.contains [k] s = false.
Proof.
  induction s as [|c s IH]; [reflexivity|].
  intros H. cbn [Py.contains]. rewrite startswith_single.
  destruct (N.eqb_spec k c) as [->|Hne]; [exfalso; apply H; left; reflexivity|].
  apply IH. intros K. apply H. right. exact K.
Qed.

Lemma split_single_none (k : N) (cur s : str) :
  ~ In k s -> Py.split_from [k] 0 cur s = [rev cur ++ s].
Proof.
  revert cur. induction s as [|c s IH]; intros cur H.
  - simpl. rewrite app_nil_r. reflexivity.
  - cbn [Py.split_from]. rewrite startswith_single.
    destruct (N.eqb_spec k c) as [->|Hne]; [exfalso; apply H; left; reflexivity|].
    rewrite IH by (intros K; apply H; right; exact K).
    simpl. rewrite <- app_assoc. reflexivity.
Qed.

Lemma split_single_cut (k : N) (cur a b : str) :
  ~ In k a ->
  Py.split_from [k] 0 cur (a ++ k :: b)
  = (rev cur ++ a) :: Py.split_from [k] 0 [] b.
Proof.
  revert cur. induction a as [|c a IH]; intros cur H.
  - cbn [app Py.split_from]. rewrite startswith_single, N.eqb_refl.
    rewrite app_nil_r. reflexivity.
  - cbn [app Py.split_from]. rewrite startswith_single.
    destruct (N.eqb_spec k c) as [->|Hne]; [exfalso; apply H; left; reflexivity|].
    rewrite IH by (intros K; apply H; right; exact K).
    simpl. rewrite <- app_assoc. reflexivity.
Qed.

(** [(a + k + b).split(k) == [a, b]] when [k] occurs in neither. *)
Lemma split_on_single (k : N) (a b : str) :
  ~ In k a -> ~ In k b -> Py.split_on [k] (a ++ k :: b) = [a; b].
Proof.
  intros Ha Hb. unfold Py.split_on.
  rewrite split_single_cut by assumption.
  rewrite split_single_none by assumption. reflexivity.
Qed.

Lemma count_single_none (k : N) (s : str) :
  ~ In k s -> Py.count_from [k] 0 s = 0%nat.
Proof.
  induction s as [|c s IH]; [reflexivity|].
  intros H. cbn [Py.count_from]. rewrite startswith_single.
  destruct (N.eqb_spec k c) as [->|Hne]; [exfalso; apply H; left; reflexivity|].
  apply IH. intros K. apply H. right. exact K.
Qed.

Lemma count_single_one (k : N) (a b : str) :
  ~ In k a -> ~ In k b -> Py.count [k] (a ++ k :: b) = 1%nat.
Proof.
  intros Ha Hb. unfold Py.count.
  induction a as [|c a IH].
  - cbn [app Py.count_from]. rewrite startswith_single, N.eqb_refl.
    cbn [length Nat.sub]. rewrite count_single_none by assumption. reflexivity.
  - cbn [app Py.count_from]. rewrite startswith_single.
    destruct (N.eqb_spec k c) as [->|Hne]; [exfalso; apply Ha; left; reflexivity|].
    apply IH. intros K. apply Ha. right. exact K.
Qed.

Lemma lstrip_head (c : N) (s : str) :
  Py.isspace c = false -> Py.lstrip (c :: s) = c :: s.
Proof. intros H. simpl. rewrite H. reflexivity. Qed.

(** A string that neither starts nor ends with whitespace is its own
    [strip()]. *)
Lemma strip_id (s : str) :
  (forall c, head s = Some c -> Py.isspace c = false) ->
  (forall c, head (rev s) = Some c -> Py.isspace c = false) ->
  Py.strip s = s.
Proof.
  intros Hh Hl. unfold Py.strip, Py.rstrip.
  assert (E : Py.lstrip s = s).
  { destruct s as [|c s]; [reflexivity|]. apply lstrip_head. apply Hh. reflexivity. }
  rewrite E.
  assert (E' : Py.lstrip (rev s) = rev s).
  { destruct (rev s) as [|c r] eqn:R; [reflexivity|].
    apply lstrip_head. apply Hl. reflexivity. }
  rewrite E'. apply rev_involutive.
Qed.

Lemma eqb_eq (a b : str) : Py.eqb a b = true -> a = b.
Proof.
  revert b. induction a as [|x a IH]; intros [|y b] H; try discriminate; auto.
  simpl in H. apply andb_true_iff in H as [H1 H2].
  apply N.eqb_eq in H1. subst. f_equal. auto.
Qed.

Lemma split_ws_from_nows (cur s : str) :
  (forall c, In c s -> Py.isspace c = false) ->
  Py.split_ws_from cur s
  = match rev cur ++ s with [] => [] | w => [w] end.
Proof.
  revert cur. induction s as [|c s IH]; intros cur H.
  - simpl. rewrite app_nil_r. destruct cur as [|x cur]; [reflexivity|].
    destruct (rev (x :: cur)) eqn:E; [|reflexivity].
    apply (f_equal (@length N)) in E. rewrite length_rev in E. discriminate.
  - cbn [Py.split_ws_from]. rewrite (H c) by (left; reflexivity).
    rewrite IH by (intros x Hx; apply H; right; exact Hx).
    simpl. rewrite <- app_assoc. reflexivity.
Qed.

(** [(w + " " + r).split() == [w, r]] for two non-empty words. *)
Lemma split_ws_two (w r : str) (sp : N) :
  Py.isspace sp = true -> w <> [] -> r <> [] ->
  (forall c, In c w -> Py.isspace c = false) ->
  (forall c, In c r -> Py.isspace c = false) ->
  Py.split_ws (w ++ sp :: r) = [w; r].
Proof.
  intros Hsp Hw Hr Hnw Hnr. unfold Py.split_ws.
  assert (G : forall cur, rev cur ++ w <> [] ->
            Py.split_ws_from cur (w ++ sp :: r) = [rev cur ++ w; r]).
  { clear Hw. induction w as [|c w IH]; intros cur Hne.
    - cbn [app Py.split_ws_from]. rewrite Hsp. rewrite app_nil_r in *.
      rewrite split_ws_from_nows by assumption. cbn [rev app].
      destruct cur as [|x cur]; [exfalso; apply Hne; reflexivity|].
      destruct r; [exfalso; apply Hr; reflexivity|]. reflexivity.
    - cbn [app Py.split_ws_from]. rewrite (Hnw c) by (left; reflexivity).
      rewrite IH.
      + simpl. rewrite <- app_assoc. reflexivity.
      + intros x Hx. apply Hnw. right. exact Hx.
      + simpl. rewrite <- app_assoc. simpl. destruct (rev cur); discriminate. }
  apply (G []). exact Hw.
Qed.

Lemma lstrip_suffix (s : str) : exists w, s = w ++ Py.lstrip s.
Proof.
  induction s as [|c s [w IH]]; [exists []; reflexivity|].
  cbn [Py.lstrip]. destruct (Py.isspace c).
  - exists (c :: w). cbn. f_equal. exact IH.
  - exists []. reflexivity.
Qed.

(** [s.strip()] is an inner piece of [s]. *)
Lemma strip_decompose (s : str) :
  exists a b, s = a ++ Py.strip s ++ b.
Proof.
  unfold Py.strip, Py.rstrip.
  destruct (lstrip_suffix s) as [a Ha].
  destruct (lstrip_suffix (rev (Py.lstrip s))) as [w Hw].
  exists a, (rev w).
  rewrite <- rev_app_distr, <- Hw, rev_involutive. exact Ha.
Qed.

Lemma strip_chars (s : str) (c : N) : In c (Py.strip s) -> In c s.
Proof.
  destruct (strip_decompose s) as (a & b & E). intros H.
  rewrite E. apply in_or_app. right. apply in_or_app. left. exact H.
Qed.

(** ** Lemmas on [float(s)] *)

(** [float(s)] raises nothing but [ValueError]. *)
Lemma of_str_raises (s : str) (e : exn) :
  Float.of_str s = Raise e -> e = ValueError.
Proof.
  unfold Float.of_str. destruct (Float.sign (Py.strip s)) as [neg r].
  destruct (_ || _); [discriminate|].
  destruct (Py.eqb _ _); [discriminate|].
  destruct (Float.floatnumber neg r); [discriminate|].
  intros [= <-]. reflexivity.
Qed.

Lemma digitpart_rest_keeps (k : N) (s : str) :
  Py.isdigit k = false -> k <> 95 ->
  forall acc n, In k s -> In k (snd (Float.digitpart_rest acc n s)).
Proof.
  intros Hd Hu.
  assert (G : forall m s, (length s <= m)%nat ->
              forall acc n, In k s -> In k (snd (Float.digitpart_rest acc n s))).
  { clear s. induction m as [|m IH]; intros s Hlen acc n Hin.
    - destruct s; [destruct Hin|simpl in Hlen; lia].
    - destruct s as [|c s]; [destruct Hin|].
      cbn [Float.digitpart_rest].
      destruct (Py.isdigit c) eqn:Ec.
      + apply IH; [simpl in Hlen; lia|].
        destruct Hin as [->|Hin]; [congruence|exact Hin].
      + destruct (N.eqb_spec c 95) as [->|Hne]; [|exact Hin].
        destruct Hin as [E|Hin]; [congruence|].
        destruct s as [|d s]; [right; exact Hin|].
        destruct (Py.isdigit d) eqn:Ed; [|right; exact Hin].
        apply IH; [simpl in Hlen; lia|].
        destruct Hin as [->|Hin]; [congruence|exact Hin]. }
  intros acc n. apply (G (length s)). lia.
Qed.

Lemma digitpart_keeps (k : N) (s : str) v n rest :
  Py.isdigit k = false -> k <> 95 ->
  In k s -> Float.digitpart s = Some (v, n, rest) -> In k rest.
Proof.
  intros Hd Hu Hin. unfold Float.digitpart.
  destruct s as [|c s]; [discriminate|].
  destruct (Py.isdigit c) eqn:Ec; [|discriminate].
  intros [= E].
  destruct Hin as [->|Hin]; [congruence|].
  pose proof (digitpart_rest_keeps k s Hd Hu (Float.digit_val c) 1%nat Hin) as K.
  rewrite E in K. exact K.
Qed.

Lemma sign_keeps (k : N) (s : str) :
  k <> 45 -> k <> 43 -> In k s -> In k (snd (Float.sign s)).
Proof.
  intros H1 H2 Hin. unfold Float.sign.
  destruct s as [|c s]; [destruct Hin|].
  destruct c as [|p]; [exact Hin|].
  destruct (N.eqb_spec (N.pos p) 45) as [E|N1].
  - injection E as ->. destruct Hin as [E|Hin]; [congruence|exact Hin].
  - destruct (N.eqb_spec (N.pos p) 43) as [E|N2].
    + injection E as ->. destruct Hin as [E|Hin]; [congruence|exact Hin].
    + assert (forall q, q <> 45%positive -> q <> 43%positive ->
                snd (match q with
                     | 45%positive => (true, s)
                     | 43%positive => (false, s)
                     | _ => (false, N.pos q :: s)
                     end) = N.pos q :: s) as K.
      { intros q Q1 Q2.
        do 6 (destruct q as [q|q|]; try reflexivity); congruence. }
      cbn [Float.sign]. 
      change (In k (snd (match p with
                     | 45%positive => (true, s)
                     | 43%positive => (false, s)
                     | _ => (false, N.pos p :: s)
                     end))).
      rewrite K by congruence. exact Hin.
Qed.

Lemma number_keeps (k : N) (s : str) m nf rest :
  Py.isdigit k = false -> k <> 95 -> k <> 46 ->
  In k s -> Float.number s = Some (m, nf, rest) -> In k rest.
Proof.
  intros Hd Hu Hp Hin. unfold Float.number.
  destruct (Float.digitpart s) as [[[ip n0] r]|] eqn:E.
  - pose proof (digitpart_keeps k s ip n0 r Hd Hu Hin E) as Hr.
    destruct r as [|c r']; [destruct Hr|].
    destruct (N.eqb_spec c 46) as [->|Hne].
    + destruct Hr as [E1|Hr]; [congruence|].
      destruct (Float.digitpart r') as [[[fp n1] r'']|] eqn:E2.
      * intros [= <- <- <-]. eapply digitpart_keeps; eassumption.
      * intros [= <- <- <-]. exact Hr.
    + assert (K : match c with
                  | 46 => match Float.digitpart r' with
                          | Some (fp, nf0, r'') =>
                              Some ((ip * 10 ^ Z.of_nat nf0 + fp)%Z, nf0, r'')
                          | None => Some (ip, 0%nat, r')
                          end
                  | _ => Some (ip, 0%nat, c :: r')
                  end = Some (ip, 0%nat, c :: r')).
      { destruct c as [|p]; [reflexivity|].
        do 6 (destruct p as [p|p|]; try reflexivity). congruence. }
      rewrite K. intros [= <- <- <-]. exact Hr.
  - destruct s as [|c r']; [discriminate|].
    destruct (N.eqb_spec c 46) as [->|Hne].
    + destruct Hin as [E1|Hin]; [congruence|].
      intros E2. eapply digitpart_keeps; eassumption.
    + assert (K : match c with
                  | 46 => Float.digitpart r'
                  | _ => @None (Z * nat * list N)
                  end = None).
      { destruct c as [|p]; [reflexivity|].
        do 6 (destruct p as [p|p|]; try reflexivity). congruence. }
      rewrite K. discriminate.
Qed.

Lemma floatnumber_space (neg : bool) (r : str) :
  In 32 r -> Float.floatnumber neg r = None.
Proof.
  intros Hin. unfold Float.floatnumber.
  destruct (Float.number r) as [[[m nf] rest]|] eqn:E; [|reflexivity].
  assert (Hr : In 32 rest).
  { eapply (number_keeps 32); try eassumption; try reflexivity; discriminate. }
  destruct rest as [|c r1]; [destruct Hr|].
  destruct ((c =? 101) || (c =? 69)) eqn:Ec; [|reflexivity].
  assert (Hr1 : In 32 r1).
  { destruct Hr as [->|Hr]; [vm_compute in Ec; discriminate Ec|exact Hr]. }
  pose proof (sign_keeps 32 r1 ltac:(discriminate) ltac:(discriminate) Hr1) as Hs.
  destruct (Float.sign r1) as [eneg r2]. cbn [snd] in Hs.
  destruct (Float.digitpart r2) as [[[ev n] rest2]|] eqn:E2; [|reflexivity].
  assert (Hr2 : In 32 rest2).
  { eapply (digitpart_keeps 32); try eassumption; try reflexivity; discriminate. }
  destruct rest2; [destruct Hr2|reflexivity].
Qed.

(** [float(s)] raises when a space is left inside [s.strip()]. *)
Lemma of_str_space (s : str) :
  In 32 (Py.strip s) -> Float.of_str s = Raise ValueError.
Proof.
  intros Hin. unfold Float.of_str.
  pose proof (sign_keeps 32 (Py.strip s) ltac:(discriminate) ltac:(discriminate)
                Hin) as Hs.
  destruct (Float.sign (Py.strip s)) as [neg r]. cbn [snd] in Hs.
  assert (Hl : In 32 (Py.lower r)).
  { unfold Py.lower. change 32 with (Py.lower_char 32).
    apply in_map. exact Hs. }
  assert (K : forall w, ~ In 32 w -> Py.eqb (Py.lower r) w = false).
  { intros w Hw. destruct (Py.eqb (Py.lower r) w) eqn:E; [|reflexivity].
    apply eqb_eq in E. rewrite E in Hl. contradiction. }
  rewrite !K.
  - cbn [orb]. rewrite floatnumber_space by exact Hs. reflexivity.
  - cbv. intuition discriminate.
  - cbv. intuition discriminate.
  - cbv. intuition discriminate.
Qed.

Lemma in_last_rev (s : str) (c : N) : head (rev s) = Some c -> In c s.
Proof.
  intros H. apply in_rev. destruct (rev s); [discriminate|].
  injection H as ->. left. reflexivity.
Qed.

Lemma of_str_inner_space (w n : str) :
  w <> [] -> n <> [] ->
  (forall c, In c w -> Py.isspace c = false) ->
  (forall c, In c n -> Py.isspace c = false) ->
  Float.of_str (w ++ 32 :: n) = Raise ValueError.
Proof.
  intros Hw Hn Hnw Hnn. apply of_str_space.
  rewrite strip_id.
  - apply in_or_app. right. left. reflexivity.
  - intros c. destruct w as [|x w]; [contradiction|].
    intros [= <-]. apply Hnw. left. reflexivity.
  - intros c Hc. rewrite rev_app_distr in Hc. cbn [rev] in Hc.
    destruct (rev n) as [|y rn] eqn:E.
    + apply (f_equal (@length N)) in E. rewrite length_rev in E.
      destruct n; [contradiction|discriminate].
    + cbn in Hc. injection Hc as <-. apply Hnn. apply in_rev.
      rewrite E. left. reflexivity.
Qed.

(** ** Lemmas on the matcher *)

Section MatcherLemmas.

Context {R : Type}.

(** A match attempt whose continuation fails on every state further in the
    subject fails. *)
Lemma star_none_k cls rest prev off grp (k : Re.mstate -> option R) :
  (forall st', Re.ms_rest st' `suffix_of` rest -> k st' = None) ->
  Re.star cls rest prev off grp k = None.
Proof.
  revert prev off. induction rest as [|c rest IH]; intros prev off Hk.
  - cbn. apply Hk. reflexivity.
  - cbn [Re.star]. destruct (cls c).
    + rewrite IH.
      * apply Hk. reflexivity.
      * intros st' Hs. apply Hk. apply suffix_cons_r. exact Hs.
    + apply Hk. reflexivity.
Qed.

Lemma rmatch_none_k r st (k : Re.mstate -> option R) :
  (forall st', Re.ms_rest st' `suffix_of` Re.ms_rest st -> k st' = None) ->
  Re.rmatch r st k = None.
Proof.
  revert st k. induction r as [|cls|cls|r1 IH1 r2 IH2|r1 IH1|r1 IH1| |];
    intros st k Hk; cbn [Re.rmatch].
  - apply Hk. reflexivity.
  - destruct (Re.ms_rest st) as [|c rest'] eqn:E; [reflexivity|].
    destruct (cls c); [|reflexivity].
    apply Hk. cbn. apply suffix_cons_r. reflexivity.
  - apply star_none_k. exact Hk.
  - apply IH1. intros st' Hs. apply IH2. intros st'' Hs'.
    apply Hk. etransitivity; eassumption.
  - rewrite IH1 by exact Hk. apply Hk. reflexivity.
  - apply IH1. intros st' Hs. apply Hk. exact Hs.
  - destruct (Re.at_dollar _); [apply Hk|]; reflexivity.
  - destruct (xorb _ _); [apply Hk|]; reflexivity.
Qed.

End MatcherLemmas.

Lemma Forall_suffix {A} (P : A -> Prop) (l1 l2 : list A) :
  l1 `suffix_of` l2 -> Forall P l2 -> Forall P l1.
Proof.
  intros [k ->] H. apply Forall_app in H. tauto.
Qed.

Lemma rmatch_needs {R} q r st (k : Re.mstate -> option R) :
  needs q r ->
  Forall (fun c => q c = false) (Re.ms_rest st) ->
  Re.rmatch r st k = None.
Proof.
  intros Hn. revert st k.
  induction Hn as [cls Hc|r1 r2 _ IH|r1 r2 _ IH|r1 _ IH]; intros st k Hq;
    cbn [Re.rmatch].
  - destruct (Re.ms_rest st) as [|c rest']; [reflexivity|].
    destruct (cls c) eqn:E; [|reflexivity].
    apply Hc in E. apply Forall_inv in Hq. congruence.
  - apply IH. exact Hq.
  - apply rmatch_none_k. intros st' Hs. apply IH.
    eapply Forall_suffix; eassumption.
  - apply IH. exact Hq.
Qed.

(** A substitution that finds no match leaves the subject as it is. *)
Lemma sub_from_no_match r repl prev (s : str) :
  (forall prev' s', s' `suffix_of` s -> Re.match_at r prev' s' = None) ->
  Re.sub_from r repl 0 prev s = s.
Proof.
  revert prev. induction s as [|c s IH]; intros prev H.
  - cbn. rewrite H by reflexivity. reflexivity.
  - cbn [Re.sub_from]. rewrite H by reflexivity.
    f_equal. apply IH. intros prev' s' Hs. apply H.
    apply suffix_cons_r. exact Hs.
Qed.

Lemma sub_needs_id q r repl (s : str) :
  needs q r -> Forall (fun c => q c = false) s -> Re.sub r repl s = s.
Proof.
  intros Hn Hq. apply sub_from_no_match. intros prev' s' Hs.
  unfold Re.match_at. apply rmatch_needs with (q := q); [exact Hn|].
  cbn. eapply Forall_suffix; eassumption.
Qed.

(** The characters of a substitution come from the subject or from the
    replacement. *)
Lemma sub_from_chars r repl skip prev (s : str) (c : N) :
  In c (Re.sub_from r repl skip prev s) -> In c s \/ In c repl.
Proof.
  revert skip prev. induction s as [|x s IH]; intros skip prev.
  - destruct skip; cbn; [|tauto].
    destruct (Re.match_at r prev []) as [[len g]|]; cbn; tauto.
  - destruct skip as [|n]; cbn [Re.sub_from].
    + destruct (Re.match_at r prev (x :: s)) as [[[|len] g]|].
      * intros H. apply in_app_or in H as [H|[H|H]]; auto.
        -- left. left. exact H.
        -- apply IH in H as [H|H]; auto. left. right. exact H.
      * intros H. apply in_app_or in H as [H|H]; auto.
        apply IH in H as [H|H]; auto. left. right. exact H.
      * intros [H|H]; [left; left; exact H|].
        apply IH in H as [H|H]; auto. left. right. exact H.
    + intros H. apply IH in H as [H|H]; auto. left. right. exact H.
Qed.

Lemma star_final cls rest prev off grp :
  Re.star cls rest prev off grp (fun st => Some (Re.ms_off st, Re.ms_grp st))
  = Some ((off + run_length cls rest)%nat, grp).
Proof.
  revert prev off. induction rest as [|c rest IH]; intros prev off.
  - cbn. rewrite Nat.add_0_r. reflexivity.
  - cbn [Re.star run_length]. destruct (cls c).
    + rewrite IH. f_equal. f_equal. lia.
    + cbn. rewrite Nat.add_0_r. reflexivity.
Qed.

(** [cls+] matches the longest run of [cls] at the position, if any. *)
Lemma match_at_plus cls prev (s : str) :
  Re.match_at (Re.Plus cls) prev s
  = match s with
    | c :: s' => if cls c then Some (S (run_length cls s'), None) else None
    | [] => None
    end.
Proof.
  unfold Re.match_at, Re.Plus. cbn [Re.rmatch Re.ms_rest].
  destruct s as [|c s']; [reflexivity|].
  destruct (cls c); [|reflexivity].
  cbn [Re.ms_rest Re.ms_prev Re.ms_off Re.ms_grp].
  rewrite star_final. reflexivity.
Qed.

Lemma sub_plus_collapse_both cls repl (s : str) :
  forall prev,
    Re.sub_from (Re.Plus cls) repl 0 prev s = collapse cls repl false s
    /\ Re.sub_from (Re.Plus cls) repl (run_length cls s) prev s
       = collapse cls repl true s.
Proof.
  induction s as [|c s IH]; intros prev.
  - cbn [Re.sub_from collapse run_length]. rewrite match_at_plus.
    split; reflexivity.
  - assert (E0 : Re.sub_from (Re.Plus cls) repl 0 prev (c :: s)
                 = collapse cls repl false (c :: s)).
    { cbn [Re.sub_from collapse]. rewrite match_at_plus.
      destruct (cls c).
      - f_equal. apply IH.
      - f_equal. apply IH. }
    split; [exact E0|].
    cbn [run_length]. destruct (cls c) eqn:Ec.
    + cbn [Re.sub_from collapse]. rewrite Ec. cbn [app]. apply IH.
    + rewrite E0. cbn [collapse]. rewrite Ec. reflexivity.
Qed.

(** [re.sub(cls+, repl, s)] replaces every maximal run of [cls]. *)
Lemma sub_plus_collapse cls repl (s : str) :
  Re.sub (Re.Plus cls) repl s = collapse cls repl false s.
Proof. apply sub_plus_collapse_both. Qed.

Lemma collapse_removes cls inrun (s : str) :
  Forall (fun c => cls c = false) (collapse cls [] inrun s).
Proof.
  revert inrun. induction s as [|c s IH]; intros inrun; cbn; [constructor|].
  destruct (cls c) eqn:E.
  - destruct inrun; apply IH.
  - constructor; [exact E|apply IH].
Qed.

(** ** The number pattern *)

(** A greedy star whose continuation cannot fail takes the whole run. *)
Lemma star_total {R} cls rest prev off grp (k : Re.mstate -> option R) :
  (forall st, k st <> None) ->
  exists p,
    Re.star cls rest prev off grp k
    = k (Re.MState p (skipn (run_length cls rest) rest)
           (off + run_length cls rest) grp).
Proof.
  intros Hk. revert prev off.
  induction rest as [|c rest IH]; intros prev off.
  - exists prev. cbn. rewrite Nat.add_0_r. reflexivity.
  - cbn [Re.star run_length]. destruct (cls c).
    + destruct (IH (Some c) (S off)) as [p Hp]. exists p.
      rewrite Hp. cbn [skipn].
      replace (off + S (run_length cls rest))%nat
        with (S off + run_length cls rest)%nat by lia.
      destruct (k _) eqn:E; [reflexivity|]. exfalso. eapply Hk. exact E.
    + exists prev. cbn [skipn]. rewrite Nat.add_0_r. reflexivity.
Qed.

Lemma number_tail_match g0 st :
  Re.rmatch (Re.Cat (Re.Opt (Re.One (Re.chr 46))) (Re.Star Py.isdigit))
            st (number_final g0)
  = Some ((Re.ms_off st + number_tail_len (Re.ms_rest st))%nat,
          Some (g0, (Re.ms_off st + number_tail_len (Re.ms_rest st))%nat)).
Proof.
  assert (Hk : forall st0, number_final g0 st0 <> None) by discriminate.
  cbn [Re.rmatch]. unfold number_tail_len.
  destruct (Re.ms_rest st) as [|c r] eqn:E.
  - cbn. rewrite Nat.add_0_r. reflexivity.
  - unfold Re.chr at 1. destruct (c =? 46).
    + destruct (star_total Py.isdigit r (Some c) (S (Re.ms_off st))
                  (Re.ms_grp st) (number_final g0) Hk) as [p Hp].
      cbn [Re.ms_rest Re.ms_prev Re.ms_off Re.ms_grp].
      rewrite Hp. unfold number_final. cbn [Re.ms_off].
      replace (S (Re.ms_off st) + run_length Py.isdigit r)%nat
        with (Re.ms_off st + S (run_length Py.isdigit r))%nat by lia.
      reflexivity.
    + destruct (star_total Py.isdigit (c :: r) (Re.ms_prev st) (Re.ms_off st)
                  (Re.ms_grp st) (number_final g0) Hk) as [p Hp].
      rewrite Hp. reflexivity.
Qed.

(** The match of the number pattern at a position. *)
Lemma match_number prev (s : str) :
  Re.match_at number_re prev s
  = match number_len s with
    | Some n => Some (n, Some (0%nat, n))
    | None => None
    end.
Proof.
  unfold Re.match_at, number_re, Re.Plus, number_len.
  cbn [Re.rmatch Re.ms_rest Re.ms_off].
  destruct s as [|c s']; [reflexivity|].
  destruct (Py.isdigit c); [|reflexivity].
  cbn [Re.ms_rest Re.ms_prev Re.ms_off Re.ms_grp].
  match goal with
  | |- context [Re.star _ _ _ _ _ ?k0] => set (k := k0)
  end.
  assert (Ek : forall st, k st
               = Some ((Re.ms_off st + number_tail_len (Re.ms_rest st))%nat,
                       Some (0%nat,
                             (Re.ms_off st + number_tail_len (Re.ms_rest st))%nat)))
    by (intros st; exact (number_tail_match 0 st)).
  destruct (star_total Py.isdigit s' (Some c) 1 None k) as [p Hp].
  { intros st. rewrite Ek. discriminate. }
  rewrite Hp, Ek. reflexivity.
Qed.

Lemma search_number prev (s : str) :
  Re.search_from number_re prev s
  = match first_number s with
    | Some t => Some (Re.MObj t (Some t))
    | None => None
    end.
Proof.
  revert prev. induction s as [|c s IH]; intros prev.
  - cbn [Re.search_from first_number]. rewrite match_number. reflexivity.
  - cbn [Re.search_from first_number]. rewrite match_number.
    destruct (number_len (c :: s)) as [n|] eqn:E.
    + unfold Re.mk_mobj, Re.slice. cbn [fst snd skipn].
      rewrite Nat.sub_0_r. reflexivity.
    + apply IH.
Qed.

Lemma isdigit_range (c : N) : Py.isdigit c = true -> 48 <= c <= 57.
Proof.
  unfold Py.isdigit. intros H. apply andb_true_iff in H as [H1 H2].
  apply N.leb_le in H1, H2. lia.
Qed.

Lemma isspace_not_digit (c : N) : Py.isspace c = true -> Py.isdigit c = false.
Proof.
  intros H. destruct (Py.isdigit c) eqn:E; [|reflexivity].
  apply isdigit_range in E. rewrite isspace_printable in H by lia.
  discriminate.
Qed.

Lemma run_length_le cls (s : str) : (run_length cls s <= length s)%nat.
Proof.
  induction s as [|c s IH]; cbn; [lia|]. destruct (cls c); cbn; lia.
Qed.

Lemma number_tail_len_le (s : str) : (number_tail_len s <= length s)%nat.
Proof.
  unfold number_tail_len. destruct s as [|c r]; [cbn; lia|].
  destruct (c =? 46).
  - pose proof (run_length_le Py.isdigit r). cbn. lia.
  - apply run_length_le.
Qed.

Lemma number_len_le (s : str) n : number_len s = Some n -> (n <= length s)%nat.
Proof.
  unfold number_len. destruct s as [|c s']; [discriminate|].
  destruct (Py.isdigit c); [|discriminate]. intros [= <-].
  pose proof (run_length_le Py.isdigit s') as H1.
  pose proof (number_tail_len_le (skipn (run_length Py.isdigit s') s')) as H2.
  rewrite length_skipn in H2. cbn. lia.
Qed.

Lemma run_length_app_ws (s w : str) :
  Forall (fun c => Py.isspace c = true) w ->
  run_length Py.isdigit (s ++ w) = run_length Py.isdigit s.
Proof.
  intros Hw. induction s as [|c s IH].
  - destruct Hw as [|x w Hx _]; [reflexivity|].
    cbn. rewrite isspace_not_digit by exact Hx. reflexivity.
  - cbn. rewrite IH. reflexivity.
Qed.

Lemma number_tail_len_app_ws (s w : str) :
  Forall (fun c => Py.isspace c = true) w ->
  number_tail_len (s ++ w) = number_tail_len s.
Proof.
  intros Hw. unfold number_tail_len. destruct s as [|c r].
  - destruct Hw as [|x w Hx _]; [reflexivity|]. cbn [app].
    destruct (N.eqb_spec x 46) as [->|_]; [discriminate Hx|].
    cbn. rewrite isspace_not_digit by exact Hx. reflexivity.
  - cbn [app]. destruct (c =? 46).
    + rewrite run_length_app_ws by exact Hw. reflexivity.
    + apply (run_length_app_ws (c :: r)). exact Hw.
Qed.

Lemma number_len_app_ws (s w : str) :
  Forall (fun c => Py.isspace c = true) w ->
  number_len (s ++ w) = number_len s.
Proof.
  intros Hw. unfold number_len. destruct s as [|c s'].
  - destruct Hw as [|x w Hx _]; [reflexivity|]. cbn [app].
    rewrite isspace_not_digit by exact Hx. reflexivity.
  - cbn [app]. destruct (Py.isdigit c); [|reflexivity]. cbv zeta.
    rewrite run_length_app_ws by exact Hw.
    rewrite skipn_app.
    replace (run_length Py.isdigit s' - length s')%nat with 0%nat
      by (pose proof (run_length_le Py.isdigit s'); lia).
    cbn [skipn]. rewrite number_tail_len_app_ws by exact Hw. reflexivity.
Qed.

Lemma first_number_ws (w : str) :
  Forall (fun c => Py.isspace c = true) w -> first_number w = None.
Proof.
  induction 1 as [|x w Hx _ IH]; [reflexivity|].
  cbn [first_number number_len].
  rewrite isspace_not_digit by exact Hx. exact IH.
Qed.

Lemma first_number_app_ws (s w : str) :
  Forall (fun c => Py.isspace c = true) w ->
  first_number (s ++ w) = first_number s.
Proof.
  intros Hw. induction s as [|c s IH].
  - cbn [app]. rewrite first_number_ws by exact Hw. reflexivity.
  - cbn [first_number].
    change ((c :: s) ++ w) with (c :: s ++ w).
    cbn [first_number]. 
    change (c :: s ++ w) with ((c :: s) ++ w).
    rewrite number_len_app_ws by exact Hw.
    destruct (number_len (c :: s)) as [n|] eqn:E; [|exact IH].
    f_equal. apply number_len_le in E.
    rewrite firstn_app.
    replace (n - length (c :: s))%nat with 0%nat by lia.
    cbn [firstn]. apply app_nil_r.
Qed.

Lemma first_number_ws_app (w s : str) :
  Forall (fun c => Py.isspace c = true) w ->
  first_number (w ++ s) = first_number s.
Proof.
  induction 1 as [|x w Hx _ IH]; [reflexivity|].
  cbn [app first_number number_len].
  rewrite isspace_not_digit by exact Hx. exact IH.
Qed.

Lemma lstrip_suffix_ws (s : str) :
  exists w, s = w ++ Py.lstrip s /\ Forall (fun c => Py.isspace c = true) w.
Proof.
  induction s as [|c s (w & IH & Hw)]; [exists []; split; [reflexivity|constructor]|].
  cbn [Py.lstrip]. destruct (Py.isspace c) eqn:E.
  - exists (c :: w). split; [cbn; f_equal; exact IH|constructor; assumption].
  - exists []. split; [reflexivity|constructor].
Qed.

(** [s.strip()] is [s] without a whitespace prefix and suffix. *)
Lemma strip_decompose_ws (s : str) :
  exists a b, s = a ++ Py.strip s ++ b
    /\ Forall (fun c => Py.isspace c = true) a
    /\ Forall (fun c => Py.isspace c = true) b.
Proof.
  unfold Py.strip, Py.rstrip.
  destruct (lstrip_suffix_ws s) as (a & Ha & Hwa).
  destruct (lstrip_suffix_ws (rev (Py.lstrip s))) as (w & Hw & Hww).
  exists a, (rev w). split; [|split].
  - rewrite <- rev_app_distr, <- Hw, rev_involutive. exact Ha.
  - exact Hwa.
  - apply List.Forall_forall. intros c Hc. apply in_rev in Hc.
    rewrite List.Forall_forall in Hww. auto.
Qed.

(** Trimming does not move the first number of a text. *)
Lemma first_number_strip (s : str) :
  first_number (Py.strip s) = first_number s.
Proof.
  destruct (strip_decompose_ws s) as (a & b & E & Ha & Hb).
  rewrite E at 2.
  rewrite first_number_ws_app by exact Ha.
  rewrite first_number_app_ws by exact Hb. reflexivity.
Qed.

Lemma run_length_prefix cls (s : str) :
  Forall (fun c => cls c = true) (firstn (run_length cls s) s).
Proof.
  induction s as [|c s IH]; cbn; [constructor|].
  destruct (cls c) eqn:E; cbn; constructor; assumption.
Qed.

Lemma run_length_stop cls (s : str) :
  match skipn (run_length cls s) s with
  | x :: _ => cls x = false
  | [] => True
  end.
Proof.
  induction s as [|c s IH]; cbn; [exact I|].
  destruct (cls c) eqn:E; cbn; assumption.
Qed.

Lemma firstn_plus {A} (a b : nat) (l : list A) :
  firstn (a + b) l = firstn a l ++ firstn b (skipn a l).
Proof.
  revert l. induction a as [|a IH]; intros l; [reflexivity|].
  destruct l as [|x l]; cbn; [destruct b; reflexivity|].
  f_equal. apply IH.
Qed.

(** The text of a match of the number pattern: digits, then nothing, or a
    point and digits. *)
Lemma number_text_form (s : str) n :
  number_len s = Some n ->
  exists c ds fs,
    firstn n s = (c :: ds) ++ fs
    /\ Forall (fun x => Py.isdigit x = true) (c :: ds)
    /\ (fs = [] \/ exists d2, fs = 46 :: d2
                              /\ Forall (fun x => Py.isdigit x = true) d2).
Proof.
  unfold number_len. destruct s as [|c s']; [discriminate|].
  destruct (Py.isdigit c) eqn:Ec; [|discriminate]. intros [= <-].
  set (n1 := run_length Py.isdigit s').
  exists c, (firstn n1 s'), (firstn (number_tail_len (skipn n1 s')) (skipn n1 s')).
  split; [|split].
  - cbn [firstn Nat.add app]. f_equal. apply firstn_plus.
  - constructor; [exact Ec|apply run_length_prefix].
  - pose proof (run_length_stop Py.isdigit s') as Hstop. fold n1 in Hstop.
    unfold number_tail_len.
    destruct (skipn n1 s') as [|x r]; [left; reflexivity|].
    destruct (N.eqb_spec x 46) as [->|Hne].
    + right. exists (firstn (run_length Py.isdigit r) r).
      split; [reflexivity|apply run_length_prefix].
    + left. cbn [run_length]. rewrite Hstop. reflexivity.
Qed.

Lemma digitpart_rest_digits (ds rest : str) :
  Forall (fun x => Py.isdigit x = true) ds ->
  match rest with
  | x :: _ => Py.isdigit x = false /\ x <> 95
  | [] => True
  end ->
  forall acc n, exists v k, Float.digitpart_rest acc n (ds ++ rest) = (v, k, rest).
Proof.
  intros Hd Hr. induction Hd as [|c ds Hc _ IH]; intros acc n.
  - cbn [app]. destruct rest as [|x r]; [exists acc, n; reflexivity|].
    destruct Hr as [H1 H2]. cbn [Float.digitpart_rest]. rewrite H1.
    destruct (N.eqb_spec x 95); [contradiction|]. exists acc, n. reflexivity.
  - cbn [app Float.digitpart_rest]. rewrite Hc. apply IH.
Qed.

Lemma digitpart_digits (c : N) (ds rest : str) :
  Forall (fun x => Py.isdigit x = true) (c :: ds) ->
  match rest with
  | x :: _ => Py.isdigit x = false /\ x <> 95
  | [] => True
  end ->
  exists v k, Float.digitpart ((c :: ds) ++ rest) = Some (v, k, rest).
Proof.
  intros Hd Hr. inversion Hd as [|? ? Hc Hds]; subst.
  cbn [app Float.digitpart]. rewrite Hc.
  destruct (digitpart_rest_digits ds rest Hds Hr (Float.digit_val c) 1%nat)
    as (v & k & E).
  exists v, k. rewrite E. reflexivity.
Qed.

Lemma sign_other (c : N) (s : str) :
  c <> 45 -> c <> 43 -> Float.sign (c :: s) = (false, c :: s).
Proof.
  intros H1 H2. unfold Float.sign. destruct c as [|p]; [reflexivity|].
  do 6 (destruct p as [p|p|]; try reflexivity); congruence.
Qed.

Lemma isdigit_not_space (c : N) : Py.isdigit c = true -> Py.isspace c = false.
Proof.
  intros H. apply isdigit_range in H. apply isspace_printable. lia.
Qed.

Lemma number_floatnumber (c : N) (ds fs : str) neg :
  Forall (fun x => Py.isdigit x = true) (c :: ds) ->
  (fs = [] \/ exists d2, fs = 46 :: d2
                         /\ Forall (fun x => Py.isdigit x = true) d2) ->
  exists x, Float.floatnumber neg ((c :: ds) ++ fs) = Some x.
Proof.
  intros Hd Hfs. unfold Float.floatnumber, Float.number.
  destruct Hfs as [->|(d2 & -> & Hd2)].
  - destruct (digitpart_digits c ds [] Hd I) as (v & k & E).
    rewrite E. eexists. reflexivity.
  - destruct (digitpart_digits c ds (46 :: d2) Hd) as (v & k & E).
    { split; [reflexivity|discriminate]. }
    rewrite E. destruct d2 as [|x d2'].
    + cbn. eexists. reflexivity.
    + destruct (digitpart_digits x d2' [] Hd2 I) as (v2 & k2 & E2).
      rewrite app_nil_r in E2. rewrite E2. eexists. reflexivity.
Qed.

(** [float] succeeds on the text of a match of the number pattern. *)
Lemma of_str_number_text (c : N) (ds fs : str) :
  Forall (fun x => Py.isdigit x = true) (c :: ds) ->
  (fs = [] \/ exists d2, fs = 46 :: d2
                         /\ Forall (fun x => Py.isdigit x = true) d2) ->
  exists x, Float.of_str ((c :: ds) ++ fs) = Ok x.
Proof.
  intros Hd Hfs.
  assert (Hc : 48 <= c <= 57)
    by (apply isdigit_range; inversion Hd; assumption).
  assert (Hall : forall x, In x ((c :: ds) ++ fs) -> Py.isspace x = false).
  { intros x Hx. apply in_app_or in Hx as [Hx|Hx].
    - rewrite List.Forall_forall in Hd. apply isdigit_not_space. auto.
    - destruct Hfs as [->|(d2 & -> & Hd2)]; [destruct Hx|].
      destruct Hx as [<-|Hx]; [reflexivity|].
      rewrite List.Forall_forall in Hd2. apply isdigit_not_space. auto. }
  unfold Float.of_str. rewrite strip_id.
  2:{ intros x [= <-]. apply Hall. left. reflexivity. }
  2:{ intros x Hx. apply Hall. apply in_last_rev. exact Hx. }
  change ((c :: ds) ++ fs) with (c :: ds ++ fs).
  rewrite sign_other by lia.
  assert (Hl : Py.lower_char c = c).
  { unfold Py.lower_char, Py.isupper.
    replace (65 <=? c) with false by (symmetry; apply N.leb_gt; lia).
    reflexivity. }
  assert (Hw : forall y w, y <> c ->
                 Py.eqb (Py.lower (c :: ds ++ fs)) (y :: w) = false).
  { intros y w Hy. cbn. rewrite Hl.
    destruct (N.eqb_spec c y); [congruence|reflexivity]. }
  change (lit "inf") with (105 :: lit "nf").
  change (lit "infinity") with (105 :: lit "nfinity").
  change (lit "nan") with (110 :: lit "an").
  rewrite !Hw by lia. cbn [orb].
  destruct (number_floatnumber c ds fs false Hd Hfs) as [x Hx].
  change (c :: ds ++ fs) with ((c :: ds) ++ fs). rewrite Hx.
  exists x. reflexivity.
Qed.

Lemma first_number_parses (s t : str) :
  first_number s = Some t -> exists x, Float.of_str t = Ok x.
Proof.
  induction s as [|c s IH]; cbn [first_number].
  - discriminate.
  - destruct (number_len (c :: s)) as [n|] eqn:E; [|exact IH].
    intros [= <-].
    destruct (number_text_form _ _ E) as (c0 & ds & fs & -> & Hd & Hfs).
    apply of_str_number_text; assumption.
Qed.

(** [extract_float] of [data_models.py] never raises: it returns the first
    decimal number of the text, or [None] when the text has no digit. *)
Lemma data_models_extract_float_spec (text : str) :
  data_models.extract_float text = Ok (first_number_value text).
Proof.
  unfold data_models.extract_float, first_number_value, Re.search.
  destruct text as [|c text]; [reflexivity|]. cbn [Py.truthy negb].
  rewrite search_number.
  destruct (first_number (c :: text)) as [t|] eqn:E; [|reflexivity].
  destruct (first_number_parses _ _ E) as [x Hx].
  unfold float_of_group1. cbn [Re.mo_group1]. rewrite Hx. reflexivity.
Qed.

(** So does the last rule of [extract_float] of [paddle_scraper.py]. *)
Lemma regular_number_spec (text : str) :
  paddle_scraper.regular_number text = Ok (first_number_value text).
Proof.
  unfold paddle_scraper.regular_number, first_number_value, Re.search.
  rewrite search_number.
  destruct (first_number text) as [t|] eqn:E; [|reflexivity].
  destruct (first_number_parses _ _ E) as [x Hx].
  unfold float_of_group1. cbn [Re.mo_group1]. rewrite Hx. reflexivity.
Qed.

Lemma first_number_none_iff (s : str) :
  first_number s = None <-> Forall (fun c => Py.isdigit c = false) s.
Proof.
  induction s as [|c s IH]; cbn [first_number number_len].
  - split; [constructor|reflexivity].
  - destruct (Py.isdigit c) eqn:E.
    + split; [discriminate|]. intros H. inversion H; congruence.
    + rewrite IH. split; [constructor; assumption|].
      intros H. inversion H; assumption.
Qed.

(** The first-number rule is Missing exactly on the texts without a
    digit. *)
Lemma first_number_value_none_iff (s : str) :
  first_number_value s = None <-> Forall (fun c => Py.isdigit c = false) s.
Proof.
  rewrite <- first_number_none_iff. unfold first_number_value.
  destruct (first_number s) as [t|] eqn:E; [|tauto].
  destruct (first_number_parses _ _ E) as [x Hx]. rewrite Hx.
  split; discriminate.
Qed.

(** ** Where the two extractors agree *)

Lemma replace_absent (old new s : str) :
  old <> [] -> Py.contains old s = false -> Py.replace old new s = s.
Proof.
  intros Ho. unfold Py.replace. destruct old as [|o old']; [contradiction|].
  induction s as [|c s IH]; [reflexivity|].
  cbn [Py.contains Py.replace_from]. intros H.
  apply orb_false_iff in H as [H1 H2]. rewrite H1. f_equal. auto.
Qed.

(** On a text without a unit word, a space or a slash the two extractors
    return the same: the first decimal number of the text. *)
Lemma extractors_agree_on_plain_text (text : str) :
  Py.contains (lit "in") text = false ->
  Py.contains (lit "oz") text = false ->
  Py.contains (lit "ounces") text = false ->
  ~ In 32 text -> ~ In 47 text ->
  paddle_scraper.extract_float text = data_models.extract_float text.
Proof.
  intros H1 H2 H3 Hs Hf. rewrite data_models_extract_float_spec.
  unfold paddle_scraper.extract_float.
  destruct text as [|c text]; [reflexivity|]. cbn [Py.truthy negb].
  unfold paddle_scraper.strip_units.
  rewrite (replace_absent (lit "in")) by (discriminate || assumption).
  rewrite (replace_absent (lit "oz")) by (discriminate || assumption).
  rewrite (replace_absent (lit "ounces")) by (discriminate || assumption).
  cbv zeta. change (lit " ") with [32]. change (lit "/") with [47].
  rewrite (contains_single_not_in 32)
    by (intros K; apply Hs, strip_chars; exact K).
  rewrite (contains_single_not_in 47)
    by (intros K; apply Hf, strip_chars; exact K).
  cbn [mbind result_bind andb]. rewrite regular_number_spec.
  unfold first_number_value. rewrite first_number_strip. reflexivity.
Qed.

(** ** The numeric normalizer: fractions *)

Lemma fraction_raises_handled (n d : str) (k : spec_float -> result (option spec_float)) :
  fraction_fails n d ->
  try_except
    (a ← Float.of_str n; b ← Float.of_str d; q ← Float.truediv a b; k q)
    [ValueError; ZeroDivisionError] (Ok None) = Ok None.
Proof.
  intros Hf.
  destruct (Float.of_str n) as [a|e] eqn:En.
  - destruct (Float.of_str d) as [b|e] eqn:Ed.
    + cbn [mbind result_bind]. unfold Float.truediv.
      rewrite (Hf a b En Ed). reflexivity.
    + apply of_str_raises in Ed as ->. reflexivity.
  - apply of_str_raises in En as ->. reflexivity.
Qed.

Lemma simple_fraction_fails (n d : str) :
  ~ In 47 n -> ~ In 47 d -> fraction_fails n d ->
  paddle_scraper.simple_fraction (n ++ 47 :: d) = Ok None.
Proof.
  intros Hn Hd Hf. unfold paddle_scraper.simple_fraction.
  change (lit "/") with [47]. rewrite split_on_single by assumption.
  unfold index. cbn [lookup list_lookup mbind result_bind].
  pose proof (fraction_raises_handled n d (fun q => Ok (Some q)) Hf) as K.
  destruct (Float.of_str n) as [a|e] eqn:En; [|exact K].
  cbn [mbind result_bind] in *. exact K.
Qed.

Lemma mixed_number_fails_none (w n d : str) :
  ~ In 47 n -> ~ In 47 d ->
  (forall x, Float.of_str w = Ok x -> fraction_fails n d) ->
  paddle_scraper.mixed_number [w; n ++ 47 :: d] = Ok None.
Proof.
  intros Hn Hd Hf. unfold paddle_scraper.mixed_number.
  destruct (Float.of_str w) as [x|e] eqn:Ew.
  - cbn [mbind result_bind]. change (lit "/") with [47].
    rewrite contains_single_in by (apply in_or_app; right; left; reflexivity).
    rewrite split_on_single by assumption.
    pose proof (fraction_raises_handled n d
                  (fun q => Ok (Some (Float.add x q))) (Hf x eq_refl)) as K.
    exact K.
  - apply of_str_raises in Ew as ->. reflexivity.
Qed.

(** When the fraction rules yield nothing, the last rule decides. *)
Lemma failed_fraction_regular (text t : str) :
  paddle_scraper.strip_units text = t ->
  bare_fraction_fails t \/ mixed_number_fails t ->
  paddle_scraper.extract_float text = paddle_scraper.regular_number t.
Proof.
  intros Ht Hcase. unfold paddle_scraper.extract_float.
  destruct text as [|c0 text0].
  { exfalso. vm_compute in Ht. subst t.
    destruct Hcase as [(n & d & E & _)|(w & n & d & E & _)];
      symmetry in E; apply app_eq_nil in E as [_ E]; discriminate. }
  cbn [Py.truthy negb]. rewrite Ht. clear Ht c0 text0.
  change (lit " ") with [32]. change (lit "/") with [47].
  destruct Hcase as [(n & d & -> & Hs & Hsl & Hf)
                    |(w & n & d & -> & Hw & Hn & Hc & Hf)].
  - assert (Hn : ~ In 47 n) by (intros K; apply Hsl, in_or_app; auto).
    assert (Hd : ~ In 47 d) by (intros K; apply Hsl, in_or_app; auto).
    rewrite (contains_single_not_in 32).
    2:{ intros K. apply in_app_or in K as [K|[K|K]];
          [|discriminate K|]; apply Hs, in_or_app; auto. }
    cbn [mbind result_bind].
    rewrite contains_single_in by (apply in_or_app; right; left; reflexivity).
    rewrite count_single_one by assumption. cbn [Nat.eqb andb].
    rewrite simple_fraction_fails by assumption. reflexivity.
  - assert (Hcw : forall c, In c w -> Py.isspace c = false /\ c <> 47)
      by (intros c K; apply Hc, in_or_app; auto).
    assert (Hcn : forall c, In c n -> Py.isspace c = false /\ c <> 47)
      by (intros c K; apply Hc, in_or_app; right; apply in_or_app; auto).
    assert (Hcd : forall c, In c d -> Py.isspace c = false /\ c <> 47)
      by (intros c K; apply Hc, in_or_app; right; apply in_or_app; auto).
    assert (Hn47 : ~ In 47 n) by (intros K; apply Hcn in K as [_ K]; congruence).
    assert (Hd47 : ~ In 47 d) by (intros K; apply Hcd in K as [_ K]; congruence).
    rewrite (contains_single_in 32)
      by (apply in_or_app; right; left; reflexivity).
    rewrite (split_ws_two w (n ++ 47 :: d) 32); try assumption;
      try reflexivity.
    2:{ destruct n; discriminate. }
    2:{ intros c K. apply Hcw. exact K. }
    2:{ intros c K. apply in_app_or in K as [K|[<-|K]];
          [apply Hcn; exact K|reflexivity|apply Hcd; exact K]. }
    rewrite mixed_number_fails_none by assumption.
    cbn [mbind result_bind].
    rewrite contains_single_in
      by (apply in_or_app; right; right; apply in_or_app; right; left;
          reflexivity).
    change (w ++ 32 :: n ++ 47 :: d) with (w ++ (32 :: n) ++ 47 :: d).
    rewrite app_assoc.
    rewrite count_single_one; try assumption.
    2:{ intros K. apply in_app_or in K as [K|[K|K]];
          [apply Hcw in K as [_ K]; congruence|discriminate K|
           contradiction]. }
    cbn [Nat.eqb andb].
    unfold paddle_scraper.simple_fraction. change (lit "/") with [47].
    rewrite split_on_single; try assumption.
    2:{ intros K. apply in_app_or in K as [K|[K|K]];
          [apply Hcw in K as [_ K]; congruence|discriminate K|
           contradiction]. }
    unfold index. cbn [lookup list_lookup mbind result_bind].
    rewrite of_str_inner_space; try assumption.
    + reflexivity.
    + intros c K. apply Hcw. exact K.
    + intros c K. apply Hcn. exact K.
Qed.

(** C5 (amended).  For every input whose text, once the unit words are
    removed, is a bare fraction [num/den] or a mixed number [int num/den]
    with a zero denominator or a non-numeric part, the fraction rules
    yield nothing and the normalizer falls back to its last rule: the
    result is the first decimal number of that text, and Missing exactly
    when the text has no digit. *)
Theorem C5_failed_fraction_falls_back (text t : str) :
  paddle_scraper.strip_units text = t ->
  bare_fraction_fails t \/ mixed_number_fails t ->
  paddle_scraper.extract_float text = Ok (first_number_value t)
  /\ (first_number_value t = None
      <-> Forall (fun c => Py.isdigit c = false) t).
Proof.
  intros Ht Hcase. split.
  - rewrite (failed_fraction_regular text t Ht Hcase).
    apply regular_number_spec.
  - apply first_number_value_none_iff.
Qed.

Lemma C5_witness :
  paddle_scraper.extract_float (lit "1/0 in") = Ok (Some (Float.flt "1.0")).
Proof.
  assert (H : bare_fraction_fails (lit "1/0") \/ mixed_number_fails (lit "1/0")).
  { left. exists (lit "1"), (lit "0"). split; [reflexivity|].
    split; [vm_compute; intuition discriminate|].
    split; [vm_compute; intuition discriminate|].
    intros a b Ha Hb. vm_compute in Hb. injection Hb as <-. reflexivity. }
  destruct (C5_failed_fraction_falls_back (lit "1/0 in") (lit "1/0")
              ltac:(vm_compute; reflexivity) H) as [E _].
  rewrite E. vm_compute. reflexivity.
Defined.

(** C5 (as stated) fails: a fraction with a zero denominator, bare or in a
    mixed number, and a fraction with a non-numeric numerator all yield a
    number, the first one of the text. *)
Lemma C5_counterexample :
  paddle_scraper.extract_float (lit "1/0") = Ok (Some (Float.flt "1.0"))
  /\ paddle_scraper.extract_float (lit "4 1/0") = Ok (Some (Float.flt "4.0"))
  /\ paddle_scraper.extract_float (lit "x/4") = Ok (Some (Float.flt "4.0"))
  /\ paddle_scraper.extract_float (lit "1/0") <> Ok None
  /\ paddle_scraper.extract_float (lit "a/b") = Ok None.
Proof. vm_compute. repeat split; try reflexivity. discriminate. Qed.

(** ** The numeric normalizer: ranges *)

(** C3 (amended).  The range rule belongs to the weight of the Galaxy
    adapter.  For every weight text that, with "ounces" removed and
    trimmed, has the form [a-b] with exactly one hyphen: when both [a] and
    [b] parse as floats the weight is their floating-point mean
    [(a + b) / 2], and when either does not parse the weight is Missing. *)
Theorem C3_weight_range (specs_data : gmap (list N) (list N)) (v a b : str) :
  specs_data !! lit "weight" = Some v ->
  Py.strip (Py.replace (lit "ounces") [] v) = a ++ 45 :: b ->
  ~ In 45 a -> ~ In 45 b ->
  galaxy_scraper.resolve_weight specs_data
  = match Float.of_str (Py.strip a), Float.of_str (Py.strip b) with
    | Ok x, Ok y =>
        Ok (Some (SFdiv Float.prec Float.emax (Float.add x y) (Float.flt "2")))
    | _, _ => Ok None
    end.
Proof.
  intros Hv Hw Ha Hb. unfold galaxy_scraper.resolve_weight.
  rewrite Hv. cbv zeta. rewrite Hw. change (lit "-") with [45].
  rewrite contains_single_in by (apply in_or_app; right; left; reflexivity).
  rewrite split_on_single by assumption.
  destruct (Float.of_str (Py.strip a)) as [x|e] eqn:Ex.
  - destruct (Float.of_str (Py.strip b)) as [y|e] eqn:Ey.
    + reflexivity.
    + apply of_str_raises in Ey as ->. reflexivity.
  - apply of_str_raises in Ex as ->. reflexivity.
Qed.

Lemma C3_witness :
  galaxy_scraper.resolve_weight {[ lit "weight" := lit "7.9-8.3 ounces" ]}
  = Ok (Some (Float.flt "8.100000000000001")).
Proof.
  rewrite (C3_weight_range _ (lit "7.9-8.3 ounces") (lit "7.9") (lit "8.3")).
  - vm_compute. reflexivity.
  - vm_compute. reflexivity.
  - vm_compute. reflexivity.
  - vm_compute. intuition discriminate.
  - vm_compute. intuition discriminate.
Defined.

(** C3 (as stated) fails.  On ["7.9-8.3 ounces"] the normalizer returns the
    lower bound 7.9; the weight rule of the Galaxy adapter returns the mean
    as floats compute it, 8.100000000000001, which is not the float 8.1;
    and a range whose upper bound does not parse still yields the lower
    bound. *)
Lemma C3_counterexample :
  paddle_scraper.extract_float (lit "7.9-8.3 ounces")
  = Ok (Some (Float.flt "7.9"))
  /\ data_models.extract_float (lit "7.9-8.3 ounces")
     = Ok (Some (Float.flt "7.9"))
  /\ paddle_scraper.extract_float (lit "7.9-8.3 ounces")
     <> Ok (Some (Float.flt "8.1"))
  /\ Float.eqb (Float.flt "7.9") (Float.flt "8.1") = false
  /\ galaxy_scraper.resolve_weight {[ lit "weight" := lit "7.9-8.3 ounces" ]}
     = Ok (Some (Float.flt "8.100000000000001"))
  /\ galaxy_scraper.resolve_weight {[ lit "weight" := lit "7.9-8.3 ounces" ]}
     <> Ok (Some (Float.flt "8.1"))
  /\ Float.eqb (Float.flt "8.100000000000001") (Float.flt "8.1") = false
  /\ paddle_scraper.extract_float (lit "7.9-x ounces")
     = Ok (Some (Float.flt "7.9")).
Proof. vm_compute. repeat split; try reflexivity; discriminate. Qed.

(** ** The shape of a record *)

Lemma determine_canonical (x : spec_float) :
  In (data_models.determine_paddle_shape_from_length x) canonical_shapes.
Proof.
  unfold data_models.determine_paddle_shape_from_length, canonical_shapes.
  destruct (Float.ge x _); [left; reflexivity|].
  destruct (Float.ge x _); [right; left|right; right; left]; reflexivity.
Qed.

Lemma normalize_canonical_name (s : str) :
  In s canonical_shapes -> data_models.normalize_paddle_shape (Some s) = s.
Proof.
  intros [<-|[<-|[<-|[]]]]; vm_compute; reflexivity.
Qed.

(** Normalizing the answer of the length classifier changes nothing. *)
Lemma normalize_determine (x : spec_float) :
  data_models.normalize_paddle_shape
    (Some (data_models.determine_paddle_shape_from_length x))
  = data_models.determine_paddle_shape_from_length x.
Proof. apply normalize_canonical_name, determine_canonical. Qed.

(** [normalize_paddle_shape] always answers with a canonical shape. *)
Lemma normalize_canonical (s : option (list N)) :
  In (data_models.normalize_paddle_shape s) canonical_shapes.
Proof.
  assert (W : In (lit "Wide-body") canonical_shapes)
    by (right; right; left; reflexivity).
  unfold data_models.normalize_paddle_shape.
  destruct s as [s|]; [|exact W].
  destruct (negb (Py.truthy s)); [exact W|].
  cbv zeta.
  destruct (data_models.shape_mapping !! Py.strip (Py.lower s)) as [v|] eqn:E;
    [|exact W].
  cbn [default from_option]. unfold data_models.shape_mapping in E. apply elem_of_list_to_map_2 in E.
  apply list_elem_of_In in E. cbn [In] in E.
  repeat (destruct E as [E|E];
          [injection E as _ <-; vm_compute; tauto|]).
  destruct E.
Qed.

(** A label that is not a key of the table is mapped to "Wide-body". *)
Lemma normalize_default (s : str) :
  data_models.shape_mapping !! Py.strip (Py.lower s) = None ->
  data_models.normalize_paddle_shape (Some s) = lit "Wide-body".
Proof.
  intros E. unfold data_models.normalize_paddle_shape.
  destruct (negb (Py.truthy s)); [reflexivity|].
  cbv zeta. rewrite E. reflexivity.
Qed.

Lemma galaxy_assemble_shape brand model title_text specs_text items p :
  galaxy_scraper.assemble brand model title_text specs_text items = Ok p ->
  shape (specs p) = galaxy_scraper.resolve_shape (paddle_length (specs p)).
Proof.
  unfold galaxy_scraper.assemble. intros H.
  repeat match type of H with
         | (mbind _ ?c = Ok _) =>
             let E := fresh "E" in
             destruct c eqn:E; cbn [mbind result_bind] in H;
             [|discriminate H]
         end.
  injection H as <-. reflexivity.
Qed.

Lemma central_length_shape_canonical specs s :
  central_scraper.shape_from_length specs = Ok (Some s) ->
  In s canonical_shapes.
Proof.
  unfold central_scraper.shape_from_length.
  destruct (specs !! lit "paddle_length") as [length_text|]; [|discriminate].
  destruct (Py.truthy length_text); [|discriminate].
  destruct (Re.search number_re length_text) as [m|]; [|discriminate].
  destruct (float_of_group1 m) as [x|e]; cbn [mbind result_bind try_except].
  - intros H.
    replace s with (data_models.normalize_paddle_shape
                      (Some (data_models.determine_paddle_shape_from_length x)))
      by congruence.
    exact (normalize_canonical
             (Some (data_models.determine_paddle_shape_from_length x))).
  - destruct (existsb _ _); discriminate.
Qed.

(** C1 (amended).  The shape normalization maps every label, and the absent
    label, onto one of the three canonical values, "Wide-body" for what it
    does not recognize.  In a record of the Galaxy adapter the shape is
    derived from the length alone: with a non-zero length it is the
    canonical value the length classifier gives, and without one the shape
    is left unset (there is no keyword rule and no default).  In the
    Central adapter a shape derived from the length is canonical and is
    the shape of the record. *)
Theorem C1_shape_closed brand model title_text specs_text items p :
  galaxy_scraper.scrape_paddle brand model title_text specs_text items
  = Some p ->
  match paddle_length (specs p) with
  | Some x =>
      if Float.truthy x
      then shape (specs p)
           = Some (data_models.determine_paddle_shape_from_length x)
           /\ In (data_models.determine_paddle_shape_from_length x)
                 canonical_shapes
      else shape (specs p) = None
  | None => shape (specs p) = None
  end
  /\ (forall s, In (data_models.normalize_paddle_shape s) canonical_shapes)
  /\ (forall s,
         data_models.shape_mapping !! Py.strip (Py.lower s) = None ->
         data_models.normalize_paddle_shape (Some s) = lit "Wide-body")
  /\ data_models.normalize_paddle_shape None = lit "Wide-body"
  /\ (forall central_specs description s,
         central_scraper.shape_from_length central_specs = Ok (Some s) ->
         In s canonical_shapes
         /\ central_scraper.resolve_shape central_specs description = Ok s).
Proof.
  intros H. unfold galaxy_scraper.scrape_paddle in H.
  destruct (galaxy_scraper.assemble _ _ _ _ _) as [q|] eqn:E; [|discriminate].
  injection H as ->. apply galaxy_assemble_shape in E.
  split; [|split; [|split; [|split]]].
  - rewrite E. unfold galaxy_scraper.resolve_shape.
    destruct (paddle_length (specs p)) as [x|]; [|reflexivity].
    destruct (Float.truthy x); [|reflexivity].
    rewrite normalize_determine. split; [reflexivity|apply determine_canonical].
  - apply normalize_canonical.
  - apply normalize_default.
  - reflexivity.
  - intros cs description s Hs.
    pose proof (central_length_shape_canonical cs s Hs) as Hc.
    split; [exact Hc|].
    unfold central_scraper.resolve_shape. rewrite Hs.
    cbn [mbind result_bind central_scraper.truthy_str].
    destruct Hc as [<-|[<-|[<-|[]]]]; reflexivity.
Qed.

Lemma C1_witness :
  let p := mkPaddle (lit "selkirk-era")
             (mkMetadata (lit "Selkirk") (lit "Era") (lit "Pickleball Galaxy"))
             (mkSpecs (Some (lit "Elongated")) None None None
                (Some (Float.flt "16.5")) None None None None) None in
  galaxy_scraper.scrape_paddle (lit "Selkirk") (lit "Era") (lit "Selkirk Era")
    [] [lit "Paddle Length: 16.5 in"] = Some p
  /\ shape (specs p) = Some (lit "Elongated").
Proof.
  intros p.
  assert (H : galaxy_scraper.scrape_paddle (lit "Selkirk") (lit "Era")
                (lit "Selkirk Era") [] [lit "Paddle Length: 16.5 in"] = Some p)
    by (vm_compute; reflexivity).
  split; [exact H|].
  destruct (C1_shape_closed _ _ _ _ _ _ H) as [K _].
  exact (proj1 K).
Defined.

(** C1 (as stated) fails.  A Galaxy page without a paddle length yields a
    record whose shape is unset, whatever its description says; a Central
    card without a length and without a keyword yields the shape
    "Standard".  Neither is one of the three canonical values. *)
Lemma C1_counterexample :
  (exists p,
      galaxy_scraper.scrape_paddle (lit "Selkirk") (lit "Era")
        (lit "Selkirk Era") (lit "this is a hybrid paddle")
        [lit "Weight: 8 ounces"] = Some p
      /\ shape (specs p) = None
      /\ ~ (exists c, In c canonical_shapes /\ shape (specs p) = Some c))
  /\ (exists p,
         central_scraper.scrape_cards (fun _ => Float.flt "0.5")
           [central_scraper.mkCard (Some (lit "Selkirk")) (Some (lit "Era"))
              None (Some (lit "$99.00")) None ∅] 0 = [p]
         /\ shape (specs p) = Some (lit "Standard")
         /\ ~ In (lit "Standard") canonical_shapes).
Proof.
  split.
  - eexists. split; [vm_compute; reflexivity|].
    split; [reflexivity|]. intros (c & _ & H). discriminate H.
  - eexists. split; [vm_compute; reflexivity|].
    split; [reflexivity|]. vm_compute. intuition discriminate.
Qed.

(** ** The field resolver: core thickness *)

(** The loop over the description patterns stops at the first pattern that
    matches. *)
Lemma core_from_description_first pre p post specs_text m c :
  Forall (fun q => Re.search q specs_text = None) pre ->
  Re.search p specs_text = Some m ->
  galaxy_scraper.core_from_description (pre ++ p :: post) specs_text c
  = (x ← float_of_group1 m; Ok (Some x)).
Proof.
  intros Hpre Hp. induction Hpre as [|q pre Hq _ IH]; cbn.
  - rewrite Hp. reflexivity.
  - rewrite Hq. exact IH.
Qed.

(** Without a match the loop leaves the value as it was. *)
Lemma core_from_description_none pats specs_text c :
  Forall (fun q => Re.search q specs_text = None) pats ->
  galaxy_scraper.core_from_description pats specs_text c = Ok c.
Proof.
  intros H. induction H as [|q pats Hq _ IH]; cbn; [reflexivity|].
  rewrite Hq. exact IH.
Qed.

(** C7 (amended).  For the core thickness the strategies are tried in the
    declared order and the first one that produces a non-zero value
    short-circuits the rest.  If the structured key yields a parseable
    non-zero value, that is the result whatever the description and the
    title hold.  If it yields nothing or zero, the description is
    consulted: its first matching pattern decides its value, and a
    non-zero value is the result.  If that yields nothing or zero too, the
    result is the non-zero value of the title pattern, or Missing; a zero
    or absent value of an earlier strategy is never the result. *)
Theorem C7_core_strategy_order (specs_data : gmap (list N) (list N))
  (specs_text title_text : str) :
  (forall x,
      core_structured specs_data = Ok (Some x) ->
      Float.truthy x = true ->
      forall specs_text' title_text',
        galaxy_scraper.resolve_core specs_data specs_text' title_text'
        = Ok (Some x))
  /\ (forall c1 x,
         core_structured specs_data = Ok c1 ->
         galaxy_scraper.truthy_float c1 = false ->
         galaxy_scraper.core_from_description galaxy_scraper.core_patterns
           specs_text c1 = Ok (Some x) ->
         Float.truthy x = true ->
         forall title_text',
           galaxy_scraper.resolve_core specs_data specs_text title_text'
           = Ok (Some x))
  /\ (forall c1 c2,
         core_structured specs_data = Ok c1 ->
         galaxy_scraper.truthy_float c1 = false ->
         galaxy_scraper.core_from_description galaxy_scraper.core_patterns
           specs_text c1 = Ok c2 ->
         galaxy_scraper.truthy_float c2 = false ->
         galaxy_scraper.resolve_core specs_data specs_text title_text
         = (c3 ← core_from_title title_text;
            Ok (if galaxy_scraper.truthy_float c3 then c3 else None)))
  /\ (forall pre p post m c,
         galaxy_scraper.core_patterns = pre ++ p :: post ->
         Forall (fun q => Re.search q specs_text = None) pre ->
         Re.search p specs_text = Some m ->
         galaxy_scraper.core_from_description galaxy_scraper.core_patterns
           specs_text c
         = (x ← float_of_group1 m; Ok (Some x))).
Proof.
  split; [|split; [|split]].
  - intros x Hs Hx st tt. unfold galaxy_scraper.resolve_core.
    fold (core_structured specs_data). rewrite Hs.
    do 3 (cbn [mbind result_bind galaxy_scraper.truthy_float negb];
          rewrite ?Hx).
    reflexivity.
  - intros c1 x Hs Hc1 Hd Hx tt. unfold galaxy_scraper.resolve_core.
    fold (core_structured specs_data). rewrite Hs.
    cbn [mbind result_bind]. rewrite Hc1. cbn [negb]. rewrite Hd.
    do 3 (cbn [mbind result_bind galaxy_scraper.truthy_float negb];
          rewrite ?Hx).
    reflexivity.
  - intros c1 c2 Hs Hc1 Hd Hc2. unfold galaxy_scraper.resolve_core.
    fold (core_structured specs_data). rewrite Hs.
    cbn [mbind result_bind]. rewrite Hc1. cbn [negb]. rewrite Hd.
    cbn [mbind result_bind]. rewrite Hc2. cbn [negb].
    unfold core_from_title.
    destruct (Re.search galaxy_scraper.core_title_re title_text) as [m|].
    + destruct (float_of_group1 m) as [x|e]; cbn [mbind result_bind];
        [|reflexivity].
      cbn [galaxy_scraper.truthy_float]. destruct (Float.truthy x); reflexivity.
    + cbn [mbind result_bind]. rewrite Hc2. reflexivity.
  - intros pre p post m c E Hpre Hp. rewrite E.
    apply core_from_description_first; assumption.
Qed.

Lemma C7_witness :
  galaxy_scraper.resolve_core {[ lit "core thickness" := lit "16 mm" ]}
    (lit "A 13mm core inside.") (lit "Era 14mm")
  = Ok (Some (Float.flt "16")).
Proof.
  apply (proj1 (C7_core_strategy_order
                  {[ lit "core thickness" := lit "16 mm" ]} [] [])).
  - vm_compute. reflexivity.
  - vm_compute. reflexivity.
Defined.

(** C7 (as stated) fails on a zero.  The structured key yields the
    parseable value 0.0, yet the description is consulted and gives the
    result; with the same key and an empty description the title gives
    it. *)
Lemma C7_counterexample :
  core_structured {[ lit "core thickness" := lit "0 mm" ]}
  = Ok (Some (Float.flt "0.0"))
  /\ galaxy_scraper.resolve_core {[ lit "core thickness" := lit "0 mm" ]}
       (lit "A 16mm core inside.") (lit "Era 14mm")
     = Ok (Some (Float.flt "16"))
  /\ galaxy_scraper.resolve_core {[ lit "core thickness" := lit "0 mm" ]}
       [] (lit "Era 14mm")
     = Ok (Some (Float.flt "14"))
  /\ galaxy_scraper.resolve_core {[ lit "core thickness" := lit "0 mm" ]}
       (lit "A 16mm core inside.") (lit "Era 14mm")
     <> galaxy_scraper.resolve_core {[ lit "core thickness" := lit "0 mm" ]}
          [] (lit "Era 14mm").
Proof. vm_compute. repeat split; try reflexivity. discriminate. Qed.

(** ** Squeezed strings *)

Lemma collapse_inrun cls repl (s : str) :
  match s with c :: _ => cls c = false | [] => True end ->
  collapse cls repl true s = collapse cls repl false s.
Proof.
  destruct s as [|c s]; [reflexivity|]. intros H. cbn. rewrite H. reflexivity.
Qed.

Lemma collapse_single_spaced_id (s : str) :
  single_spaced s = true -> collapse Py.isspace [32] false s = s.
Proof.
  induction s as [|c s IH]; [reflexivity|].
  cbn [single_spaced collapse]. intros H.
  apply andb_true_iff in H as [H1 H2].
  destruct (Py.isspace c) eqn:E.
  - apply andb_true_iff in H1 as [Hc Hh]. apply N.eqb_eq in Hc. subst c.
    rewrite collapse_inrun.
    + rewrite IH by exact H2. reflexivity.
    + destruct s as [|d s]; [exact I|]. cbn in Hh.
      destruct (Py.isspace d); [discriminate|reflexivity].
  - rewrite IH by exact H2. reflexivity.
Qed.

Lemma collapse_single_spaced (s : str) :
  forall inrun,
    single_spaced (collapse Py.isspace [32] inrun s) = true
    /\ (inrun = true ->
        head_is_space (collapse Py.isspace [32] inrun s) = false).
Proof.
  induction s as [|c s IH]; intros inrun; [split; reflexivity|].
  cbn [collapse]. destruct (Py.isspace c) eqn:E.
  - destruct (IH true) as [H1 H2]. specialize (H2 eq_refl).
    destruct inrun; cbn [app].
    + split; [exact H1|intros _; exact H2].
    + split; [|discriminate]. cbn [single_spaced].
      change (Py.isspace 32) with true. cbn [N.eqb Pos.eqb andb].
      rewrite H2, H1. reflexivity.
  - destruct (IH false) as [H1 _]. split.
    + cbn [single_spaced]. rewrite E, H1. reflexivity.
    + intros _. cbn. exact E.
Qed.

Lemma single_spaced_app_r (a b : str) :
  single_spaced (a ++ b) = true -> single_spaced b = true.
Proof.
  induction a as [|c a IH]; [tauto|]. cbn [app single_spaced].
  intros H. apply andb_true_iff in H as [_ H]. auto.
Qed.

Lemma single_spaced_app_l (a b : str) :
  single_spaced (a ++ b) = true -> single_spaced a = true.
Proof.
  induction a as [|c a IH]; [reflexivity|]. cbn [app single_spaced].
  intros H. apply andb_true_iff in H as [H1 H2].
  rewrite (IH H2), andb_true_r.
  destruct (Py.isspace c); [|reflexivity].
  apply andb_true_iff in H1 as [Hc Hh]. rewrite Hc. cbn [andb].
  destruct a as [|d a]; [reflexivity|]. exact Hh.
Qed.

Lemma lstrip_head_not_space (s : str) : head_is_space (Py.lstrip s) = false.
Proof.
  induction s as [|c s IH]; [reflexivity|].
  cbn [Py.lstrip]. destruct (Py.isspace c) eqn:E; [exact IH|].
  cbn. exact E.
Qed.

Lemma strip_squeezed (s : str) :
  single_spaced s = true -> squeezed (Py.strip s) = true.
Proof.
  intros H. destruct (strip_decompose s) as (a & b & E).
  assert (H1 : single_spaced (Py.strip s) = true).
  { rewrite E in H. apply single_spaced_app_r in H.
    apply single_spaced_app_l in H. exact H. }
  unfold squeezed. rewrite H1. cbn [andb].
  assert (H3 : head_is_space (rev (Py.strip s)) = false).
  { unfold Py.strip, Py.rstrip. rewrite rev_involutive.
    apply lstrip_head_not_space. }
  rewrite H3, andb_true_r.
  unfold Py.strip, Py.rstrip.
  destruct (lstrip_suffix (rev (Py.lstrip s))) as [w Hw].
  pose proof (lstrip_head_not_space s) as Hh.
  apply (f_equal (@rev N)) in Hw. rewrite rev_involutive, rev_app_distr in Hw.
  destruct (rev (Py.lstrip (rev (Py.lstrip s)))) as [|c r]; [reflexivity|].
  rewrite Hw in Hh. cbn in Hh. cbn. rewrite Hh. reflexivity.
Qed.

Lemma squeezed_strip (s : str) : squeezed s = true -> Py.strip s = s.
Proof.
  unfold squeezed. intros H.
  apply andb_true_iff in H as [H H3]. apply andb_true_iff in H as [_ H2].
  apply strip_id.
  - intros c Hc. destruct s; [discriminate|]. injection Hc as ->.
    cbn in H2. destruct (Py.isspace c); [discriminate|reflexivity].
  - intros c Hc. destruct (rev s); [discriminate|]. injection Hc as ->.
    cbn in H3. destruct (Py.isspace c); [discriminate|reflexivity].
Qed.

(** The last step of the cleaner always gives a squeezed string, and leaves
    a squeezed string as it is. *)
Lemma squeeze_squeezed (s : str) : squeezed (data_models.squeeze s) = true.
Proof.
  unfold data_models.squeeze. change (lit " ") with [32].
  rewrite sub_plus_collapse. apply strip_squeezed.
  apply collapse_single_spaced.
Qed.

Lemma squeeze_id (s : str) : squeezed s = true -> data_models.squeeze s = s.
Proof.
  intros H. unfold data_models.squeeze. change (lit " ") with [32].
  rewrite sub_plus_collapse.
  rewrite collapse_single_spaced_id.
  - apply squeezed_strip. exact H.
  - unfold squeezed in H. apply andb_true_iff in H as [H _].
    apply andb_true_iff in H as [H _]. exact H.
Qed.

(** ** The name cleaner *)

Lemma rmatch_word_ci {R} (w : str) st (k : Re.mstate -> option R) :
  Py.startswith (Py.lower w) (Py.lower (Re.ms_rest st)) = false ->
  Re.rmatch (Re.word true w) st k = None.
Proof.
  revert st. induction w as [|c w IH]; intros st H; [discriminate H|].
  cbn [Re.word fold_right Re.rmatch].
  destruct (Re.ms_rest st) as [|x rest'] eqn:E; [reflexivity|].
  cbn in H. unfold Re.chr_i.
  rewrite N.eqb_sym in H.
  destruct (Py.lower_char x =? Py.lower_char c); [|reflexivity].
  apply (IH (Re.MState (Some x) rest' (S (Re.ms_off st)) (Re.ms_grp st))).
  exact H.
Qed.

Lemma match_descriptor_none (d : str) prev (s : str) :
  Py.startswith (Py.lower d) (Py.lower s) = false ->
  Re.match_at (data_models.descriptor_re d) prev s = None.
Proof.
  intros H. unfold Re.match_at, data_models.descriptor_re.
  cbn [Re.rmatch]. destruct (xorb _ _); [|reflexivity].
  apply rmatch_word_ci. exact H.
Qed.

Lemma contains_false_suffix (sub s s' : str) :
  Py.contains sub s = false -> s' `suffix_of` s ->
  Py.startswith sub s' = false.
Proof.
  intros H [k ->]. induction k as [|c k IH].
  - cbn [app] in H. destruct s'; cbn [Py.contains] in H;
      apply orb_false_iff in H; tauto.
  - cbn [app Py.contains] in H. apply orb_false_iff in H as [_ H]. auto.
Qed.

(** Removing a descriptor that does not occur changes nothing. *)
Lemma sub_descriptor_id (d y : str) :
  Py.contains (Py.lower d) (Py.lower y) = false ->
  Re.sub (data_models.descriptor_re d) [] y = y.
Proof.
  intros H. apply sub_from_no_match. intros prev' s' Hs.
  apply match_descriptor_none.
  apply (contains_false_suffix _ (Py.lower y)); [exact H|].
  destruct Hs as [k ->]. exists (Py.lower k).
  unfold Py.lower. apply map_app.
Qed.

Lemma remove_descriptors_id (y : str) :
  forallb (fun d => negb (Py.contains (Py.lower d) (Py.lower y)))
          data_models.common_descriptors = true ->
  data_models.remove_descriptors y = y.
Proof.
  unfold data_models.remove_descriptors.
  induction data_models.common_descriptors as [|d ds IH]; [reflexivity|].
  cbn [forallb fold_left]. intros H.
  apply andb_true_iff in H as [H1 H2]. apply negb_true_iff in H1.
  rewrite sub_descriptor_id by exact H1. apply IH. exact H2.
Qed.

Lemma strip_suffixes_id (y : str) :
  forallb (fun suffix => negb (Py.endswith y suffix))
          data_models.unwanted_suffixes = true ->
  data_models.strip_suffixes y = y.
Proof.
  unfold data_models.strip_suffixes.
  induction data_models.unwanted_suffixes as [|suf l IH]; [reflexivity|].
  cbn [forallb fold_left]. intros H.
  apply andb_true_iff in H as [H1 H2]. apply negb_true_iff in H1.
  unfold data_models.strip_suffix at 2. rewrite H1. apply IH. exact H2.
Qed.

Lemma needs_pipe_tail :
  needs (Re.one_of data_models.pipe_chars) data_models.pipe_tail_re.
Proof.
  apply needs_cat_r, needs_cat_l, needs_one.
  intros c H. unfold Re.chr in H. apply N.eqb_eq in H. subst c. reflexivity.
Qed.

Lemma needs_pipes :
  needs (Re.one_of data_models.pipe_chars) data_models.pipes_re.
Proof. apply needs_cat_l, needs_one. auto. Qed.

Lemma needs_paren : needs (Re.chr 40) data_models.paren_re.
Proof. apply needs_cat_r, needs_cat_l, needs_one. auto. Qed.

Lemma contains_single_false_forall (k : N) (s : str) :
  Py.contains [k] s = false -> Forall (fun c => Re.chr k c = false) s.
Proof.
  induction s as [|c s IH]; [constructor|].
  cbn [Py.contains]. rewrite startswith_single. intros H.
  apply orb_false_iff in H as [H1 H2]. constructor; [|auto].
  unfold Re.chr. rewrite N.eqb_sym. exact H1.
Qed.

(** A squeezed, pipe-free and settled name is a fixed point of the
    cleaner. *)
Lemma clean_fixed_point (y : str) :
  squeezed y = true -> pipe_free y -> settled y = true ->
  data_models.clean_model_name y = y.
Proof.
  intros Hsq Hp Hs. unfold settled in Hs.
  apply andb_true_iff in Hs as [Hs Hd]. apply andb_true_iff in Hs as [Hsuf Hpar].
  apply negb_true_iff in Hpar. change (lit "(") with [40] in Hpar.
  unfold data_models.clean_model_name.
  destruct (negb (Py.truthy y)); [reflexivity|]. cbv zeta.
  rewrite (sub_needs_id _ _ _ _ needs_pipe_tail Hp).
  rewrite (sub_needs_id _ _ _ _ needs_pipes Hp).
  rewrite strip_suffixes_id by exact Hsuf.
  rewrite (sub_needs_id _ _ _ _ needs_paren
             (contains_single_false_forall 40 y Hpar)).
  rewrite squeezed_strip by exact Hsq.
  rewrite remove_descriptors_id by exact Hd.
  apply squeeze_id. exact Hsq.
Qed.

(** *** What every cleaned name has *)

Lemma strip_suffix_chars (m suffix : str) (c : N) :
  In c (data_models.strip_suffix m suffix) -> In c m.
Proof.
  unfold data_models.strip_suffix, Py.drop_last.
  destruct (Py.endswith m suffix); [|tauto].
  intros H. apply strip_chars in H.
  rewrite <- (firstn_skipn (length m - length suffix) m).
  apply in_or_app. left. exact H.
Qed.

Lemma strip_suffixes_chars (m : str) (c : N) :
  In c (data_models.strip_suffixes m) -> In c m.
Proof.
  unfold data_models.strip_suffixes. revert m.
  induction data_models.unwanted_suffixes as [|suf l IH]; intros m;
    [tauto|].
  cbn [fold_left]. intros H. apply IH in H.
  apply strip_suffix_chars in H. exact H.
Qed.

Lemma remove_descriptors_chars (m : str) (c : N) :
  In c (data_models.remove_descriptors m) -> In c m.
Proof.
  unfold data_models.remove_descriptors. revert m.
  induction data_models.common_descriptors as [|d ds IH]; intros m;
    [tauto|].
  cbn [fold_left]. intros H. apply IH in H.
  apply sub_from_chars in H as [H|[]]. exact H.
Qed.

Lemma sub_chars r repl (s : str) (c : N) :
  In c (Re.sub r repl s) -> In c s \/ In c repl.
Proof. apply sub_from_chars. Qed.

Lemma space_not_pipe : Re.one_of data_models.pipe_chars 32 = false.
Proof. reflexivity. Qed.

(** The cleaner on a non-empty name. *)
Lemma clean_model_name_cons (x0 : N) (x' : str) :
  data_models.clean_model_name (x0 :: x')
  = data_models.squeeze
      (data_models.remove_descriptors
         (Py.strip
            (Re.sub data_models.paren_re (lit " ")
               (data_models.strip_suffixes
                  (Re.sub data_models.pipes_re []
                     (Re.sub data_models.pipe_tail_re [] (x0 :: x'))))))).
Proof. reflexivity. Qed.

Lemma squeeze_chars (m : str) (c : N) :
  In c (data_models.squeeze m) -> In c m \/ c = 32.
Proof.
  unfold data_models.squeeze. intros H.
  apply strip_chars, sub_chars in H as [H|[<-|[]]]; auto.
Qed.

Lemma paren_step_chars (m : str) (c : N) :
  In c (Py.strip (Re.sub data_models.paren_re (lit " ") m)) ->
  In c m \/ c = 32.
Proof.
  intros H. apply strip_chars, sub_chars in H as [H|[<-|[]]]; auto.
Qed.

Lemma pipes_step_free (m : str) :
  pipe_free (Re.sub data_models.pipes_re [] m).
Proof.
  unfold data_models.pipes_re. rewrite sub_plus_collapse.
  apply collapse_removes.
Qed.

(** A cleaned name is squeezed and has none of the pipe characters. *)
Lemma clean_output (x : str) :
  squeezed (data_models.clean_model_name x) = true
  /\ pipe_free (data_models.clean_model_name x).
Proof.
  destruct x as [|x0 x']; [split; [reflexivity|constructor]|].
  rewrite clean_model_name_cons. split; [apply squeeze_squeezed|].
  apply List.Forall_forall. intros c Hc.
  apply squeeze_chars in Hc as [Hc| ->]; [|apply space_not_pipe].
  apply remove_descriptors_chars, paren_step_chars in Hc as [Hc| ->];
    [|apply space_not_pipe].
  apply strip_suffixes_chars in Hc.
  pose proof (pipes_step_free (Re.sub data_models.pipe_tail_re [] (x0 :: x')))
    as H2.
  unfold pipe_free in H2. rewrite List.Forall_forall in H2.
  apply H2. exact Hc.
Qed.

(** C4 (amended).  Re-applying the name cleaner to its output is a no-op
    whenever that output is settled: it no longer ends with one of the
    unwanted suffixes, has no opening parenthesis and contains none of the
    descriptors.  (Every output is free of pipe characters and has its
    whitespace squeezed.) *)
Theorem C4_clean_idempotent_when_settled (x : str) :
  settled (data_models.clean_model_name x) = true ->
  data_models.clean_model_name (data_models.clean_model_name x)
  = data_models.clean_model_name x.
Proof.
  intros H. destruct (clean_output x) as [Hsq Hp].
  apply clean_fixed_point; assumption.
Qed.

Lemma C4_witness :
  data_models.clean_model_name (lit "Selkirk Paddle | SALE") = lit "Selkirk"
  /\ data_models.clean_model_name
       (data_models.clean_model_name (lit "Selkirk Paddle | SALE"))
     = data_models.clean_model_name (lit "Selkirk Paddle | SALE").
Proof.
  split; [vm_compute; reflexivity|].
  apply (C4_clean_idempotent_when_settled (lit "Selkirk Paddle | SALE")).
  vm_compute. reflexivity.
Defined.

(** C4 (as stated) fails.  Removing the descriptor "SALE" uncovers the
    suffix "Paddle", which only a second application strips; a suffix
    uncovered by the removal of a later suffix of the list behaves the
    same. *)
Lemma C4_counterexample :
  data_models.clean_model_name (lit "Foo Paddle SALE") = lit "Foo Paddle"
  /\ data_models.clean_model_name
       (data_models.clean_model_name (lit "Foo Paddle SALE")) = lit "Foo"
  /\ data_models.clean_model_name
       (data_models.clean_model_name (lit "Foo Paddle SALE"))
     <> data_models.clean_model_name (lit "Foo Paddle SALE")
  /\ data_models.clean_model_name (lit "Foo Paddle - PBC") = lit "Foo Paddle"
  /\ data_models.clean_model_name
       (data_models.clean_model_name (lit "Foo Paddle - PBC")) = lit "Foo".
Proof. vm_compute. repeat split; try reflexivity. discriminate. Qed.

(** * Further properties *)

(** ** The sign of a parsed number *)

Lemma shr_1_nonneg mrs : (0 <= shr_m mrs)%Z -> (0 <= shr_m (shr_1 mrs))%Z.
Proof.
  destruct mrs as [m r s]. cbn [shr_m]. intros H.
  destruct m as [|p|p]; [cbn; lia| |lia].
  destruct p; cbn; lia.
Qed.

Lemma iter_shr_1_nonneg p mrs :
  (0 <= shr_m mrs)%Z -> (0 <= shr_m (SpecFloat.iter_pos shr_1 p mrs))%Z.
Proof.
  revert mrs. induction p as [p IH|p IH|]; intros mrs H; cbn [SpecFloat.iter_pos].
  - apply IH, IH, shr_1_nonneg, H.
  - apply IH, IH, H.
  - apply shr_1_nonneg, H.
Qed.

Lemma shr_fexp_nonneg m e l :
  (0 <= m)%Z ->
  (0 <= shr_m (fst (shr_fexp Float.prec Float.emax m e l)))%Z.
Proof.
  intros H. unfold shr_fexp, shr.
  assert (H0 : (0 <= shr_m (shr_record_of_loc m l))%Z).
  { destruct l as [|[| |]]; exact H. }
  destruct (_ - e)%Z; cbn [fst]; [exact H0| |exact H0].
  apply iter_shr_1_nonneg, H0.
Qed.

Lemma round_nearest_even_nonneg m l :
  (0 <= m)%Z -> (0 <= round_nearest_even m l)%Z.
Proof.
  intros H. unfold round_nearest_even.
  destruct l as [|[| |]]; [lia| |lia|lia].
  destruct (Z.even m); lia.
Qed.

(** Rounding keeps the sign it is given, and gives no NaN on a natural
    mantissa. *)
Lemma binary_round_aux_sign sx mx ex lx :
  (0 <= mx)%Z ->
  sign_bit (binary_round_aux Float.prec Float.emax sx mx ex lx) = Some sx.
Proof.
  intros H. unfold binary_round_aux.
  pose proof (shr_fexp_nonneg mx ex lx H) as H1.
  destruct (shr_fexp Float.prec Float.emax mx ex lx) as [mrs' e'].
  cbn [fst] in H1.
  pose proof (shr_fexp_nonneg _ e' loc_Exact
                (round_nearest_even_nonneg _ (loc_of_shr_record mrs') H1)) as H2.
  destruct (shr_fexp Float.prec Float.emax _ e' loc_Exact) as [mrs'' e''].
  cbn [fst] in H2.
  destruct (shr_m mrs'') as [|p|p]; [reflexivity| |lia].
  destruct (e'' <=? _)%Z; reflexivity.
Qed.

Lemma of_decimal_sign neg m e10 :
  sign_bit (Float.of_decimal neg m e10) = Some neg.
Proof.
  unfold Float.of_decimal. destruct m as [|p|p]; [reflexivity| |reflexivity].
  destruct (0 <=? e10)%Z eqn:E.
  - assert (Hp : (0 < Z.pos p * 10 ^ e10)%Z).
    { apply Z.leb_le in E. apply Z.mul_pos_pos; [lia|].
      apply Z.pow_pos_nonneg; lia. }
    destruct (Z.pos p * 10 ^ e10)%Z as [|q|q] eqn:Eq; [lia| |lia].
    destruct neg; cbn [cond_Zopp];
      try change (- Z.pos q)%Z with (Z.neg q);
      cbn [binary_normalize]; unfold binary_round;
      match goal with
      | |- context [shl_align ?a ?b ?c] => destruct (shl_align a b c) as [mz ez]
      end;
      apply binary_round_aux_sign; lia.
  - apply Z.leb_gt in E.
    assert (Hd : (0 < 10 ^ (- e10))%Z) by (apply Z.pow_pos_nonneg; lia).
    unfold SFdiv_core_binary.
    set (m' := match _ with Z.pos _ => _ | _ => _ end).
    assert (Hm : (0 <= m')%Z).
    { subst m'. destruct (_ - _)%Z; [lia| |lia].
      apply Z.shiftl_nonneg. lia. }
    pose proof (Z.div_pos m' _ Hm Hd) as Hq.
    unfold Z.div in Hq.
    destruct (Z.div_eucl m' (10 ^ (- e10))) as [q r]. cbn [fst] in Hq.
    apply binary_round_aux_sign. exact Hq.
Qed.

Lemma floatnumber_sign neg r x :
  Float.floatnumber neg r = Some x -> sign_bit x = Some neg.
Proof.
  unfold Float.floatnumber.
  destruct (Float.number r) as [[[m nf] r']|]; [|discriminate].
  destruct r' as [|c r1].
  - intros [= <-]. apply of_decimal_sign.
  - destruct ((c =? 101) || (c =? 69)); [|discriminate].
    destruct (Float.sign r1) as [eneg r2].
    destruct (Float.digitpart r2) as [[[ev k] [|? ?]]|]; try discriminate.
    intros [= <-]. apply of_decimal_sign.
Qed.

(** The value of a text that starts with a digit has the sign [+]. *)
Lemma of_str_digit_sign (c : N) (s : str) x :
  Py.isdigit c = true -> Float.of_str (c :: s) = Ok x ->
  sign_bit x = Some false.
Proof.
  intros Hc. pose proof (isdigit_range c Hc) as Hr.
  unfold Float.of_str.
  assert (Hs : exists s', Py.strip (c :: s) = c :: s').
  { unfold Py.strip. rewrite lstrip_head by (apply isdigit_not_space, Hc).
    unfold Py.rstrip.
    destruct (lstrip_suffix (rev (c :: s))) as [w Hw].
    apply (f_equal (@rev N)) in Hw. rewrite rev_involutive, rev_app_distr in Hw.
    destruct (rev (Py.lstrip (rev (c :: s)))) as [|y t] eqn:E.
    - exfalso. cbn [app] in Hw.
      assert (Hin : In c (rev w)) by (rewrite <- Hw; left; reflexivity).
      apply in_rev in Hin.
      destruct (lstrip_suffix_ws (rev (c :: s))) as [w' [Hw' Hall]].
      assert (E' : Py.lstrip (rev (c :: s)) = []).
      { apply (f_equal (@rev N)) in E. rewrite rev_involutive in E. exact E. }
      rewrite E', app_nil_r in Hw'.
      rewrite List.Forall_forall in Hall.
      assert (Hsp : Py.isspace c = true).
      { apply Hall. rewrite <- Hw'. apply in_rev. rewrite rev_involutive.
        left. reflexivity. }
      rewrite (isdigit_not_space c Hc) in Hsp. discriminate.
    - cbn [app] in Hw. injection Hw as <- _. exists t. reflexivity. }
  destruct Hs as [s' ->].
  rewrite sign_other by lia.
  assert (Hl : Py.lower_char c = c).
  { unfold Py.lower_char, Py.isupper.
    replace (65 <=? c) with false by (symmetry; apply N.leb_gt; lia).
    reflexivity. }
  assert (Hw : forall y w, y <> c ->
                 Py.eqb (Py.lower (c :: s')) (y :: w) = false).
  { intros y w Hy. cbn. rewrite Hl.
    destruct (N.eqb_spec c y); [congruence|reflexivity]. }
  change (lit "inf") with (105 :: lit "nf").
  change (lit "infinity") with (105 :: lit "nfinity").
  change (lit "nan") with (110 :: lit "an").
  rewrite !Hw by lia. cbn [orb].
  destruct (Float.floatnumber false (c :: s')) eqn:E; [|discriminate].
  intros [= <-]. apply (floatnumber_sign _ _ _ E).
Qed.

Lemma first_number_head (s t : str) :
  first_number s = Some t -> exists c t', t = c :: t' /\ Py.isdigit c = true.
Proof.
  induction s as [|c s IH]; cbn [first_number number_len]; [discriminate|].
  destruct (Py.isdigit c) eqn:Ec.
  - intros [= <-]. cbn [Nat.add firstn]. eauto.
  - exact IH.
Qed.

(** X1: [extract_float] of [data_models.py] never raises; it gives [None]
    exactly for a text without a digit; and a value it gives is no NaN and
    has the sign [+]: a minus sign in the text is ignored. *)
Theorem X1_extract_float_unsigned (text : str) :
  exists r,
    data_models.extract_float text = Ok r
    /\ (r = None <-> Forall (fun c => Py.isdigit c = false) text)
    /\ (forall x, r = Some x -> sign_bit x = Some false)
    /\ data_models.extract_float (45 :: text)
       = data_models.extract_float text.
Proof.
  exists (first_number_value text).
  split; [apply data_models_extract_float_spec|].
  split; [apply first_number_value_none_iff|].
  split.
  - unfold first_number_value. intros x.
    destruct (first_number text) as [t|] eqn:E; [|discriminate].
    destruct (first_number_head _ _ E) as (c & t' & -> & Hc).
    destruct (Float.of_str (c :: t')) eqn:E2; [|discriminate].
    intros [= <-]. exact (of_str_digit_sign _ _ _ Hc E2).
  - rewrite !data_models_extract_float_spec. reflexivity.
Qed.

(** ** The fraction-aware extractor never raises *)

Lemma split_from_length (sep : str) (s : str) :
  forall skip cur,
    length (Py.split_from sep skip cur s) = S (Py.count_from sep skip s).
Proof.
  induction s as [|c s IH]; intros skip cur; [reflexivity|].
  cbn [Py.split_from Py.count_from].
  destruct skip as [|n]; [|apply IH].
  destruct (Py.startswith sep (c :: s)); cbn [length]; rewrite IH; reflexivity.
Qed.

Lemma truediv_raises a b e :
  Float.truediv a b = Raise e -> e = ZeroDivisionError.
Proof.
  unfold Float.truediv. destruct (Float.is_zero b); congruence.
Qed.

(** The division of two parsed texts inside a handler of both errors. *)
Lemma fraction_handled (n d : str)
  (k : spec_float -> result (option spec_float)) :
  (forall q, exists r, k q = Ok r) ->
  exists r,
    try_except
      (a ← Float.of_str n; b ← Float.of_str d; q ← Float.truediv a b; k q)
      [ValueError; ZeroDivisionError] (Ok None) = Ok r.
Proof.
  intros Hk.
  destruct (Float.of_str n) as [a|e] eqn:En.
  2:{ apply of_str_raises in En as ->. eexists. reflexivity. }
  destruct (Float.of_str d) as [b|e] eqn:Ed.
  2:{ apply of_str_raises in Ed as ->. eexists. reflexivity. }
  cbn [mbind result_bind].
  destruct (Float.truediv a b) as [q|e] eqn:Eq.
  2:{ apply truediv_raises in Eq as ->. eexists. reflexivity. }
  cbn [mbind result_bind]. destruct (Hk q) as [r ->]. exists r. reflexivity.
Qed.

Lemma mixed_number_total (parts : list str) :
  exists r, paddle_scraper.mixed_number parts = Ok r.
Proof.
  unfold paddle_scraper.mixed_number.
  destruct parts as [|p0 [|p1 [|p2 parts]]]; try (eexists; reflexivity).
  destruct (Float.of_str p0) as [whole|e] eqn:E0.
  2:{ apply of_str_raises in E0 as ->. eexists. reflexivity. }
  cbn [mbind result_bind].
  destruct (Py.contains (lit "/") p1); [|eexists; reflexivity].
  destruct (Py.split_on (lit "/") p1) as [|n [|d [|x l]]];
    try (eexists; reflexivity).
  apply (fraction_handled n d (fun q => Ok (Some (Float.add whole q)))).
  intros q. eexists. reflexivity.
Qed.

Lemma simple_fraction_total (text : str) :
  Py.count (lit "/") text = 1%nat ->
  exists r, paddle_scraper.simple_fraction text = Ok r.
Proof.
  intros Hc. unfold paddle_scraper.simple_fraction.
  pose proof (split_from_length (lit "/") text 0 []) as Hl.
  change (Py.count_from (lit "/") 0 text) with (Py.count (lit "/") text) in Hl.
  rewrite Hc in Hl. fold (Py.split_on (lit "/") text) in Hl.
  destruct (Py.split_on (lit "/") text) as [|n [|d [|x l]]]; try discriminate.
  cbn [index lookup list_lookup mbind result_bind].
  destruct (Float.of_str n) as [a|e] eqn:En.
  2:{ apply of_str_raises in En as ->. eexists. reflexivity. }
  cbn [mbind result_bind].
  destruct (Float.of_str d) as [b|e] eqn:Ed.
  2:{ apply of_str_raises in Ed as ->. eexists. reflexivity. }
  cbn [mbind result_bind].
  destruct (Float.truediv a b) as [q|e] eqn:Eq.
  2:{ apply truediv_raises in Eq as ->. eexists. reflexivity. }
  eexists. reflexivity.
Qed.

(** X2: [extract_float] of [paddle_scraper.py] never raises: every error of
    a conversion or a division is handled, and the indexing of the split
    fraction is in range. *)
Theorem X2_scraper_extract_float_total (text : str) :
  exists r, paddle_scraper.extract_float text = Ok r.
Proof.
  unfold paddle_scraper.extract_float.
  destruct (negb (Py.truthy text)); [eexists; reflexivity|].
  set (t := paddle_scraper.strip_units text).
  assert (H1 : exists r1,
             (if Py.contains (lit " ") t
              then paddle_scraper.mixed_number (Py.split_ws t)
              else Ok None) = Ok r1).
  { destruct (Py.contains (lit " ") t); [apply mixed_number_total|].
    eexists. reflexivity. }
  destruct H1 as [r1 ->]. cbn [mbind result_bind].
  destruct r1 as [x|]; [eexists; reflexivity|].
  assert (H2 : exists r2,
             (if Py.contains (lit "/") t && Nat.eqb (Py.count (lit "/") t) 1
              then paddle_scraper.simple_fraction t
              else Ok None) = Ok r2).
  { destruct (Py.contains (lit "/") t); cbn [andb];
      [|eexists; reflexivity].
    destruct (Nat.eqb_spec (Py.count (lit "/") t) 1) as [Hc|Hc];
      [apply simple_fraction_total, Hc|eexists; reflexivity]. }
  destruct H2 as [r2 ->]. cbn [mbind result_bind].
  destruct r2 as [x|]; [eexists; reflexivity|].
  rewrite regular_number_spec. eexists. reflexivity.
Qed.

(** ** The values of fractions and mixed numbers *)

Lemma of_str_nonempty (s : str) x : Float.of_str s = Ok x -> s <> [].
Proof. intros H ->. vm_compute in H. discriminate. Qed.

Lemma strip_units_nonempty (text : str) :
  paddle_scraper.strip_units text <> [] -> Py.truthy text = true.
Proof.
  destruct text; [intros H; exfalso; apply H; reflexivity|reflexivity].
Qed.

(** X3: a text that, once the unit words are removed and it is trimmed,
    is a fraction [n/d] without a space, whose parts [float] accepts and
    whose denominator is not zero, has the quotient as its value. *)
Theorem X3_simple_fraction_value (text n d : str) (a b : spec_float) :
  paddle_scraper.strip_units text = n ++ 47 :: d ->
  ~ In 47 (n ++ d) -> ~ In 32 (n ++ d) ->
  Float.of_str n = Ok a -> Float.of_str d = Ok b ->
  Float.is_zero b = false ->
  paddle_scraper.extract_float text
  = Ok (Some (SFdiv Float.prec Float.emax a b)).
Proof.
  intros Ht Hsl Hsp Ha Hb Hz.
  assert (Hn : ~ In 47 n) by (intros K; apply Hsl, in_or_app; auto).
  assert (Hd : ~ In 47 d) by (intros K; apply Hsl, in_or_app; auto).
  unfold paddle_scraper.extract_float.
  rewrite strip_units_nonempty by (rewrite Ht; destruct n; discriminate).
  cbn [negb]. rewrite Ht.
  change (lit " ") with [32]. change (lit "/") with [47].
  rewrite (contains_single_not_in 32).
  2:{ intros K. apply in_app_or in K as [K|[K|K]];
        [|discriminate K|]; apply Hsp, in_or_app; auto. }
  cbn [mbind result_bind].
  rewrite contains_single_in by (apply in_or_app; right; left; reflexivity).
  rewrite count_single_one by assumption. cbn [Nat.eqb andb].
  unfold paddle_scraper.simple_fraction. change (lit "/") with [47].
  rewrite split_on_single by assumption.
  unfold index. cbn [lookup list_lookup mbind result_bind].
  rewrite Ha. cbn [mbind result_bind]. rewrite Hb. cbn [mbind result_bind].
  unfold Float.truediv. rewrite Hz. reflexivity.
Qed.

Lemma X3_witness :
  paddle_scraper.extract_float (lit "3/8 in")
  = Ok (Some (SFdiv Float.prec Float.emax (Float.flt "3") (Float.flt "8")))
  /\ SFdiv Float.prec Float.emax (Float.flt "3") (Float.flt "8")
     = Float.flt "0.375".
Proof.
  split; [|vm_compute; reflexivity].
  apply (X3_simple_fraction_value (lit "3/8 in") (lit "3") (lit "8")).
  - vm_compute. reflexivity.
  - vm_compute. intuition discriminate.
  - vm_compute. intuition discriminate.
  - vm_compute. reflexivity.
  - vm_compute. reflexivity.
  - vm_compute. reflexivity.
Defined.

(** X4: a text that, once the unit words are removed and it is trimmed,
    is a mixed number [w n/d] (one space, no other whitespace and no other
    slash), whose three parts [float] accepts and whose denominator is not
    zero, has the value [w + n/d]. *)
Theorem X4_mixed_number_value (text w n d : str) (x a b : spec_float) :
  paddle_scraper.strip_units text = w ++ 32 :: n ++ 47 :: d ->
  (forall c, In c (w ++ n ++ d) -> Py.isspace c = false /\ c <> 47) ->
  Float.of_str w = Ok x -> Float.of_str n = Ok a -> Float.of_str d = Ok b ->
  Float.is_zero b = false ->
  paddle_scraper.extract_float text
  = Ok (Some (Float.add x (SFdiv Float.prec Float.emax a b))).
Proof.
  intros Ht Hc Hx Ha Hb Hz.
  assert (Hcw : forall c, In c w -> Py.isspace c = false /\ c <> 47)
    by (intros c K; apply Hc, in_or_app; auto).
  assert (Hcn : forall c, In c n -> Py.isspace c = false /\ c <> 47)
    by (intros c K; apply Hc, in_or_app; right; apply in_or_app; auto).
  assert (Hcd : forall c, In c d -> Py.isspace c = false /\ c <> 47)
    by (intros c K; apply Hc, in_or_app; right; apply in_or_app; auto).
  assert (Hn47 : ~ In 47 n) by (intros K; apply Hcn in K as [_ K]; congruence).
  assert (Hd47 : ~ In 47 d) by (intros K; apply Hcd in K as [_ K]; congruence).
  unfold paddle_scraper.extract_float.
  rewrite strip_units_nonempty by (rewrite Ht; destruct w; discriminate).
  cbn [negb]. rewrite Ht.
  change (lit " ") with [32]. change (lit "/") with [47].
  rewrite (contains_single_in 32)
    by (apply in_or_app; right; left; reflexivity).
  rewrite (split_ws_two w (n ++ 47 :: d) 32).
  2:{ reflexivity. }
  2:{ exact (of_str_nonempty _ _ Hx). }
  2:{ destruct n; discriminate. }
  2:{ intros c K. apply Hcw. exact K. }
  2:{ intros c K. apply in_app_or in K as [K|[<-|K]];
        [apply Hcn; exact K|reflexivity|apply Hcd; exact K]. }
  unfold paddle_scraper.mixed_number. rewrite Hx. cbn [mbind result_bind].
  change (lit "/") with [47].
  rewrite (contains_single_in 47 (n ++ 47 :: d))
    by (apply in_or_app; right; left; reflexivity).
  rewrite (split_on_single 47 n d) by assumption.
  rewrite Ha. cbn [mbind result_bind]. rewrite Hb. cbn [mbind result_bind].
  unfold Float.truediv. rewrite Hz. reflexivity.
Qed.

Lemma X4_witness :
  paddle_scraper.extract_float (lit "4 1/4 in")
  = Ok (Some (Float.add (Float.flt "4")
                (SFdiv Float.prec Float.emax (Float.flt "1") (Float.flt "4"))))
  /\ Float.add (Float.flt "4")
       (SFdiv Float.prec Float.emax (Float.flt "1") (Float.flt "4"))
     = Float.flt "4.25".
Proof.
  split; [|vm_compute; reflexivity].
  apply (X4_mixed_number_value (lit "4 1/4 in") (lit "4") (lit "1") (lit "4")).
  - vm_compute. reflexivity.
  - intros c Hin. vm_compute in Hin.
    destruct Hin as [<-|[<-|[<-|[]]]]; split; (reflexivity || discriminate).
  - vm_compute. reflexivity.
  - vm_compute. reflexivity.
  - vm_compute. reflexivity.
  - vm_compute. reflexivity.
Defined.

(** X5: on a text that, once the unit words are removed and it is trimmed,
    has no space and no slash, the fraction-aware [extract_float] is the
    plain one of [data_models.py] on the trimmed text; without a unit word
    in the text the two functions agree on the text itself. *)
Theorem X5_extractors_agree (text : str) :
  ~ In 32 (paddle_scraper.strip_units text) ->
  ~ In 47 (paddle_scraper.strip_units text) ->
  paddle_scraper.extract_float text
  = data_models.extract_float (paddle_scraper.strip_units text)
  /\ (Py.contains (lit "in") text = false ->
      Py.contains (lit "oz") text = false ->
      Py.contains (lit "ounces") text = false ->
      paddle_scraper.extract_float text = data_models.extract_float text).
Proof.
  intros Hs Hf.
  assert (H : paddle_scraper.extract_float text
              = data_models.extract_float (paddle_scraper.strip_units text)).
  { rewrite data_models_extract_float_spec.
    unfold paddle_scraper.extract_float.
    destruct text as [|c text]; [reflexivity|]. cbn [Py.truthy negb].
    change (lit " ") with [32]. change (lit "/") with [47].
    rewrite (contains_single_not_in 32) by exact Hs.
    rewrite (contains_single_not_in 47) by exact Hf.
    cbn [mbind result_bind andb]. apply regular_number_spec. }
  split; [exact H|].
  intros H1 H2 H3. rewrite H, !data_models_extract_float_spec.
  unfold paddle_scraper.strip_units.
  rewrite (replace_absent (lit "in")) by (discriminate || assumption).
  rewrite (replace_absent (lit "oz")) by (discriminate || assumption).
  rewrite (replace_absent (lit "ounces")) by (discriminate || assumption).
  unfold first_number_value. rewrite first_number_strip. reflexivity.
Qed.

Lemma X5_witness :
  paddle_scraper.extract_float (lit "16.5in")
  = data_models.extract_float (lit "16.5")
  /\ paddle_scraper.extract_float (lit "16.5mm")
     = data_models.extract_float (lit "16.5mm").
Proof.
  assert (N1 : forall k l, existsb (N.eqb k) l = false -> ~ In k l).
  { intros k l H K. apply not_true_iff_false in H. apply H.
    apply existsb_exists. exists k. split; [exact K|apply N.eqb_refl]. }
  split.
  - apply (proj1 (X5_extractors_agree (lit "16.5in")
                    (N1 32 (paddle_scraper.strip_units (lit "16.5in")) eq_refl)
                    (N1 47 (paddle_scraper.strip_units (lit "16.5in")) eq_refl))).
  - apply (proj2 (X5_extractors_agree (lit "16.5mm")
                    (N1 32 (paddle_scraper.strip_units (lit "16.5mm")) eq_refl)
                    (N1 47 (paddle_scraper.strip_units (lit "16.5mm")) eq_refl)));
      reflexivity.
Defined.

(** ** More on trimming and lower-casing *)

Lemma lower_char_not_upper (c : N) : Py.isupper (Py.lower_char c) = false.
Proof.
  unfold Py.lower_char. destruct (Py.isupper c) eqn:E; [|exact E].
  apply isupper_range in E. unfold Py.isupper.
  replace (c + 32 <=? 90) with false by (symmetry; apply N.leb_gt; lia).
  apply andb_false_r.
Qed.

Lemma lower_char_idem (c : N) :
  Py.lower_char (Py.lower_char c) = Py.lower_char c.
Proof.
  unfold Py.lower_char at 1. rewrite lower_char_not_upper. reflexivity.
Qed.

Lemma lower_idem (s : str) : Py.lower (Py.lower s) = Py.lower s.
Proof.
  unfold Py.lower. rewrite List.map_map. apply List.map_ext.
  intros c. apply lower_char_idem.
Qed.


Lemma lower_lstrip (s : str) : Py.lower (Py.lstrip s) = Py.lstrip (Py.lower s).
Proof.
  induction s as [|c s IH]; [reflexivity|].
  cbn [Py.lstrip Py.lower List.map]. rewrite isspace_lower_char.
  destruct (Py.isspace c); [exact IH|reflexivity].
Qed.

Lemma lower_strip (s : str) : Py.lower (Py.strip s) = Py.strip (Py.lower s).
Proof.
  unfold Py.strip, Py.rstrip, Py.lower.
  rewrite List.map_rev. fold (Py.lower (Py.lstrip (rev (Py.lstrip s)))).
  rewrite lower_lstrip. unfold Py.lower at 1. rewrite List.map_rev.
  fold (Py.lower (Py.lstrip s)). rewrite lower_lstrip. reflexivity.
Qed.

Lemma strip_ends (s : str) :
  head_is_space (Py.strip s) = false
  /\ head_is_space (rev (Py.strip s)) = false.
Proof.
  split.
  - unfold Py.strip, Py.rstrip.
    destruct (lstrip_suffix (rev (Py.lstrip s))) as [w Hw].
    pose proof (lstrip_head_not_space s) as Hh.
    apply (f_equal (@rev N)) in Hw.
    rewrite rev_involutive, rev_app_distr in Hw.
    destruct (rev (Py.lstrip (rev (Py.lstrip s)))) as [|c r]; [reflexivity|].
    rewrite Hw in Hh. cbn in Hh. cbn. exact Hh.
  - unfold Py.strip, Py.rstrip. rewrite rev_involutive.
    apply lstrip_head_not_space.
Qed.

Lemma strip_idem (s : str) : Py.strip (Py.strip s) = Py.strip s.
Proof.
  destruct (strip_ends s) as [H1 H2]. apply strip_id.
  - intros c Hc. destruct (Py.strip s); [discriminate|].
    injection Hc as ->. exact H1.
  - intros c Hc. destruct (rev (Py.strip s)); [discriminate|].
    injection Hc as ->. exact H2.
Qed.

(** ** The shape normalizer *)

Lemma normalize_lookup (u : str) :
  data_models.normalize_paddle_shape (Some u)
  = default (lit "Wide-body")
      (data_models.shape_mapping !! Py.strip (Py.lower u)).
Proof. destruct u; [vm_compute|]; reflexivity. Qed.

(** X6: [normalize_paddle_shape] is idempotent, and it looks at its
    argument only up to letter case and surrounding whitespace. *)
Theorem X6_normalize_stable (s : option (list N)) (t : str) :
  data_models.normalize_paddle_shape
    (Some (data_models.normalize_paddle_shape s))
  = data_models.normalize_paddle_shape s
  /\ data_models.normalize_paddle_shape (Some (Py.lower t))
     = data_models.normalize_paddle_shape (Some t)
  /\ data_models.normalize_paddle_shape (Some (Py.strip t))
     = data_models.normalize_paddle_shape (Some t).
Proof.
  split; [|split].
  - apply normalize_canonical_name, normalize_canonical.
  - rewrite !normalize_lookup, lower_idem. reflexivity.
  - rewrite !normalize_lookup, lower_strip, strip_idem. reflexivity.
Qed.

(** ** More on the identity assigner *)

Lemma lower_char_hyphen (c : N) : Py.lower_char c = 45 -> c = 45.
Proof.
  unfold Py.lower_char. destruct (Py.isupper c) eqn:E; [|tauto].
  apply isupper_range in E. lia.
Qed.

Lemma lower_keeps_out (k : N) (s : str) :
  Py.lower_char k = k -> (forall c, Py.lower_char c = k -> c = k) ->
  ~ In k s -> ~ In k (Py.lower s).
Proof.
  intros _ Hk Hs Hin. apply List.in_map_iff in Hin as (c & Hc & Hin).
  apply Hk in Hc. subst c. contradiction.
Qed.

Lemma hyphenate_no_space (s : str) :
  List.map (fun c => if c =? 32 then 45 else c) s = s <-> ~ In 32 s.
Proof.
  induction s as [|c s IH]; [cbn; tauto|]. cbn [List.map In].
  destruct (N.eqb_spec c 32) as [->|Hc].
  - split; [discriminate|]. intros H. exfalso. apply H. left. reflexivity.
  - split.
    + intros [= H]. apply IH in H. intros [K|K]; [congruence|contradiction].
    + intros H. f_equal. apply IH. tauto.
Qed.

Lemma hyphenate_inj (a b : str) :
  ~ In 45 a -> ~ In 45 b ->
  List.map (fun c => if c =? 32 then 45 else c) a
  = List.map (fun c => if c =? 32 then 45 else c) b ->
  a = b.
Proof.
  revert b. induction a as [|x a IH]; intros [|y b] Ha Hb; cbn [List.map];
    try discriminate; [reflexivity|].
  intros [= H1 H2]. f_equal.
  - destruct (N.eqb_spec x 32) as [->|Hx], (N.eqb_spec y 32) as [->|Hy];
      [reflexivity| | |exact H1].
    + exfalso. apply Hb. left. congruence.
    + exfalso. apply Ha. left. congruence.
  - apply IH; [| |exact H2]; intros K; [apply Ha|apply Hb]; right; exact K.
Qed.

Lemma app_first_inj (k : N) (a1 a2 r1 r2 : str) :
  ~ In k a1 -> ~ In k a2 ->
  a1 ++ k :: r1 = a2 ++ k :: r2 -> a1 = a2 /\ r1 = r2.
Proof.
  revert a2. induction a1 as [|x a1 IH]; intros [|y a2] H1 H2; cbn [app].
  - intros [= ->]. tauto.
  - intros [= <- _]. exfalso. apply H2. left. reflexivity.
  - intros [= -> _]. exfalso. apply H1. left. reflexivity.
  - intros [= -> H]. apply IH in H as [-> ->]; [tauto| |];
      intros K; [apply H1|apply H2]; right; exact K.
Qed.


(** X8: for brands without a space or a hyphen and models without a
    hyphen, two identifiers are equal exactly when the brands and the
    models are equal up to letter case. *)
Theorem X8_paddle_id_injective (b1 m1 b2 m2 : str) :
  ~ In 32 (b1 ++ b2) -> ~ In 45 (b1 ++ b2 ++ m1 ++ m2) ->
  (data_models.generate_paddle_id b1 m1 = data_models.generate_paddle_id b2 m2
   <-> Py.lower b1 = Py.lower b2 /\ Py.lower m1 = Py.lower m2).
Proof.
  intros Hs Hh.
  assert (Hs1 : ~ In 32 b1) by (intros K; apply Hs, in_or_app; auto).
  assert (Hs2 : ~ In 32 b2) by (intros K; apply Hs, in_or_app; auto).
  assert (Hh1 : ~ In 45 b1) by (intros K; apply Hh, in_or_app; auto).
  assert (Hh2 : ~ In 45 b2)
    by (intros K; apply Hh, in_or_app; right; apply in_or_app; auto).
  assert (Hh3 : ~ In 45 m1)
    by (intros K; apply Hh, in_or_app; right; apply in_or_app; right;
        apply in_or_app; auto).
  assert (Hh4 : ~ In 45 m2)
    by (intros K; apply Hh, in_or_app; right; apply in_or_app; right;
        apply in_or_app; auto).
  assert (Hl32 : forall s, ~ In 32 s -> ~ In 32 (Py.lower s)).
  { intros s. apply lower_keeps_out; [reflexivity|].
    intros c Hc. apply N.eqb_eq. rewrite <- lower_char_space.
    apply N.eqb_eq, Hc. }
  assert (Hl45 : forall s, ~ In 45 s -> ~ In 45 (Py.lower s)).
  { intros s. apply lower_keeps_out; [reflexivity|]. apply lower_char_hyphen. }
  unfold data_models.generate_paddle_id. rewrite !replace_space_hyphen.
  change (lit "-") with [45]. cbn [app].
  rewrite (proj2 (hyphenate_no_space (Py.lower b1))) by auto.
  rewrite (proj2 (hyphenate_no_space (Py.lower b2))) by auto.
  split.
  - intros H. apply app_first_inj in H as [Hb Hm]; auto.
    split; [exact Hb|]. apply hyphenate_inj in Hm; auto.
  - intros [-> ->]. reflexivity.
Qed.

Lemma X8_witness :
  data_models.generate_paddle_id (lit "Selkirk") (lit "SLK Era")
  = data_models.generate_paddle_id (lit "selkirk") (lit "slk era")
  <-> Py.lower (lit "Selkirk") = Py.lower (lit "selkirk")
      /\ Py.lower (lit "SLK Era") = Py.lower (lit "slk era").
Proof.
  apply (X8_paddle_id_injective (lit "Selkirk") (lit "SLK Era")
           (lit "selkirk") (lit "slk era")).
  - vm_compute. intuition discriminate.
  - vm_compute. intuition discriminate.
Defined.

(** ** The matcher and the relation it searches *)

Lemma star_sound {R} cls rest prev off grp (k : Re.mstate -> option R) x :
  Re.star cls rest prev off grp k = Some x ->
  exists st', steps (Re.Star cls) (Re.MState prev rest off grp) st'
              /\ k st' = Some x.
Proof.
  revert prev off. induction rest as [|c rest IH]; intros prev off;
    cbn [Re.star].
  - intros H. eexists. split; [apply steps_star_stop|exact H].
  - destruct (cls c) eqn:Ec.
    + destruct (Re.star cls rest (Some c) (S off) grp k) as [y|] eqn:E.
      * intros [= <-]. apply IH in E as (st' & Hs & Hk).
        exists st'. split; [|exact Hk]. apply steps_star_more; assumption.
      * intros H. eexists. split; [apply steps_star_stop|exact H].
    + intros H. eexists. split; [apply steps_star_stop|exact H].
Qed.

(** Soundness: a result of the matcher comes from a state the pattern
    leads to. *)
Lemma rmatch_sound {R} r : forall st (k : Re.mstate -> option R) x,
  Re.rmatch r st k = Some x ->
  exists st', steps r st st' /\ k st' = Some x.
Proof.
  induction r as [|cls|cls|r1 IH1 r2 IH2|r1 IH1|r1 IH1| |];
    intros st k x; cbn [Re.rmatch].
  - intros H. exists st. split; [constructor|exact H].
  - destruct st as [prev [|c rest] off grp]; cbn [Re.ms_rest Re.ms_off Re.ms_grp];
      [discriminate|].
    destruct (cls c) eqn:Ec; [|discriminate].
    intros H. eexists. split; [apply steps_one, Ec|exact H].
  - destruct st as [prev rest off grp]. apply star_sound.
  - intros H. apply IH1 in H as (st1 & H1 & H).
    apply IH2 in H as (st2 & H2 & H).
    exists st2. split; [econstructor; eassumption|exact H].
  - destruct (Re.rmatch r1 st k) as [y|] eqn:E.
    + intros [= <-]. apply IH1 in E as (st1 & H1 & H).
      exists st1. split; [apply steps_opt_some, H1|exact H].
    + intros H. exists st. split; [apply steps_opt_none|exact H].
  - intros H. apply IH1 in H as (st1 & H1 & H).
    eexists. split; [apply steps_group, H1|exact H].
  - destruct (Re.at_dollar (Re.ms_rest st)) eqn:E; [|discriminate].
    intros H. exists st. split; [apply steps_dollar, E|exact H].
  - destruct (xorb _ _) eqn:E; [|discriminate].
    intros H. exists st. split; [apply steps_wordb, E|exact H].
Qed.

(** Completeness: when the pattern leads to a state the continuation
    accepts, the matcher finds a result. *)
Lemma rmatch_complete {R} r st st' (k : Re.mstate -> option R) :
  steps r st st' -> k st' <> None -> Re.rmatch r st k <> None.
Proof.
  intros Hs. revert k.
  induction Hs as [st|cls c prev rest off grp Hc|cls st
                  |cls c prev rest off grp st' Hc Hs IH
                  |r1 r2 st st' st'' H1 IH1 H2 IH2
                  |r st st' H IH|r st|r st st' H IH|st Hd|st Hw];
    intros k Hk; cbn [Re.rmatch Re.ms_rest Re.ms_prev Re.ms_off Re.ms_grp].
  - exact Hk.
  - rewrite Hc. exact Hk.
  - destruct st as [prev [|c rest] off grp]; cbn [Re.star Re.ms_rest
      Re.ms_prev Re.ms_off Re.ms_grp]; [exact Hk|].
    destruct (cls c); [|exact Hk].
    destruct (Re.star cls rest (Some c) (S off) grp k); [discriminate|exact Hk].
  - cbn [Re.star]. rewrite Hc.
    specialize (IH k Hk). cbn [Re.rmatch Re.ms_rest Re.ms_prev Re.ms_off
      Re.ms_grp] in IH.
    destruct (Re.star cls rest (Some c) (S off) grp k);
      [discriminate|contradiction].
  - apply IH1. apply IH2. exact Hk.
  - specialize (IH k Hk). destruct (Re.rmatch r st k);
      [discriminate|contradiction].
  - destruct (Re.rmatch r st k); [discriminate|exact Hk].
  - apply IH. exact Hk.
  - rewrite Hd. exact Hk.
  - rewrite Hw. exact Hk.
Qed.

(** A match consumes a prefix of the subject and counts its length. *)
Lemma steps_span r st st' :
  steps r st st' ->
  exists w, Re.ms_rest st = w ++ Re.ms_rest st'
            /\ Re.ms_off st' = (Re.ms_off st + length w)%nat.
Proof.
  induction 1 as [st|cls c prev rest off grp Hc|cls st
                 |cls c prev rest off grp st' Hc Hs IH
                 |r1 r2 st st' st'' H1 IH1 H2 IH2
                 |r st st' H IH|r st|r st st' H IH|st Hd|st Hw];
    cbn [Re.ms_rest Re.ms_off Re.set_grp] in *;
    try (exists []; split; [reflexivity|cbn; lia]).
  - exists [c]. split; [reflexivity|cbn; lia].
  - destruct IH as (w & E1 & E2). exists (c :: w). rewrite E1, E2.
    split; [reflexivity|cbn; lia].
  - destruct IH1 as (w1 & E1 & F1), IH2 as (w2 & E2 & F2).
    exists (w1 ++ w2). rewrite E1, E2, F2, F1, length_app, <- app_assoc.
    split; [reflexivity|lia].
  - exact IH.
  - exact IH.
Qed.

Lemma steps_group_free r st st' :
  steps r st st' -> group_free r = true -> Re.ms_grp st' = Re.ms_grp st.
Proof.
  induction 1 as [st|cls c prev rest off grp Hc|cls st
                 |cls c prev rest off grp st' Hc Hs IH
                 |r1 r2 st st' st'' H1 IH1 H2 IH2
                 |r st st' H IH|r st|r st st' H IH|st Hd|st Hw];
    cbn [group_free Re.ms_grp]; intros G; try reflexivity; try discriminate.
  - apply IH. reflexivity.
  - apply andb_true_iff in G as [G1 G2]. rewrite IH2, IH1; auto.
  - apply IH. exact G.
Qed.

(** What a repetition of a class consumes is in the class. *)
Lemma steps_star_class cls st st' :
  steps (Re.Star cls) st st' ->
  exists w, Re.ms_rest st = w ++ Re.ms_rest st'
            /\ Forall (fun c => cls c = true) w.
Proof.
  remember (Re.Star cls) as r eqn:Er. intros H.
  induction H as [st|cls0 c prev rest off grp Hc|cls0 st
                 |cls0 c prev rest off grp st' Hc Hs IH
                 |r1 r2 st st' st'' H1 IH1 H2 IH2
                 |r st st' H IH|r st|r st st' H IH|st Hd|st Hw];
    try discriminate.
  - exists []. split; [reflexivity|constructor].
  - injection Er as ->. destruct (IH eq_refl) as (w & E & F).
    cbn [Re.ms_rest] in *. exists (c :: w). rewrite E.
    split; [reflexivity|constructor; assumption].
Qed.

Lemma steps_cat_inv r1 r2 st st'' :
  steps (Re.Cat r1 r2) st st'' ->
  exists st', steps r1 st st' /\ steps r2 st' st''.
Proof. inversion 1; subst. eauto. Qed.

Lemma steps_one_inv cls st st' :
  steps (Re.One cls) st st' ->
  exists c rest,
    Re.ms_rest st = c :: rest /\ cls c = true
    /\ st' = Re.MState (Some c) rest (S (Re.ms_off st)) (Re.ms_grp st).
Proof. inversion 1; subst. cbn. eauto. Qed.

Lemma steps_opt_inv r st st' :
  steps (Re.Opt r) st st' -> steps r st st' \/ st' = st.
Proof. inversion 1; subst; auto. Qed.

Lemma steps_group_inv r st st' :
  steps (Re.Group r) st st' ->
  exists st1, steps r st st1
              /\ st' = Re.set_grp st1 (Re.ms_off st, Re.ms_off st1).
Proof. inversion 1; subst. eauto. Qed.

(** A match of the number pattern consumes a number text and records it as
    group 1. *)
Lemma steps_number st st' :
  steps number_re st st' ->
  exists w, number_text w
            /\ Re.ms_rest st = w ++ Re.ms_rest st'
            /\ Re.ms_off st' = (Re.ms_off st + length w)%nat
            /\ Re.ms_grp st'
               = Some (Re.ms_off st, (Re.ms_off st + length w)%nat).
Proof.
  unfold number_re, Re.Plus. intros H.
  apply steps_group_inv in H as (st1 & Hb & ->).
  destruct (steps_span _ _ _ Hb) as (w & Ew & Eo).
  exists w. cbn [Re.set_grp Re.ms_rest Re.ms_off Re.ms_grp].
  rewrite Eo. split; [|repeat split; assumption || reflexivity].
  apply steps_cat_inv in Hb as (sa & Hp & Ht).
  apply steps_cat_inv in Hp as (sb & Ho & Hs).
  apply steps_one_inv in Ho as (c & rest & Ec & Hc & ->).
  apply steps_star_class in Hs as (ds & Eds & Hds).
  apply steps_cat_inv in Ht as (sc & Hopt & Hs2).
  apply steps_star_class in Hs2 as (d2 & Ed2 & Hd2).
  cbn [Re.ms_rest] in Eds.
  assert (Ew' : w ++ Re.ms_rest st1 = c :: ds ++ Re.ms_rest sa)
    by (rewrite <- Ew, Ec, Eds; reflexivity).
  apply steps_opt_inv in Hopt as [Hdot| ->].
  - apply steps_one_inv in Hdot as (c' & rest' & Ec' & Hc' & ->).
    unfold Re.chr in Hc'. apply N.eqb_eq in Hc'. subst c'.
    cbn [Re.ms_rest] in Ed2.
    exists c, ds, (46 :: d2). split; [|split].
    + apply (app_inv_tail (Re.ms_rest st1)).
      rewrite Ew', Ec', Ed2. cbn [app]. rewrite <- !app_assoc. reflexivity.
    + constructor; assumption.
    + right. exists d2. split; [reflexivity|assumption].
  - exists c, (ds ++ d2), []. split; [|split].
    + apply (app_inv_tail (Re.ms_rest st1)).
      rewrite Ew', Ed2. cbn [app]. rewrite app_nil_r, <- !app_assoc.
      reflexivity.
    + constructor; [assumption|]. apply Forall_app. split; assumption.
    + left. reflexivity.
Qed.

Lemma number_text_parses (w : str) :
  number_text w -> exists x, Float.of_str w = Ok x.
Proof.
  intros (c & ds & fs & -> & Hd & Hfs). apply of_str_number_text; assumption.
Qed.

(** A match that [re.search] returns is a match at some position. *)
Lemma search_from_sound r (s : str) : forall prev mo,
  Re.search_from r prev s = Some mo ->
  exists prev' pre s' m,
    s = pre ++ s' /\ Re.match_at r prev' s' = Some m /\ mo = Re.mk_mobj s' m.
Proof.
  induction s as [|c s IH]; intros prev mo; cbn [Re.search_from].
  - destruct (Re.match_at r prev []) as [m|] eqn:E; [|discriminate].
    intros [= <-]. exists prev, [], [], m. auto.
  - destruct (Re.match_at r prev (c :: s)) as [m|] eqn:E.
    + intros [= <-]. exists prev, [], (c :: s), m. auto.
    + intros H. apply IH in H as (prev' & pre & s' & m & -> & H1 & H2).
      exists prev', (c :: pre), s', m. auto.
Qed.

(** ** Group 1 of the patterns of the core thickness *)

Lemma steps_captures r :
  captures_number r ->
  forall st st', steps r st st' ->
  exists u w t,
    number_text w
    /\ Re.ms_rest st = u ++ w ++ t
    /\ Re.ms_grp st'
       = Some ((Re.ms_off st + length u)%nat,
               (Re.ms_off st + length u + length w)%nat).
Proof.
  induction 1 as [|r1 r2 H1 IH G2|r1 r2 G1 H2 IH]; intros st st' Hs.
  - apply steps_number in Hs as (w & Hw & Er & _ & Eg).
    exists [], w, (Re.ms_rest st'). cbn [app length].
    rewrite Eg, Nat.add_0_r. auto.
  - apply steps_cat_inv in Hs as (st1 & Ha & Hb).
    destruct (IH _ _ Ha) as (u & w & t & Hw & Er & Eg).
    exists u, w, t. rewrite (steps_group_free _ _ _ Hb G2). auto.
  - apply steps_cat_inv in Hs as (st1 & Ha & Hb).
    destruct (steps_span _ _ _ Ha) as (u1 & Er1 & Eo1).
    destruct (IH _ _ Hb) as (u & w & t & Hw & Er & Eg).
    exists (u1 ++ u), w, t. rewrite Eg, Eo1, Er1, Er, length_app, <- app_assoc.
    split; [exact Hw|]. split; [reflexivity|]. do 2 f_equal; lia.
Qed.

Lemma group_free_word ci (w : str) : group_free (Re.word ci w) = true.
Proof. induction w as [|c w IH]; [reflexivity|]. cbn. exact IH. Qed.

(** [float] accepts group 1 of a match of such a pattern. *)
Lemma search_captures_parses r (s : str) m :
  captures_number r -> Re.search r s = Some m ->
  exists x, float_of_group1 m = Ok x.
Proof.
  intros Hr Hs. unfold Re.search in Hs.
  apply search_from_sound in Hs as (prev & pre & s' & m0 & _ & Hm & ->).
  unfold Re.match_at in Hm.
  apply rmatch_sound in Hm as (st' & Hst & Hk). injection Hk as <-.
  destruct (steps_captures r Hr _ _ Hst) as (u & w & t & Hw & Er & Eg).
  cbn [Re.ms_rest Re.ms_off] in Er, Eg.
  unfold float_of_group1, Re.mk_mobj. cbn [Re.mo_group1 snd]. rewrite Eg.
  unfold Re.slice. rewrite Er.
  replace (0 + length u + length w - (0 + length u))%nat with (length w) by lia.
  cbn [Nat.add]. rewrite drop_app_length, take_app_length.
  apply number_text_parses, Hw.
Qed.

Lemma core_patterns_capture :
  Forall captures_number galaxy_scraper.core_patterns.
Proof.
  unfold galaxy_scraper.core_patterns.
  repeat constructor; rewrite ?group_free_word; reflexivity.
Qed.

Lemma core_title_captures : captures_number galaxy_scraper.core_title_re.
Proof.
  unfold galaxy_scraper.core_title_re. apply cn_left; [constructor|].
  apply group_free_word.
Qed.

(** ** The specification part of the Galaxy scraper never gives up *)

Lemma split_once_two (s : str) : forall cur,
  Py.contains [58] s = true ->
  exists k v, Py.split_once_from [58] cur s = [k; v].
Proof.
  induction s as [|c s IH]; intros cur; cbn [Py.contains]; [discriminate|].
  cbn [Py.split_once_from].
  destruct (Py.startswith [58] (c :: s)); [eauto|]. cbn [orb]. apply IH.
Qed.

Lemma add_spec_item_total d item :
  exists d', galaxy_scraper.add_spec_item d item = Ok d'.
Proof.
  unfold galaxy_scraper.add_spec_item. change (lit ":") with [58].
  destruct (Py.contains [58] item) eqn:E; [|eauto].
  destruct (split_once_two item [] E) as (k & v & Ekv).
  unfold Py.split_once. rewrite Ekv. eauto.
Qed.

Lemma build_specs_data_total items : forall d,
  exists d', galaxy_scraper.build_specs_data d items = Ok d'.
Proof.
  induction items as [|item items IH]; intros d; cbn; [eauto|].
  destruct (add_spec_item_total d item) as [d1 ->]. cbn. apply IH.
Qed.

Lemma extract_float_ok text :
  exists r, data_models.extract_float text = Ok r.
Proof. rewrite data_models_extract_float_spec. eauto. Qed.

Lemma resolve_weight_total d :
  exists r, galaxy_scraper.resolve_weight d = Ok r.
Proof.
  unfold galaxy_scraper.resolve_weight.
  destruct (d !! lit "weight") as [v|]; [|eauto].
  cbv zeta.
  destruct (Py.contains (lit "-") _); [|apply extract_float_ok].
  destruct (Py.split_on (lit "-") _) as [|p0 [|p1 [|p2 l]]]; eauto.
  destruct (Float.of_str (Py.strip p0)) as [a|e] eqn:Ea.
  2:{ apply of_str_raises in Ea as ->. eauto. }
  destruct (Float.of_str (Py.strip p1)) as [b|e] eqn:Eb.
  2:{ apply of_str_raises in Eb as ->. eauto. }
  cbn [mbind result_bind]. eauto.
Qed.

Lemma core_from_description_total pats specs_text c :
  Forall captures_number pats ->
  exists r, galaxy_scraper.core_from_description pats specs_text c = Ok r.
Proof.
  induction 1 as [|p pats Hp _ IH]; cbn [galaxy_scraper.core_from_description];
    [eauto|].
  destruct (Re.search p specs_text) as [m|] eqn:E; [|exact IH].
  destruct (search_captures_parses p _ _ Hp E) as [x ->]. cbn. eauto.
Qed.

Lemma resolve_core_total d specs_text title_text :
  exists r, galaxy_scraper.resolve_core d specs_text title_text = Ok r.
Proof.
  unfold galaxy_scraper.resolve_core.
  assert (H1 : exists c1,
             match d !! lit "core thickness" with
             | Some v =>
                 data_models.extract_float
                   (Py.strip (Py.replace (lit "mm") [] v))
             | None => Ok None
             end = Ok c1).
  { destruct (d !! lit "core thickness"); [apply extract_float_ok|eauto]. }
  destruct H1 as [c1 ->]. cbn [mbind result_bind].
  assert (H2 : exists c2,
             (if negb (galaxy_scraper.truthy_float c1)
              then galaxy_scraper.core_from_description
                     galaxy_scraper.core_patterns specs_text c1
              else Ok c1) = Ok c2).
  { destruct (negb _); [|eauto].
    apply core_from_description_total, core_patterns_capture. }
  destruct H2 as [c2 ->]. cbn [mbind result_bind].
  assert (H3 : exists c3,
             (if negb (galaxy_scraper.truthy_float c2)
              then match Re.search galaxy_scraper.core_title_re title_text with
                   | Some core_name_match =>
                       x ← float_of_group1 core_name_match; Ok (Some x)
                   | None => Ok c2
                   end
              else Ok c2) = Ok c3).
  { destruct (negb _); [|eauto].
    destruct (Re.search galaxy_scraper.core_title_re title_text) as [m|] eqn:E;
      [|eauto].
    destruct (search_captures_parses _ _ _ core_title_captures E) as [x ->].
    cbn. eauto. }
  destruct H3 as [c3 ->]. cbn [mbind result_bind]. eauto.
Qed.

Lemma resolve_grip_circumference_total d :
  exists r, galaxy_scraper.resolve_grip_circumference d = Ok r.
Proof.
  unfold galaxy_scraper.resolve_grip_circumference.
  destruct (d !! lit "grip size") as [v|]; [|cbn; eauto].
  cbv zeta.
  pose proof (split_from_length (lit "*")
                (Py.strip (Py.replace (lit "in") [] v)) 0 []) as Hl.
  fold (Py.split_on (lit "*") (Py.strip (Py.replace (lit "in") [] v))) in Hl.
  destruct (Py.split_on (lit "*") _) as [|first l]; [discriminate|].
  cbn [index lookup list_lookup mbind result_bind].
  destruct (extract_float_ok (Py.strip first)) as [r ->]. cbn. eauto.
Qed.

(** The resolution of the specifications never raises. *)
Lemma assemble_total (brand model title_text specs_text : str)
  (spec_items : list str) :
  exists p,
    galaxy_scraper.assemble brand model title_text specs_text spec_items
    = Ok p
    /\ id p = data_models.generate_paddle_id brand model
    /\ metadata p = mkMetadata brand model (lit "Pickleball Galaxy")
    /\ performance p = None.
Proof.
  unfold galaxy_scraper.assemble.
  destruct (build_specs_data_total spec_items ∅) as [d ->].
  cbn [mbind result_bind].
  unfold galaxy_scraper.resolve_length.
  assert (HL : exists r,
             match d !! lit "paddle length" with
             | Some v =>
                 data_models.extract_float
                   (Py.strip (Py.replace (lit "in") [] v))
             | None => Ok None
             end = Ok r).
  { destruct (d !! lit "paddle length"); [apply extract_float_ok|eauto]. }
  destruct HL as [len ->]. cbn [mbind result_bind].
  destruct (resolve_weight_total d) as [wt ->]. cbn [mbind result_bind].
  unfold galaxy_scraper.resolve_width.
  assert (HW : exists r,
             match d !! lit "paddle width" with
             | Some v =>
                 data_models.extract_float
                   (Py.strip (Py.replace (lit "in") [] v))
             | None => Ok None
             end = Ok r).
  { destruct (d !! lit "paddle width"); [apply extract_float_ok|eauto]. }
  destruct HW as [wd ->]. cbn [mbind result_bind].
  destruct (resolve_core_total d specs_text title_text) as [co ->].
  cbn [mbind result_bind].
  unfold galaxy_scraper.resolve_grip_length.
  assert (HG : exists r,
             match d !! lit "handle length" with
             | Some v =>
                 data_models.extract_float
                   (Py.strip (Py.replace (lit "in") [] v))
             | None => Ok None
             end = Ok r).
  { destruct (d !! lit "handle length"); [apply extract_float_ok|eauto]. }
  destruct HG as [gl ->]. cbn [mbind result_bind].
  destruct (resolve_grip_circumference_total d) as [gc ->].
  cbn [mbind result_bind].
  eexists. split; [reflexivity|]. cbn. auto.
Qed.

(** X9: from the point where the brand, the model and the title are known,
    the Galaxy scraper always returns a record: no text of the page makes
    the resolution of the specifications raise.  The record has the
    identifier of the brand and the model, the source [Pickleball Galaxy]
    and no performance. *)
Theorem X9_galaxy_specs_total (brand model title_text specs_text : str)
  (spec_items : list str) :
  exists p,
    galaxy_scraper.scrape_paddle brand model title_text specs_text spec_items
    = Some p
    /\ id p = data_models.generate_paddle_id brand model
    /\ metadata p = mkMetadata brand model (lit "Pickleball Galaxy")
    /\ performance p = None.
Proof.
  unfold galaxy_scraper.scrape_paddle.
  destruct (assemble_total brand model title_text specs_text spec_items)
    as (p & -> & H).
  exists p. split; [reflexivity|exact H].
Qed.

(** ** Fields the Galaxy scraper leaves unset *)

Lemma falsy_to_none_truthy (c : option spec_float) x :
  (if negb (galaxy_scraper.truthy_float c) then None else c) = Some x ->
  Float.truthy x = true.
Proof.
  destruct c as [y|]; cbn [galaxy_scraper.truthy_float negb];
    [|discriminate].
  destruct (Float.truthy y) eqn:E; cbn [negb]; [|discriminate].
  intros [= <-]. exact E.
Qed.

Lemma bind_ok {A B} (c : result A) (f : A -> result B) b :
  (c ≫= f) = Ok b -> exists a, c = Ok a /\ f a = Ok b.
Proof. destruct c as [a|e]; [eauto|discriminate]. Qed.

Lemma resolve_core_truthy d specs_text title_text r x :
  galaxy_scraper.resolve_core d specs_text title_text = Ok r ->
  r = Some x -> Float.truthy x = true.
Proof.
  unfold galaxy_scraper.resolve_core. intros H.
  apply bind_ok in H as (c1 & _ & H). apply bind_ok in H as (c2 & _ & H).
  apply bind_ok in H as (c3 & _ & H). injection H as <-.
  apply falsy_to_none_truthy.
Qed.

Lemma resolve_grip_length_truthy d r x :
  galaxy_scraper.resolve_grip_length d = Ok r ->
  r = Some x -> Float.truthy x = true.
Proof.
  unfold galaxy_scraper.resolve_grip_length. intros H.
  apply bind_ok in H as (c1 & _ & H). injection H as <-.
  apply falsy_to_none_truthy.
Qed.

Lemma resolve_grip_circumference_truthy d r x :
  galaxy_scraper.resolve_grip_circumference d = Ok r ->
  r = Some x -> Float.truthy x = true.
Proof.
  unfold galaxy_scraper.resolve_grip_circumference. intros H.
  apply bind_ok in H as (c1 & _ & H). injection H as <-.
  apply falsy_to_none_truthy.
Qed.

Lemma resolve_shape_none (len : option spec_float) :
  galaxy_scraper.resolve_shape len = None
  <-> galaxy_scraper.truthy_float len = false.
Proof.
  unfold galaxy_scraper.resolve_shape, galaxy_scraper.truthy_float.
  destruct len as [x|]; [|tauto].
  destruct (Float.truthy x); split; (discriminate || reflexivity).
Qed.

(** X10: in a record of the Galaxy scraper the core thickness, the grip
    length and the grip circumference are never zero and the grip type is
    never empty (such a value is replaced by [None]); the shape is unset
    exactly when the length is unset or zero.  The length itself is not
    replaced: a zero length stays in the record. *)
Theorem X10_galaxy_falsy_fields (brand model title_text specs_text : str)
  (spec_items : list str) (p : Paddle) :
  galaxy_scraper.scrape_paddle brand model title_text specs_text spec_items
  = Some p ->
  (forall x, core (specs p) = Some x -> Float.truthy x = true)
  /\ (forall x, grip_length (specs p) = Some x -> Float.truthy x = true)
  /\ (forall x, grip_circumference (specs p) = Some x ->
                Float.truthy x = true)
  /\ (forall s, grip_type (specs p) = Some s -> s <> [])
  /\ (shape (specs p) = None
      <-> galaxy_scraper.truthy_float (paddle_length (specs p)) = false)
  /\ (exists q,
         galaxy_scraper.scrape_paddle (lit "Selkirk") (lit "Era")
           (lit "Selkirk Era") [] [lit "Paddle Length: 0 in"] = Some q
         /\ paddle_length (specs q) = Some (S754_zero false)
         /\ shape (specs q) = None).
Proof.
  unfold galaxy_scraper.scrape_paddle.
  destruct (galaxy_scraper.assemble brand model title_text specs_text
              spec_items) as [p'|e] eqn:E; [|discriminate].
  intros [= ->]. unfold galaxy_scraper.assemble in E.
  apply bind_ok in E as (d & _ & E).
  apply bind_ok in E as (len & _ & E).
  apply bind_ok in E as (wt & _ & E).
  apply bind_ok in E as (wd & _ & E).
  apply bind_ok in E as (co & Hco & E).
  apply bind_ok in E as (gl & Hgl & E).
  apply bind_ok in E as (gc & Hgc & E).
  injection E as <-. cbn [specs core grip_length grip_circumference
                           grip_type shape paddle_length].
  split; [intros x; apply (resolve_core_truthy _ _ _ _ _ Hco)|].
  split; [intros x; apply (resolve_grip_length_truthy _ _ _ Hgl)|].
  split; [intros x; apply (resolve_grip_circumference_truthy _ _ _ Hgc)|].
  split.
  { intros s. unfold galaxy_scraper.resolve_grip_type.
    destruct (d !! lit "factory grip") as [v|]; [|discriminate].
    destruct v; cbn [Py.truthy]; [discriminate|]. intros [= <-]. discriminate. }
  split; [apply resolve_shape_none|].
  eexists. split; [vm_compute; reflexivity|]. split; reflexivity.
Qed.

Lemma X10_witness :
  let p := mkPaddle (lit "selkirk-era")
             (mkMetadata (lit "Selkirk") (lit "Era") (lit "Pickleball Galaxy"))
             (mkSpecs None None None None None None None None None) None in
  galaxy_scraper.scrape_paddle (lit "Selkirk") (lit "Era") (lit "Selkirk Era")
    (lit "with a 0mm core") [lit "Core Thickness: 0.0 mm"; lit "Grip Size: 0"]
  = Some p
  /\ (shape (specs p) = None
      <-> galaxy_scraper.truthy_float (paddle_length (specs p)) = false).
Proof.
  assert (H : galaxy_scraper.scrape_paddle (lit "Selkirk") (lit "Era")
                (lit "Selkirk Era") (lit "with a 0mm core")
                [lit "Core Thickness: 0.0 mm"; lit "Grip Size: 0"]
              = Some (mkPaddle (lit "selkirk-era")
                        (mkMetadata (lit "Selkirk") (lit "Era")
                           (lit "Pickleball Galaxy"))
                        (mkSpecs None None None None None None None None None)
                        None))
    by (vm_compute; reflexivity).
  split; [exact H|].
  exact (proj1 (proj2 (proj2 (proj2 (proj2
           (X10_galaxy_falsy_fields _ _ _ _ _ _ H)))))).
Defined.

(** ** The dictionary of the structured specifications *)

Lemma eqb_refl (a : str) : Py.eqb a a = true.
Proof.
  induction a as [|x a IH]; [reflexivity|]. cbn. rewrite N.eqb_refl. exact IH.
Qed.

Lemma eqb_neq (a b : str) : a <> b -> Py.eqb a b = false.
Proof.
  intros H. destruct (Py.eqb a b) eqn:E; [|reflexivity].
  apply eqb_eq in E. contradiction.
Qed.

Lemma find_app_first {A} (f : A -> bool) (a b : list A) :
  List.find f (a ++ b)
  = match List.find f a with
    | Some x => Some x
    | None => List.find f b
    end.
Proof.
  induction a as [|x a IH]; [reflexivity|]. cbn.
  destruct (f x); [reflexivity|exact IH].
Qed.

Lemma add_spec_item_entry d item :
  galaxy_scraper.add_spec_item d item
  = Ok (match item_entry item with
        | Some (k, v) => <[ k := v ]> d
        | None => d
        end).
Proof.
  unfold galaxy_scraper.add_spec_item, item_entry. change (lit ":") with [58].
  destruct (Py.contains [58] item) eqn:E; [|reflexivity].
  destruct (split_once_two item [] E) as (k & v & Ekv).
  unfold Py.split_once. rewrite Ekv. reflexivity.
Qed.

Lemma build_specs_data_lookup items : forall d,
  exists d',
    galaxy_scraper.build_specs_data d items = Ok d'
    /\ forall key,
         d' !! key = match last_value key items with
                     | Some v => Some v
                     | None => d !! key
                     end.
Proof.
  unfold last_value.
  induction items as [|item items IH]; intros d.
  - exists d. split; [reflexivity|]. intros key. reflexivity.
  - cbn [galaxy_scraper.build_specs_data]. rewrite add_spec_item_entry.
    cbn [mbind result_bind].
    destruct (IH (match item_entry item with
                  | Some (k, v) => <[ k := v ]> d
                  | None => d
                  end)) as (d' & -> & Hd').
    exists d'. split; [reflexivity|]. intros key. rewrite Hd'.
    cbn [omap list_omap].
    destruct (item_entry item) as [[k v]|]; [|reflexivity].
    cbn [rev]. rewrite find_app_first.
    destruct (List.find _ (rev (omap item_entry items))) as [e|];
      [reflexivity|].
    cbn [List.find fst fmap option_fmap option_map snd].
    destruct (Py.eqb k key) eqn:E.
    + apply eqb_eq in E. subst k. cbn. apply lookup_insert_eq.
    + cbn. apply lookup_insert_ne. intros ->. rewrite eqb_refl in E.
      discriminate.
Qed.

Lemma split_once_cut (k v : str) : forall cur,
  ~ In 58 k ->
  Py.split_once_from [58] cur (k ++ 58 :: v) = [rev cur ++ k; v].
Proof.
  induction k as [|c k IH]; intros cur Hk.
  - cbn. rewrite app_nil_r. reflexivity.
  - cbn [app Py.split_once_from]. rewrite startswith_single.
    destruct (N.eqb_spec 58 c) as [<-|Hc];
      [exfalso; apply Hk; left; reflexivity|].
    rewrite IH by (intros K; apply Hk; right; exact K).
    cbn [rev]. rewrite <- app_assoc. reflexivity.
Qed.

(** X11: the loop over the [.o-layout__item] texts never raises, and the
    dictionary it builds maps a key to the value of the last item that
    writes it.  An item [k:v] (no colon in [k]) writes the key [k], trimmed
    and lower-cased, with the trimmed [v]; an item without a colon writes
    nothing. *)
Theorem X11_specs_data_last_wins (items : list str) :
  (exists d,
      galaxy_scraper.build_specs_data ∅ items = Ok d
      /\ forall key, d !! key = last_value key items)
  /\ (forall k v,
         ~ In 58 k ->
         item_entry (k ++ 58 :: v)
         = Some (Py.lower (Py.strip k), Py.strip v))
  /\ (forall item, ~ In 58 item -> item_entry item = None).
Proof.
  split; [|split].
  - destruct (build_specs_data_lookup items ∅) as (d & Hd & Hl).
    exists d. split; [exact Hd|]. intros key. rewrite Hl.
    rewrite lookup_empty. destruct (last_value key items); reflexivity.
  - intros k v Hk. unfold item_entry. change (lit ":") with [58].
    rewrite contains_single_in by (apply in_or_app; right; left; reflexivity).
    unfold Py.split_once. rewrite split_once_cut by exact Hk. reflexivity.
  - intros item Hi. unfold item_entry. change (lit ":") with [58].
    rewrite contains_single_not_in by exact Hi. reflexivity.
Qed.

(** ** The Central scraper: the price and the defaults *)

(** X12: the price of a card is only a gate.  A card without a price, or
    whose price text [float] rejects, leaves no record and draws no random
    number; and two price texts that [float] accepts give the same record. *)
Theorem X12_central_price_gate (entropy : nat -> spec_float)
  (c : central_scraper.card) (cards : list central_scraper.card)
  (seed : nat) :
  (forall price_text,
      central_scraper.card_price c = Some price_text ->
      exists e, Float.of_str (price_number price_text) = Raise e) ->
  central_scraper.scrape_cards entropy (c :: cards) seed
  = central_scraper.scrape_cards entropy cards seed
  /\ (forall t1 t2 x1 x2,
         Float.of_str (price_number t1) = Ok x1 ->
         Float.of_str (price_number t2) = Ok x2 ->
         central_scraper.process_card entropy (with_price c t1) seed
         = central_scraper.process_card entropy (with_price c t2) seed).
Proof.
  intros Hp. split.
  - cbn [central_scraper.scrape_cards]. unfold central_scraper.process_card.
    destruct (central_scraper.card_brand c) as [b|]; [|reflexivity].
    destruct (central_scraper.card_title c) as [t|]; [|reflexivity].
    destruct (central_scraper.card_price c) as [pr|]; [|reflexivity].
    destruct (Hp pr eq_refl) as [e He]. unfold price_number in He.
    destruct (_ && _); [reflexivity|]. rewrite He. reflexivity.
  - intros t1 t2 x1 x2 H1 H2. unfold price_number in H1, H2.
    unfold central_scraper.process_card, with_price.
    cbn [central_scraper.card_brand central_scraper.card_title
         central_scraper.card_price central_scraper.card_href
         central_scraper.card_description central_scraper.page_specs].
    rewrite H1, H2. reflexivity.
Qed.

Lemma X12_witness :
  central_scraper.scrape_cards (fun _ => Float.flt "0.5")
    [central_scraper.mkCard (Some (lit "Selkirk")) (Some (lit "SLK Era"))
       None (Some (lit "$1,299.00 - $1,499.00")) None ∅] 0
  = central_scraper.scrape_cards (fun _ => Float.flt "0.5") [] 0.
Proof.
  apply (X12_central_price_gate (fun _ => Float.flt "0.5")
           (central_scraper.mkCard (Some (lit "Selkirk"))
              (Some (lit "SLK Era")) None
              (Some (lit "$1,299.00 - $1,499.00")) None ∅) [] 0).
  intros price_text [= <-]. exists ValueError. vm_compute. reflexivity.
Defined.

Lemma Ok_inj {A} (a b : A) : Ok a = Ok b -> a = b.
Proof. congruence. Qed.

Lemma shape_from_keywords_in table description s :
  central_scraper.shape_from_keywords table description = Some s ->
  In s (List.map fst table).
Proof.
  induction table as [|[shape_type keywords] table IH];
    cbn [central_scraper.shape_from_keywords]; [discriminate|].
  destruct (existsb _ keywords).
  - intros [= <-]. left. reflexivity.
  - intros H. right. apply IH, H.
Qed.

Lemma central_resolve_shape_in specs description s :
  central_scraper.resolve_shape specs description = Ok s ->
  In s central_shapes.
Proof.
  unfold central_scraper.resolve_shape. intros H.
  apply bind_ok in H as (sh & Hsh & H). apply Ok_inj in H. subst s.
  assert (Hstd : In (lit "Standard") central_shapes)
    by (right; right; right; left; reflexivity).
  destruct sh as [s0|].
  - apply central_length_shape_canonical in Hsh.
    assert (Hin : In s0 central_shapes).
    { destruct Hsh as [<-|[<-|[<-|[]]]];
        [left|right; left|right; right; left]; reflexivity. }
    assert (Ht : Py.truthy s0 = true).
    { destruct Hsh as [<-|[<-|[<-|[]]]]; reflexivity. }
    change (central_scraper.truthy_str (Some s0)) with (Py.truthy s0).
    rewrite Ht. cbv beta iota delta [negb]. rewrite Ht. exact Hin.
  - change (negb (central_scraper.truthy_str None)) with true. cbv iota.
    destruct (central_scraper.shape_from_keywords
                central_scraper.shape_keywords description) as [s1|] eqn:E;
      [|exact Hstd].
    apply shape_from_keywords_in in E.
    destruct (Py.truthy s1); [|exact Hstd].
    destruct E as [<-|[<-|[<-|[]]]];
      [left|right; left|right; right; right; left]; reflexivity.
Qed.

(** X13: every record of the Central scraper carries the same
    specifications, whatever its page says: only the shape varies, and it
    is one of [Elongated], [Hybrid], [Wide-body] and [Standard].  Its
    brand and model are the trimmed texts of the card, its identifier is
    theirs, and its source is [Pickleball Central]. *)
Theorem X13_central_record (entropy : nat -> spec_float)
  (c : central_scraper.card) (seed seed' : nat) (p : Paddle) :
  central_scraper.process_card entropy c seed = (Ok (Some p), seed') ->
  (exists sh,
      In sh central_shapes
      /\ specs p
         = mkSpecs (Some sh) (Some (lit "Carbon Fiber"))
             (Some (Float.flt "215.0")) (Some (Float.flt "14.5"))
             (Some (Float.flt "16.0")) (Some (Float.flt "7.5"))
             (Some (Float.flt "5.0")) (Some (lit "Standard"))
             (Some (Float.flt "4.25")))
  /\ (exists b t,
         central_scraper.card_brand c = Some b
         /\ central_scraper.card_title c = Some t
         /\ metadata p
            = mkMetadata (Py.strip b) (Py.strip t) (lit "Pickleball Central")
         /\ id p = data_models.generate_paddle_id (Py.strip b) (Py.strip t)).
Proof.
  unfold central_scraper.process_card.
  destruct (central_scraper.card_brand c) as [b|]; [|discriminate].
  destruct (central_scraper.card_title c) as [t|]; [|discriminate].
  destruct (central_scraper.card_price c) as [pr|]; [|discriminate].
  destruct (_ && _); [discriminate|].
  destruct (Float.of_str _) as [price|e]; [|discriminate].
  destruct (if Py.truthy _ then _ else _) as [sp sd].
  destruct (central_scraper.resolve_shape sp _) as [sh|e] eqn:Esh;
    [|discriminate].
  destruct (central_scraper.make_performance entropy sd) as [perf sd'].
  intros [= <- <-]. cbn [specs metadata id]. split.
  - exists sh. split; [|reflexivity].
    apply (central_resolve_shape_in _ _ _ Esh).
  - exists b, t. auto.
Qed.

Lemma X13_witness :
  exists sh,
    In sh central_shapes
    /\ specs (mkPaddle (lit "selkirk-slk-era")
                (mkMetadata (lit "Selkirk") (lit "SLK Era")
                   (lit "Pickleball Central"))
                (mkSpecs (Some (lit "Elongated")) (Some (lit "Carbon Fiber"))
                   (Some (Float.flt "215.0")) (Some (Float.flt "14.5"))
                   (Some (Float.flt "16.0")) (Some (Float.flt "7.5"))
                   (Some (Float.flt "5.0")) (Some (lit "Standard"))
                   (Some (Float.flt "4.25")))
                (Some (mkPerformance (Float.flt "80") (Float.flt "75")
                         (Float.flt "3000") (Float.flt "200")
                         (Float.flt "215") (Float.flt "29"))))
       = mkSpecs (Some sh) (Some (lit "Carbon Fiber"))
           (Some (Float.flt "215.0")) (Some (Float.flt "14.5"))
           (Some (Float.flt "16.0")) (Some (Float.flt "7.5"))
           (Some (Float.flt "5.0")) (Some (lit "Standard"))
           (Some (Float.flt "4.25")).
Proof.
  refine (proj1 (X13_central_record (fun _ => Float.flt "0.5")
           (central_scraper.mkCard (Some (lit " Selkirk ")) (Some (lit "SLK Era"))
              (Some (lit "/slk-era")) (Some (lit "$199.99")) None
              {[ lit "paddle_length" := lit "16.5 inches" ]}) 0 7 _ _)).
  vm_compute. reflexivity.
Defined.

(** ** The cleaned name never grows *)

Lemma match_at_length r prev (s : str) len g :
  Re.match_at r prev s = Some (len, g) -> (len <= length s)%nat.
Proof.
  unfold Re.match_at. intros H.
  apply rmatch_sound in H as (st' & Hs & Hk). injection Hk as <- _.
  apply steps_span in Hs as (w & Er & Eo). cbn [Re.ms_rest Re.ms_off] in *.
  rewrite Eo, Er, length_app. lia.
Qed.

(** A substitution whose replacement is no longer than any match does not
    lengthen the subject. *)
Lemma sub_from_length r repl (s : str) :
  (forall prev s' len g,
      Re.match_at r prev s' = Some (len, g) -> (length repl <= len)%nat) ->
  forall skip prev,
    (length (Re.sub_from r repl skip prev s) + Nat.min skip (length s)
     <= length s)%nat.
Proof.
  intros Hm. induction s as [|c s IH]; intros skip prev.
  - destruct skip as [|n]; cbn [Re.sub_from length Nat.min]; [|lia].
    destruct (Re.match_at r prev []) as [[len g]|] eqn:E; cbn [length]; [|lia].
    pose proof (Hm _ _ _ _ E) as H1.
    pose proof (match_at_length _ _ _ _ _ E) as H2. cbn [length] in H2. lia.
  - destruct skip as [|n]; cbn [Re.sub_from].
    + destruct (Re.match_at r prev (c :: s)) as [[len g]|] eqn:E.
      * pose proof (Hm _ _ _ _ E) as H1.
        pose proof (match_at_length _ _ _ _ _ E) as H2. cbn [length] in H2.
        destruct len as [|n].
        -- assert (repl = []) as -> by (destruct repl; [reflexivity|cbn in H1; lia]).
           cbn [app length Nat.min]. specialize (IH 0%nat (Some c)).
           cbn [Nat.min] in IH. lia.
        -- rewrite length_app. cbn [length Nat.min].
           specialize (IH n (Some c)). lia.
      * cbn [length Nat.min]. specialize (IH 0%nat (Some c)).
        cbn [Nat.min] in IH. lia.
    + cbn [length Nat.min]. specialize (IH n (Some c)). lia.
Qed.

Lemma sub_length r repl (s : str) :
  (forall prev s' len g,
      Re.match_at r prev s' = Some (len, g) -> (length repl <= len)%nat) ->
  (length (Re.sub r repl s) <= length s)%nat.
Proof.
  intros Hm. pose proof (sub_from_length r repl s Hm 0 None) as H.
  unfold Re.sub. cbn [Nat.min] in H. lia.
Qed.

Lemma sub_empty_length r (s : str) :
  (length (Re.sub r [] s) <= length s)%nat.
Proof. apply sub_length. intros. cbn. lia. Qed.

Lemma strip_length (s : str) : (length (Py.strip s) <= length s)%nat.
Proof.
  destruct (strip_decompose s) as (a & b & E).
  rewrite E at 2. rewrite !length_app. lia.
Qed.

Lemma strip_suffixes_length (m : str) :
  (length (data_models.strip_suffixes m) <= length m)%nat.
Proof.
  unfold data_models.strip_suffixes. revert m.
  induction data_models.unwanted_suffixes as [|suf l IH]; intros m;
    [cbn; lia|].
  cbn [fold_left]. etransitivity; [apply IH|].
  unfold data_models.strip_suffix, Py.drop_last.
  destruct (Py.endswith m suf); [|lia].
  etransitivity; [apply strip_length|]. rewrite length_firstn. lia.
Qed.

Lemma remove_descriptors_length (m : str) :
  (length (data_models.remove_descriptors m) <= length m)%nat.
Proof.
  unfold data_models.remove_descriptors. revert m.
  induction data_models.common_descriptors as [|d ds IH]; intros m;
    [cbn; lia|].
  cbn [fold_left]. etransitivity; [apply IH|]. apply sub_empty_length.
Qed.

Lemma paren_match_nonempty prev (s : str) len g :
  Re.match_at data_models.paren_re prev s = Some (len, g) -> (1 <= len)%nat.
Proof.
  unfold Re.match_at, data_models.paren_re. intros H.
  apply rmatch_sound in H as (st' & Hs & Hk). injection Hk as <- _.
  apply steps_cat_inv in Hs as (s1 & H1 & Hs).
  apply steps_cat_inv in Hs as (s2 & H2 & Hs).
  apply steps_span in H1 as (w1 & _ & E1).
  apply steps_one_inv in H2 as (c & rest & _ & _ & ->).
  apply steps_span in Hs as (w3 & _ & E3).
  cbn [Re.ms_off] in *. lia.
Qed.

Lemma squeeze_length (m : str) :
  (length (data_models.squeeze m) <= length m)%nat.
Proof.
  unfold data_models.squeeze. etransitivity; [apply strip_length|].
  apply sub_length. intros prev s' len g. rewrite match_at_plus.
  destruct s' as [|c s']; [discriminate|].
  destruct (Py.isspace c); [|discriminate]. intros [= <- _]. cbn. lia.
Qed.

(** X14: a cleaned name is in normal form: its only whitespace is single
    spaces between other characters, and it has none of the pipe
    characters.  The cleaner invents nothing: every character of the
    result other than a space is a character of the input, and the result
    is never longer than the input. *)
Theorem X14_clean_normal_form (x : str) :
  squeezed (data_models.clean_model_name x) = true
  /\ pipe_free (data_models.clean_model_name x)
  /\ (forall c, In c (data_models.clean_model_name x) -> In c x \/ c = 32)
  /\ (length (data_models.clean_model_name x) <= length x)%nat.
Proof.
  destruct (clean_output x) as [H1 H2].
  split; [exact H1|]. split; [exact H2|].
  destruct x as [|x0 x']; [split; [tauto|reflexivity]|].
  rewrite clean_model_name_cons. split.
  - intros c Hc.
    apply squeeze_chars in Hc as [Hc|Hc]; [|auto].
    apply remove_descriptors_chars, paren_step_chars in Hc as [Hc|Hc];
      [|auto].
    apply strip_suffixes_chars, sub_chars in Hc as [Hc|[]].
    apply sub_chars in Hc as [Hc|[]]. auto.
  - etransitivity; [apply squeeze_length|].
    etransitivity; [apply remove_descriptors_length|].
    etransitivity; [apply strip_length|].
    etransitivity.
    { apply sub_length. intros prev s' len g H.
      apply paren_match_nonempty in H. exact H. }
    etransitivity; [apply strip_suffixes_length|].
    etransitivity; [apply sub_empty_length|]. apply sub_empty_length.
Qed.

(** ** Everything from the first pipe on is cut *)

(** A greedy star tries the whole run first. *)
Lemma star_first {R} cls rest prev off grp (k : Re.mstate -> option R) x :
  (forall p, k (Re.MState p (skipn (run_length cls rest) rest)
                  (off + run_length cls rest) grp) = Some x) ->
  Re.star cls rest prev off grp k = Some x.
Proof.
  revert prev off. induction rest as [|c rest IH]; intros prev off Hk.
  - cbn in *. rewrite Nat.add_0_r in Hk. apply Hk.
  - cbn [Re.star run_length] in *. destruct (cls c).
    + rewrite IH; [reflexivity|]. intros p. cbn [skipn] in Hk.
      replace (S off + run_length cls rest)%nat
        with (off + S (run_length cls rest))%nat by lia. apply Hk.
    + cbn [skipn] in Hk. rewrite Nat.add_0_r in Hk. apply Hk.
Qed.

Lemma run_length_all cls (w rest : str) :
  Forall (fun c => cls c = true) w ->
  match rest with x :: _ => cls x = false | [] => True end ->
  run_length cls (w ++ rest) = length w.
Proof.
  intros Hw Hr. induction Hw as [|c w Hc _ IH]; cbn [app run_length length].
  - destruct rest as [|x r]; [reflexivity|]. cbn. rewrite Hr. reflexivity.
  - rewrite Hc, IH. reflexivity.
Qed.

Lemma run_length_dot (b : str) :
  ~ In 10 b -> run_length Re.dot b = length b.
Proof.
  induction b as [|c b IH]; intros H; [reflexivity|].
  cbn [run_length length]. unfold Re.dot at 1.
  destruct (N.eqb_spec c 10) as [->|Hc];
    [exfalso; apply H; left; reflexivity|].
  cbn [negb]. rewrite IH; [reflexivity|]. intros K. apply H. right. exact K.
Qed.

Lemma skipn_run_no_newline cls (b : str) :
  ~ In 10 b -> ~ In 10 (skipn (run_length cls b) b).
Proof.
  intros H K. apply H.
  rewrite <- (firstn_skipn (run_length cls b) b). apply in_or_app. auto.
Qed.

(** At a run of whitespace before a pipe, the pattern takes the rest of the
    text, when the text has no newline after the pipe. *)
Lemma pipe_tail_match prev (ws b : str) :
  Forall (fun c => Py.isspace c = true) ws -> ~ In 10 b ->
  Re.match_at data_models.pipe_tail_re prev (ws ++ 124 :: b)
  = Some (length (ws ++ 124 :: b), None).
Proof.
  intros Hws Hb. unfold Re.match_at, data_models.pipe_tail_re.
  cbn [Re.rmatch Re.ms_rest Re.ms_prev Re.ms_off Re.ms_grp].
  apply star_first. intros p.
  rewrite (run_length_all Py.isspace ws (124 :: b) Hws eq_refl).
  rewrite drop_app_length.
  cbn [Re.rmatch Re.ms_rest Re.ms_prev Re.ms_off Re.ms_grp].
  change (Re.chr 124 124) with true. cbv iota.
  apply star_first. intros p1. apply star_first. intros p2.
  cbn [Re.rmatch Re.ms_rest Re.ms_prev Re.ms_off Re.ms_grp].
  set (n := run_length Py.isspace b).
  rewrite (run_length_dot (skipn n b)) by (apply skipn_run_no_newline, Hb).
  rewrite skipn_all. cbn [Re.at_dollar].
  rewrite length_app, length_skipn. cbn [length Nat.add].
  pose proof (run_length_le Py.isspace b) as Hn. fold n in Hn.
  do 2 f_equal. lia.
Qed.

(** At a run of whitespace before another character than a pipe, the
    pattern does not match. *)
Lemma pipe_tail_none prev (u : str) (x : N) (t : str) :
  Forall (fun c => Py.isspace c = true) u -> x <> 124 ->
  Py.isspace x = false ->
  Re.match_at data_models.pipe_tail_re prev (u ++ x :: t) = None.
Proof.
  intros Hu Hx Hsx. unfold Re.match_at, data_models.pipe_tail_re.
  cbn [Re.rmatch Re.ms_rest Re.ms_prev Re.ms_off Re.ms_grp].
  generalize 0%nat as off. revert prev.
  induction Hu as [|c u Hc _ IH]; intros prev off; cbn [app Re.star].
  - rewrite Hsx. cbn [Re.rmatch Re.ms_rest]. unfold Re.chr.
    destruct (N.eqb_spec x 124); [contradiction|reflexivity].
  - rewrite Hc, IH. cbn [Re.rmatch Re.ms_rest]. unfold Re.chr.
    destruct (N.eqb_spec c 124) as [->|_]; [discriminate Hc|reflexivity].
Qed.

Lemma sub_from_skip_all r (s : str) : forall prev,
  Re.sub_from r [] (length s) prev s = [].
Proof.
  induction s as [|c s IH]; intros prev; [|apply IH].
  cbn [length Re.sub_from].
  destruct (Re.match_at r prev []) as [[len g]|]; reflexivity.
Qed.

Lemma rstrip_decompose (a : str) :
  exists ws,
    a = Py.rstrip a ++ ws
    /\ Forall (fun c => Py.isspace c = true) ws
    /\ head_is_space (rev (Py.rstrip a)) = false.
Proof.
  unfold Py.rstrip.
  destruct (lstrip_suffix_ws (rev a)) as (w & Hw & Hall).
  exists (rev w). split; [|split].
  - rewrite <- rev_app_distr, <- Hw, rev_involutive. reflexivity.
  - apply Forall_rev. exact Hall.
  - rewrite rev_involutive. apply lstrip_head_not_space.
Qed.

(** A text that does not end with whitespace starts with a run of
    whitespace and another character. *)
Lemma leading_run (l : str) :
  l <> [] -> head_is_space (rev l) = false ->
  exists u x t,
    l = u ++ x :: t /\ Forall (fun c => Py.isspace c = true) u
    /\ Py.isspace x = false.
Proof.
  induction l as [|c l IH]; [congruence|]. intros _ Hl.
  destruct (Py.isspace c) eqn:Ec.
  - destruct l as [|d l'].
    + cbn in Hl. congruence.
    + destruct IH as (u & x & t & E & Hu & Hx); [discriminate| |].
      * cbn [rev] in Hl |- *.
        destruct (rev l' ++ [d]) as [|y r] eqn:Er;
          [destruct (rev l'); discriminate|].
        cbn [app] in Hl. exact Hl.
      * exists (c :: u), x, t. rewrite E. split; [reflexivity|].
        split; [constructor; assumption|exact Hx].
  - exists [], c, l. split; [reflexivity|]. split; [constructor|exact Ec].
Qed.

Lemma tail_not_space_end (c : N) (l : str) :
  l <> [] -> head_is_space (rev (c :: l)) = false ->
  head_is_space (rev l) = false.
Proof.
  intros Hl H. cbn [rev] in H.
  destruct (rev l) as [|y r] eqn:Er.
  - exfalso. apply Hl. apply (f_equal (@rev N)) in Er.
    rewrite rev_involutive in Er. exact Er.
  - exact H.
Qed.

(** The first substitution of the cleaner on a text with a pipe. *)
Lemma sub_pipe_tail_cut (l ws b : str) : forall prev,
  (l = [] \/ head_is_space (rev l) = false) ->
  ~ In 124 l -> Forall (fun c => Py.isspace c = true) ws -> ~ In 10 b ->
  Re.sub_from data_models.pipe_tail_re [] 0 prev (l ++ ws ++ 124 :: b) = l.
Proof.
  induction l as [|c l IH]; intros prev Hl Hp Hws Hb.
  - cbn [app]. destruct (ws ++ 124 :: b) as [|c s'] eqn:E;
      [destruct ws; discriminate|].
    cbn [Re.sub_from]. rewrite <- E, pipe_tail_match by assumption.
    rewrite E. cbn [length app]. apply sub_from_skip_all.
  - destruct Hl as [Hl|Hl]; [discriminate|].
    destruct (leading_run (c :: l)) as (u & x & t & E & Hu & Hx);
      [discriminate|exact Hl|].
    assert (Hx124 : x <> 124).
    { intros ->. apply Hp. rewrite E. apply in_or_app. right. left.
      reflexivity. }
    cbn [app Re.sub_from].
    change (c :: l ++ ws ++ 124 :: b) with ((c :: l) ++ ws ++ 124 :: b).
    rewrite E, <- app_assoc. cbn [app].
    rewrite pipe_tail_none by assumption.
    rewrite <- E. f_equal. apply IH; try assumption.
    + destruct l as [|d l']; [left; reflexivity|right].
      apply (tail_not_space_end c); [discriminate|exact Hl].
    + intros K. apply Hp. right. exact K.
Qed.

Lemma needs_ascii_pipe : needs (Re.chr 124) data_models.pipe_tail_re.
Proof.
  unfold data_models.pipe_tail_re. apply needs_cat_r, needs_cat_l.
  constructor. tauto.
Qed.

Lemma rstrip_chars (a : str) (c : N) : In c (Py.rstrip a) -> In c a.
Proof.
  destruct (rstrip_decompose a) as (ws & E & _). intros H.
  rewrite E. apply in_or_app. auto.
Qed.

(** X15: the cleaner cuts a name at its first pipe [|]: whatever follows
    the pipe on the line does not reach the result, which is that of the
    text before the pipe, trailing whitespace removed. *)
Theorem X15_clean_cuts_at_pipe (a b : str) :
  ~ In 124 a -> ~ In 10 b ->
  data_models.clean_model_name (a ++ 124 :: b)
  = data_models.clean_model_name (Py.rstrip a).
Proof.
  intros Ha Hb.
  destruct (rstrip_decompose a) as (ws & E & Hws & Hend).
  assert (Hcut : Re.sub data_models.pipe_tail_re [] (a ++ 124 :: b)
                 = Py.rstrip a).
  { rewrite E at 1. rewrite <- app_assoc. apply sub_pipe_tail_cut;
      try assumption.
    - destruct (Py.rstrip a); [left; reflexivity|right; exact Hend].
    - intros K. apply Ha, rstrip_chars, K. }
  assert (Hid : Re.sub data_models.pipe_tail_re [] (Py.rstrip a)
                = Py.rstrip a).
  { apply (sub_needs_id (Re.chr 124)); [apply needs_ascii_pipe|].
    apply List.Forall_forall. intros x Hx. unfold Re.chr.
    destruct (N.eqb_spec x 124) as [->|]; [|reflexivity].
    exfalso. apply Ha, rstrip_chars, Hx. }
  destruct (a ++ 124 :: b) as [|c0 s0] eqn:E0; [destruct a; discriminate|].
  rewrite clean_model_name_cons, Hcut.
  destruct (Py.rstrip a) as [|c1 s1] eqn:E1.
  - vm_compute. reflexivity.
  - rewrite clean_model_name_cons, Hid. reflexivity.
Qed.

Lemma X15_witness :
  data_models.clean_model_name (lit "Vanguard Power Air  | Pickleball Galaxy")
  = data_models.clean_model_name (Py.rstrip (lit "Vanguard Power Air  "))
  /\ data_models.clean_model_name (Py.rstrip (lit "Vanguard Power Air  "))
     = lit "Vanguard Power Air".
Proof.
  split; [|vm_compute; reflexivity].
  apply (X15_clean_cuts_at_pipe (lit "Vanguard Power Air  ")
           (lit " Pickleball Galaxy")).
  - vm_compute. intuition discriminate.
  - vm_compute. intuition discriminate.
Defined.

(** ** No parenthetical survives the cleaner *)

Lemma steps_star_run cls (w rest : str) : forall prev off grp,
  Forall (fun c => cls c = true) w ->
  exists prev',
    steps (Re.Star cls) (Re.MState prev (w ++ rest) off grp)
          (Re.MState prev' rest (off + length w) grp).
Proof.
  induction w as [|c w IH]; intros prev off grp Hw.
  - exists prev. cbn. rewrite Nat.add_0_r. apply steps_star_stop.
  - inversion Hw as [|? ? Hc Hw']; subst.
    destruct (IH (Some c) (S off) grp Hw') as [prev' H].
    exists prev'. cbn [app length].
    replace (off + S (length w))%nat with (S off + length w)%nat by lia.
    apply steps_star_more; assumption.
Qed.

Lemma split_first (k : N) (s : str) :
  In k s -> exists b t, s = b ++ k :: t /\ ~ In k b.
Proof.
  induction s as [|c s IH]; [intros []|].
  destruct (N.eq_dec c k) as [->|Hc].
  - intros _. exists [], s. split; [reflexivity|intros []].
  - intros [K|K]; [contradiction|].
    destruct (IH K) as (b & t & -> & Hb). exists (c :: b), t.
    split; [reflexivity|]. intros [K'|K']; [contradiction|auto].
Qed.

(** An opening parenthesis that a closing one follows starts a match. *)
Lemma paren_match prev (s : str) :
  In 41 s -> Re.match_at data_models.paren_re prev (40 :: s) <> None.
Proof.
  intros H. destruct (split_first 41 s H) as (b & t & -> & Hb).
  unfold Re.match_at, data_models.paren_re.
  destruct (steps_star_run (Re.none_of [41]) b (41 :: t) (Some 40) 1 None)
    as [p1 H1].
  { apply List.Forall_forall. intros x Hx. unfold Re.none_of. cbn [existsb].
    destruct (N.eqb_spec x 41) as [->|]; [contradiction|reflexivity]. }
  eapply rmatch_complete; [|discriminate].
  eapply steps_cat; [apply steps_star_stop|].
  eapply steps_cat; [apply steps_one; reflexivity|].
  eapply steps_cat; [exact H1|].
  eapply steps_cat; [apply steps_one; reflexivity|].
  apply steps_star_stop.
Qed.

Lemma existsb_false_not_in (k : N) (s : str) :
  existsb (N.eqb k) s = false <-> ~ In k s.
Proof.
  split.
  - intros H K. apply not_true_iff_false in H. apply H.
    apply existsb_exists. exists k. split; [exact K|apply N.eqb_refl].
  - intros H. apply not_true_iff_false. intros K.
    apply existsb_exists in K as (x & Hx & E). apply N.eqb_eq in E.
    subst x. contradiction.
Qed.

Lemma no_close_no_group (s : str) : ~ In 41 s -> no_paren_group s = true.
Proof.
  induction s as [|c s IH]; [reflexivity|]. intros H.
  cbn [no_paren_group]. rewrite (proj2 (existsb_false_not_in 41 s))
    by (intros K; apply H; right; exact K).
  cbn [negb]. rewrite orb_true_r, IH; [reflexivity|].
  intros K. apply H. right. exact K.
Qed.

Lemma sub_paren_no_group (s : str) : forall skip prev,
  no_paren_group (Re.sub_from data_models.paren_re (lit " ") skip prev s)
  = true.
Proof.
  induction s as [|c s IH]; intros skip prev.
  - destruct skip; cbn [Re.sub_from]; [|reflexivity].
    destruct (Re.match_at _ prev []) as [[len g]|]; reflexivity.
  - destruct skip as [|n]; cbn [Re.sub_from]; [|apply IH].
    destruct (Re.match_at data_models.paren_re prev (c :: s))
      as [[len g]|] eqn:E.
    + pose proof (paren_match_nonempty _ _ _ _ E) as Hlen.
      destruct len as [|n]; [lia|].
      change (lit " ") with [32]. cbn [app no_paren_group].
      change (32 =? 40) with false. cbn [negb orb andb]. apply IH.
    + cbn [no_paren_group]. rewrite IH, andb_true_r.
      destruct (N.eqb_spec c 40) as [->|_]; [|reflexivity].
      cbn [negb orb].
      destruct (existsb (N.eqb 41) _) eqn:Ex; [|reflexivity].
      exfalso. apply existsb_exists in Ex as (x & Hx & Ex).
      apply N.eqb_eq in Ex. subst x.
      apply sub_from_chars in Hx as [Hx|[Hx|[]]]; [|discriminate Hx].
      exact (paren_match prev s Hx E).
Qed.

Lemma existsb_sublist (k : N) (l1 l2 : str) :
  l1 `sublist_of` l2 ->
  existsb (N.eqb k) l2 = false -> existsb (N.eqb k) l1 = false.
Proof.
  intros Hs H. apply existsb_false_not_in. intros K.
  apply (proj1 (existsb_false_not_in k l2) H).
  apply list_elem_of_In. eapply elem_of_sublist; [|exact Hs].
  apply list_elem_of_In. exact K.
Qed.

Lemma no_paren_group_sublist (l1 l2 : str) :
  l1 `sublist_of` l2 -> no_paren_group l2 = true -> no_paren_group l1 = true.
Proof.
  induction 1 as [|x l1 l2 Hs IH|x l1 l2 Hs IH]; cbn [no_paren_group].
  - tauto.
  - intros H. apply andb_true_iff in H as [H1 H2].
    rewrite (IH H2), andb_true_r.
    destruct (negb (x =? 40)); [reflexivity|]. cbn [orb] in *.
    apply negb_true_iff in H1. apply negb_true_iff.
    exact (existsb_sublist 41 _ _ Hs H1).
  - intros H. apply andb_true_iff in H as [_ H2]. auto.
Qed.

Lemma sub_from_empty_sublist r (s : str) : forall skip prev,
  Re.sub_from r [] skip prev s `sublist_of` s.
Proof.
  induction s as [|c s IH]; intros skip prev.
  - destruct skip; cbn [Re.sub_from]; [|constructor].
    destruct (Re.match_at r prev []) as [[len g]|]; constructor.
  - destruct skip as [|n]; cbn [Re.sub_from].
    + destruct (Re.match_at r prev (c :: s)) as [[[|n] g]|]; cbn [app].
      * apply sublist_skip, IH.
      * apply sublist_cons, IH.
      * apply sublist_skip, IH.
    + apply sublist_cons, IH.
Qed.

Lemma strip_sublist (s : str) : Py.strip s `sublist_of` s.
Proof.
  destruct (strip_decompose s) as (a & b & E). rewrite E at 2.
  apply sublist_inserts_l, sublist_inserts_r. reflexivity.
Qed.

Lemma remove_descriptors_sublist (m : str) :
  data_models.remove_descriptors m `sublist_of` m.
Proof.
  unfold data_models.remove_descriptors. revert m.
  induction data_models.common_descriptors as [|d ds IH]; intros m;
    [reflexivity|].
  cbn [fold_left]. etransitivity; [apply IH|]. apply sub_from_empty_sublist.
Qed.

Lemma collapse_existsb (k : N) (s : str) : forall inrun,
  Py.isspace k = false ->
  existsb (N.eqb k) (collapse Py.isspace [32] inrun s)
  = existsb (N.eqb k) s.
Proof.
  induction s as [|c s IH]; intros inrun Hk; [reflexivity|].
  cbn [collapse existsb]. destruct (Py.isspace c) eqn:Ec.
  - assert (Hkc : (k =? c) = false).
    { apply N.eqb_neq. intros ->. congruence. }
    assert (Hk32 : (k =? 32) = false).
    { apply N.eqb_neq. intros ->. discriminate Hk. }
    rewrite Hkc. cbn [orb].
    destruct inrun; cbn [app existsb]; rewrite ?Hk32; cbn [orb];
      apply IH, Hk.
  - cbn [existsb]. rewrite IH by exact Hk. reflexivity.
Qed.

Lemma collapse_no_group (s : str) : forall inrun,
  no_paren_group (collapse Py.isspace [32] inrun s) = no_paren_group s.
Proof.
  induction s as [|c s IH]; intros inrun; [reflexivity|].
  cbn [collapse no_paren_group]. destruct (Py.isspace c) eqn:Ec.
  - assert (Hc : (c =? 40) = false).
    { apply N.eqb_neq. intros ->. discriminate Ec. }
    rewrite Hc. cbn [negb orb andb].
    destruct inrun; cbn [app no_paren_group]; apply IH.
  - cbn [no_paren_group]. rewrite IH, collapse_existsb by reflexivity.
    reflexivity.
Qed.

(** X16: no parenthetical survives the cleaner: in a cleaned name no
    closing parenthesis comes after an opening one. *)
Theorem X16_clean_no_parenthetical (x : str) :
  no_paren_group (data_models.clean_model_name x) = true.
Proof.
  destruct x as [|x0 x']; [reflexivity|].
  rewrite clean_model_name_cons. unfold data_models.squeeze.
  change (lit " ") with [32]. rewrite sub_plus_collapse.
  eapply no_paren_group_sublist; [apply strip_sublist|].
  rewrite collapse_no_group.
  eapply no_paren_group_sublist; [apply remove_descriptors_sublist|].
  eapply no_paren_group_sublist; [apply strip_sublist|].
  apply (sub_paren_no_group _ 0 None).
Qed.

(** ** File names of the images *)

Lemma match_at_one cls prev (s : str) :
  Re.match_at (Re.One cls) prev s
  = match s with
    | c :: _ => if cls c then Some (1%nat, None) else None
    | [] => None
    end.
Proof.
  unfold Re.match_at. cbn [Re.rmatch Re.ms_rest Re.ms_off Re.ms_grp].
  destruct s as [|c s]; [reflexivity|]. destruct (cls c); reflexivity.
Qed.

(** The substitution of single characters of a class. *)
Lemma sub_one_map cls (k : N) (s : str) : forall prev,
  Re.sub_from (Re.One cls) [k] 0 prev s
  = List.map (fun c => if cls c then k else c) s.
Proof.
  induction s as [|c s IH]; intros prev; cbn [Re.sub_from List.map];
    rewrite match_at_one; [reflexivity|].
  destruct (cls c); cbn [app]; rewrite IH; reflexivity.
Qed.

Lemma collapse_chars cls repl (s : str) (c : N) : forall inrun,
  In c (collapse cls repl inrun s) ->
  (In c s /\ cls c = false) \/ In c repl.
Proof.
  induction s as [|x s IH]; intros inrun; cbn [collapse]; [intros []|].
  destruct (cls x) eqn:Ex.
  - intros H. apply in_app_or in H as [H|H].
    + destruct inrun; [destruct H|auto].
    + apply IH in H as [[H1 H2]|H]; [left; split; [right|]; assumption|auto].
  - intros [<-|H]; [left; split; [left; reflexivity|exact Ex]|].
    apply IH in H as [[H1 H2]|H]; [left; split; [right|]; assumption|auto].
Qed.

Lemma lstrip_chars_suffix chars (s : str) :
  exists w, s = w ++ PyLib.lstrip_chars chars s.
Proof.
  induction s as [|c s IH]; [exists []; reflexivity|].
  cbn [PyLib.lstrip_chars]. destruct (existsb (N.eqb c) chars).
  - destruct IH as [w Hw]. exists (c :: w). cbn. f_equal. exact Hw.
  - exists []. reflexivity.
Qed.

Lemma lstrip_chars_head chars (s : str) (c : N) :
  head (PyLib.lstrip_chars chars s) = Some c ->
  existsb (N.eqb c) chars = false.
Proof.
  induction s as [|x s IH]; cbn [PyLib.lstrip_chars]; [discriminate|].
  destruct (existsb (N.eqb x) chars) eqn:E; [exact IH|].
  intros [= <-]. exact E.
Qed.

Lemma strip_chars_decompose chars (s : str) :
  exists a b, s = a ++ PyLib.strip_chars chars s ++ b.
Proof.
  unfold PyLib.strip_chars.
  destruct (lstrip_chars_suffix chars s) as [a Ha].
  destruct (lstrip_chars_suffix chars (rev (PyLib.lstrip_chars chars s)))
    as [w Hw].
  exists a, (rev w). rewrite <- rev_app_distr, <- Hw, rev_involutive. exact Ha.
Qed.

Lemma strip_chars_ends chars (s : str) :
  clean_ends chars (PyLib.strip_chars chars s).
Proof.
  unfold PyLib.strip_chars. split.
  - intros c Hc.
    destruct (lstrip_chars_suffix chars (rev (PyLib.lstrip_chars chars s)))
      as [w Hw].
    apply (f_equal (@rev N)) in Hw.
    rewrite rev_involutive, rev_app_distr in Hw.
    destruct (rev (PyLib.lstrip_chars chars
                     (rev (PyLib.lstrip_chars chars s)))) as [|y r] eqn:E;
      [discriminate|].
    injection Hc as ->. apply (lstrip_chars_head chars s).
    rewrite Hw. reflexivity.
  - intros c. rewrite rev_involutive. apply lstrip_chars_head.
Qed.

Lemma lstrip_chars_id chars (s : str) :
  (forall c, head s = Some c -> existsb (N.eqb c) chars = false) ->
  PyLib.lstrip_chars chars s = s.
Proof.
  destruct s as [|c s]; [reflexivity|]. intros H.
  cbn [PyLib.lstrip_chars]. rewrite (H c eq_refl). reflexivity.
Qed.

Lemma strip_chars_id chars (s : str) :
  clean_ends chars s -> PyLib.strip_chars chars s = s.
Proof.
  intros [H1 H2]. unfold PyLib.strip_chars.
  rewrite (lstrip_chars_id chars s H1), (lstrip_chars_id chars (rev s) H2).
  apply rev_involutive.
Qed.

Lemma sanitize_safe (x : str) :
  Forall (fun c => safe_char c = true) (image_downloader.sanitize_filename x).
Proof.
  unfold image_downloader.sanitize_filename. cbv zeta.
  change (lit "_") with [95]. apply List.Forall_forall. intros c Hc.
  destruct (strip_chars_decompose (lit " .")
              (Re.sub (Re.Plus Py.isspace) [95]
                 (Re.sub (Re.One (Re.one_of image_downloader.invalid_chars))
                    [95] x))) as (a & b & E).
  assert (Hin : In c (Re.sub (Re.Plus Py.isspace) [95]
                        (Re.sub (Re.One (Re.one_of
                                   image_downloader.invalid_chars)) [95] x))).
  { rewrite E. apply in_or_app. right. apply in_or_app. left. exact Hc. }
  clear E Hc. rewrite sub_plus_collapse in Hin.
  apply collapse_chars in Hin as [[Hin Hsp]|[<-|[]]]; [|reflexivity].
  unfold safe_char. rewrite Hsp, andb_true_r.
  unfold Re.sub in Hin. rewrite sub_one_map in Hin.
  apply List.in_map_iff in Hin as (y & Hy & _).
  destruct (Re.one_of image_downloader.invalid_chars y) eqn:Ey;
    [subst c; reflexivity|subst c; rewrite Ey; reflexivity].
Qed.

Lemma sanitize_fixed (y : str) :
  Forall (fun c => safe_char c = true) y -> clean_ends (lit " .") y ->
  image_downloader.sanitize_filename y = y.
Proof.
  intros Hs He. unfold image_downloader.sanitize_filename. cbv zeta.
  rewrite (sub_needs_id (Re.one_of image_downloader.invalid_chars)
             (Re.One (Re.one_of image_downloader.invalid_chars))).
  2:{ constructor. tauto. }
  2:{ eapply List.Forall_impl; [|exact Hs]. intros c Hc. unfold safe_char in Hc.
      apply andb_true_iff in Hc as [Hc _]. apply negb_true_iff, Hc. }
  rewrite (sub_needs_id Py.isspace (Re.Plus Py.isspace)).
  2:{ apply needs_cat_l. constructor. tauto. }
  2:{ eapply List.Forall_impl; [|exact Hs]. intros c Hc. unfold safe_char in Hc.
      apply andb_true_iff in Hc as [_ Hc]. apply negb_true_iff, Hc. }
  apply strip_chars_id, He.
Qed.

(** X17: a sanitized file name has none of the invalid characters (among
    them the slash and the backslash) and no whitespace, and neither
    starts nor ends with a dot or a space; sanitizing is idempotent. *)
Theorem X17_sanitize_filename_safe (filename : str) :
  Forall (fun c => safe_char c = true)
         (image_downloader.sanitize_filename filename)
  /\ clean_ends (lit " .") (image_downloader.sanitize_filename filename)
  /\ image_downloader.sanitize_filename
       (image_downloader.sanitize_filename filename)
     = image_downloader.sanitize_filename filename.
Proof.
  assert (He : clean_ends (lit " .")
                 (image_downloader.sanitize_filename filename))
    by apply strip_chars_ends.
  split; [apply sanitize_safe|]. split; [exact He|].
  apply sanitize_fixed; [apply sanitize_safe|exact He].
Qed.

Lemma file_extension_allowed (path : str) :
  In (image_downloader.file_extension path) image_downloader.image_extensions.
Proof.
  unfold image_downloader.file_extension.
  destruct (Py.contains (lit ".") path); [|left; reflexivity]. cbv zeta.
  destruct (existsb _ image_downloader.image_extensions) eqn:E;
    cbn [negb]; [|left; reflexivity].
  apply existsb_exists in E as (e & He & Heq).
  apply eqb_eq in Heq. rewrite Heq. exact He.
Qed.

Lemma safe_no_slash (s : str) :
  Forall (fun c => safe_char c = true) s -> ~ In 47 s /\ ~ In 92 s.
Proof.
  intros H. rewrite List.Forall_forall in H.
  split; intros K; apply H in K; discriminate K.
Qed.

Lemma path_join_relative (a b : str) :
  (forall c, head b = Some c -> c <> 47) ->
  exists sep, (sep = [] \/ sep = lit "/") /\ PyLib.path_join a b = a ++ sep ++ b.
Proof.
  intros Hb. unfold PyLib.path_join.
  assert (Hs : Py.startswith (lit "/") b = false).
  { destruct b as [|c b]; [reflexivity|]. change (lit "/") with [47].
    rewrite startswith_single. apply N.eqb_neq. intros K.
    apply (Hb c eq_refl). congruence. }
  rewrite Hs.
  destruct (negb (Py.truthy a) || Py.endswith a (lit "/")).
  - exists []. split; [left; reflexivity|reflexivity].
  - exists (lit "/"). split; [right; reflexivity|reflexivity].
Qed.

(** X18: the path [download_image] saves an image to is the base folder,
    the sanitized brand as a folder, and a file name made of the sanitized
    brand and model and one of the five image extensions.  Neither the
    folder nor the file name has a slash or a backslash, and the folder is
    never [.] or [..]: the texts of the page cannot lead out of the base
    folder. *)
Theorem X18_image_filepath (path brand model base_folder : str) :
  exists sep1 sep2 ext,
    (sep1 = [] \/ sep1 = lit "/") /\ (sep2 = [] \/ sep2 = lit "/")
    /\ In ext image_downloader.image_extensions
    /\ image_downloader.filepath path brand model base_folder
       = base_folder ++ sep1 ++ image_downloader.sanitize_filename brand
         ++ sep2
         ++ (image_downloader.sanitize_filename brand ++ lit "_"
             ++ image_downloader.sanitize_filename model ++ lit "." ++ ext)
    /\ ~ In 47 (image_downloader.sanitize_filename brand ++ lit "_"
                ++ image_downloader.sanitize_filename model ++ lit "." ++ ext)
    /\ ~ In 92 (image_downloader.sanitize_filename brand ++ lit "_"
                ++ image_downloader.sanitize_filename model ++ lit "." ++ ext)
    /\ image_downloader.sanitize_filename brand <> lit "."
    /\ image_downloader.sanitize_filename brand <> lit "..".
Proof.
  set (sb := image_downloader.sanitize_filename brand).
  set (sm := image_downloader.sanitize_filename model).
  destruct (safe_no_slash sb (sanitize_safe brand)) as [Hb1 Hb2].
  destruct (safe_no_slash sm (sanitize_safe model)) as [Hm1 Hm2].
  pose proof (file_extension_allowed path) as Hext.
  set (ext := image_downloader.file_extension path) in *.
  assert (Hx : ~ In 47 ext /\ ~ In 92 ext).
  { destruct Hext as [<-|[<-|[<-|[<-|[<-|[]]]]]];
      split; vm_compute; intuition discriminate. }
  assert (Hf : forall k, ~ In k sb -> ~ In k sm -> ~ In k ext ->
                 k <> 95 -> k <> 46 ->
                 ~ In k (sb ++ lit "_" ++ sm ++ lit "." ++ ext)).
  { intros k H1 H2 H3 H4 H5 K.
    change (lit "_") with [95] in K. change (lit ".") with [46] in K.
    apply in_app_or in K as [K|K]; [contradiction|].
    cbn [app] in K. destruct K as [K|K]; [congruence|].
    apply in_app_or in K as [K|K]; [contradiction|].
    cbn [app] in K. destruct K as [K|K]; [congruence|contradiction]. }
  destruct (path_join_relative base_folder sb) as (sep1 & Hs1 & E1).
  { intros c Hc K. subst c. apply Hb1. destruct sb; [discriminate|].
    injection Hc as ->. left. reflexivity. }
  destruct (path_join_relative (base_folder ++ sep1 ++ sb)
              (sb ++ lit "_" ++ sm ++ lit "." ++ ext)) as (sep2 & Hs2 & E2).
  { intros c Hc K. subst c.
    apply (Hf 47); try (discriminate || tauto).
    destruct (sb ++ lit "_" ++ sm ++ lit "." ++ ext); [discriminate|].
    injection Hc as ->. left. reflexivity. }
  exists sep1, sep2, ext. split; [exact Hs1|]. split; [exact Hs2|].
  split; [exact Hext|]. split.
  { unfold image_downloader.filepath. cbv zeta. fold sb sm ext.
    rewrite E1. rewrite <- !app_assoc in E2 |- *. exact E2. }
  split; [apply Hf; (discriminate || tauto)|].
  split; [apply Hf; (discriminate || tauto)|].
  destruct (strip_chars_ends (lit " .")
              (Re.sub (Re.Plus Py.isspace) (lit "_")
                 (Re.sub (Re.One (Re.one_of image_downloader.invalid_chars))
                    (lit "_") brand))) as [He _].
  change (PyLib.strip_chars (lit " .") _) with sb in He.
  split; intros K; rewrite K in He; specialize (He 46 eq_refl);
    discriminate He.
Qed.

(** ** The image of a Galaxy page *)

Lemma steps_captures_body body r :
  captures body r ->
  forall st st', steps r st st' ->
  exists u w t,
    matched body w
    /\ Re.ms_rest st = u ++ w ++ t
    /\ Re.ms_grp st'
       = Some ((Re.ms_off st + length u)%nat,
               (Re.ms_off st + length u + length w)%nat).
Proof.
  induction 1 as [|r1 r2 H1 IH G2|r1 r2 G1 H2 IH]; intros st st' Hs.
  - apply steps_group_inv in Hs as (st1 & Hb & ->).
    destruct (steps_span _ _ _ Hb) as (w & Ew & Eo).
    exists [], w, (Re.ms_rest st1). cbn [app length Re.set_grp Re.ms_grp].
    rewrite Eo, Nat.add_0_r. split; [|auto]. exists st, st1. auto.
  - apply steps_cat_inv in Hs as (st1 & Ha & Hb).
    destruct (IH _ _ Ha) as (u & w & t & Hw & Er & Eg).
    exists u, w, t. rewrite (steps_group_free _ _ _ Hb G2). auto.
  - apply steps_cat_inv in Hs as (st1 & Ha & Hb).
    destruct (steps_span _ _ _ Ha) as (u1 & Er1 & Eo1).
    destruct (IH _ _ Hb) as (u & w & t & Hw & Er & Eg).
    exists (u1 ++ u), w, t. rewrite Eg, Eo1, Er1, Er, length_app, <- app_assoc.
    split; [exact Hw|]. split; [reflexivity|]. do 2 f_equal; lia.
Qed.

(** Group 1 of a match at a position. *)
Lemma match_at_captures body r prev (s : str) m :
  captures body r -> Re.match_at r prev s = Some m ->
  exists u w t,
    matched body w /\ s = u ++ w ++ t
    /\ Re.mo_group1 (Re.mk_mobj s m) = Some w.
Proof.
  intros Hr Hm. unfold Re.match_at in Hm.
  apply rmatch_sound in Hm as (st' & Hst & Hk). injection Hk as <-.
  destruct (steps_captures_body body r Hr _ _ Hst) as (u & w & t & Hw & Er & Eg).
  cbn [Re.ms_rest Re.ms_off] in Er, Eg.
  exists u, w, t. split; [exact Hw|]. split; [exact Er|].
  unfold Re.mk_mobj. cbn [Re.mo_group1 snd]. rewrite Eg.
  unfold Re.slice. rewrite Er.
  replace (0 + length u + length w - (0 + length u))%nat with (length w) by lia.
  cbn [Nat.add]. rewrite drop_app_length, take_app_length. reflexivity.
Qed.

Lemma search_captures body r (s : str) m :
  captures body r -> Re.search r s = Some m ->
  exists a w b, matched body w /\ s = a ++ w ++ b /\ Re.mo_group1 m = Some w.
Proof.
  intros Hr Hs. unfold Re.search in Hs.
  apply search_from_sound in Hs as (prev & pre & s' & m0 & -> & Hm & ->).
  destruct (match_at_captures body r _ _ _ Hr Hm) as (u & w & t & Hw & -> & Eg).
  exists (pre ++ u), w, t. rewrite <- app_assoc. auto.
Qed.

Lemma findall_from_captures body r (s : str) : forall skip prev x,
  captures body r -> In x (PyLib.findall_from r skip prev s) ->
  exists a b, matched body x /\ s = a ++ x ++ b.
Proof.
  induction s as [|c s IH]; intros skip prev x Hr.
  - destruct skip; cbn [PyLib.findall_from]; [|intros []].
    destruct (Re.match_at r prev []) as [m|] eqn:E; [|intros []].
    intros [<-|[]].
    destruct (match_at_captures body r _ _ _ Hr E) as (u & w & t & Hw & Es & ->).
    exists u, t. auto.
  - destruct skip as [|n]; cbn [PyLib.findall_from].
    + destruct (Re.match_at r prev (c :: s)) as [m|] eqn:E.
      * intros [<-|Hin].
        -- destruct (match_at_captures body r _ _ _ Hr E)
             as (u & w & t & Hw & Es & ->).
           exists u, t. auto.
        -- apply IH in Hin as (a & b & Hx & ->); [|exact Hr].
           exists (c :: a), b. auto.
      * intros Hin. apply IH in Hin as (a & b & Hx & ->); [|exact Hr].
        exists (c :: a), b. auto.
    + intros Hin. apply IH in Hin as (a & b & Hx & ->); [|exact Hr].
      exists (c :: a), b. auto.
Qed.

Lemma steps_word_exact (w0 : str) : forall st st',
  steps (Re.word false w0) st st' -> Re.ms_rest st = w0 ++ Re.ms_rest st'.
Proof.
  induction w0 as [|c w0 IH]; intros st st'; cbn [Re.word fold_right].
  - inversion 1; subst. reflexivity.
  - intros H. apply steps_cat_inv in H as (s1 & H1 & H2).
    apply steps_one_inv in H1 as (x & rest & Er & Hx & ->).
    apply IH in H2. cbn [Re.ms_rest] in H2. unfold Re.chr in Hx.
    apply N.eqb_eq in Hx. subst x. rewrite Er, H2. reflexivity.
Qed.

Lemma not_quote_class (w : str) :
  Forall (fun c => image_downloader.not_quote c = true) w -> ~ In 34 w.
Proof.
  intros H K. rewrite List.Forall_forall in H. apply H in K. discriminate K.
Qed.

(** The value of a [src] attribute the patterns capture has no double
    quote. *)
Lemma matched_src_unquoted (w : str) :
  matched (Re.Plus image_downloader.not_quote) w -> ~ In 34 w.
Proof.
  intros (sa & sb & Hs & Er). unfold Re.Plus in Hs.
  apply steps_cat_inv in Hs as (s1 & H1 & H2).
  apply steps_one_inv in H1 as (c & rest & Ec & Hc & ->).
  apply steps_star_class in H2 as (ds & Eds & Hds). cbn [Re.ms_rest] in Eds.
  assert (E : w = c :: ds).
  { apply (app_inv_tail (Re.ms_rest sb)). rewrite <- Er, Ec, Eds. reflexivity. }
  rewrite E. apply not_quote_class. constructor; assumption.
Qed.

Lemma matched_graphics_unquoted (w : str) :
  matched (Re.Cat (Re.Star image_downloader.not_quote)
             (Re.Cat (Re.word false (lit "graphics"))
                (Re.Star image_downloader.not_quote))) w ->
  ~ In 34 w.
Proof.
  intros (sa & sb & Hs & Er).
  apply steps_cat_inv in Hs as (s1 & H1 & Hs).
  apply steps_cat_inv in Hs as (s2 & H2 & H3).
  apply steps_star_class in H1 as (a & Ea & Ha).
  apply steps_word_exact in H2.
  apply steps_star_class in H3 as (b & Eb & Hb).
  assert (E : w = a ++ lit "graphics" ++ b).
  { apply (app_inv_tail (Re.ms_rest sb)).
    rewrite <- Er, Ea, H2, Eb, <- !app_assoc. reflexivity. }
  rewrite E. intros K. apply in_app_or in K as [K|K];
    [exact (not_quote_class a Ha K)|].
  apply in_app_or in K as [K|K]; [|exact (not_quote_class b Hb K)].
  vm_compute in K. intuition discriminate.
Qed.

Lemma src_captures :
  captures (Re.Plus image_downloader.not_quote) image_downloader.src_re.
Proof.
  unfold image_downloader.src_re.
  apply cap_right; [reflexivity|]. apply cap_left; [|reflexivity].
  apply cap_here.
Qed.

Lemma img_id_captures (id : str) :
  captures (Re.Plus image_downloader.not_quote)
           (image_downloader.img_id_re id).
Proof.
  unfold image_downloader.img_id_re.
  apply cap_right; [reflexivity|]. apply cap_right; [reflexivity|].
  apply cap_right; [apply group_free_word|].
  apply cap_right; [reflexivity|]. apply src_captures.
Qed.

Lemma img_class_captures :
  captures (Re.Plus image_downloader.not_quote) image_downloader.img_class_re.
Proof.
  unfold image_downloader.img_class_re.
  do 8 (apply cap_right; [reflexivity|]). apply src_captures.
Qed.

Lemma img_graphics_captures :
  captures (Re.Cat (Re.Star image_downloader.not_quote)
              (Re.Cat (Re.word false (lit "graphics"))
                 (Re.Star image_downloader.not_quote)))
           image_downloader.img_graphics_re.
Proof.
  unfold image_downloader.img_graphics_re.
  do 3 (apply cap_right; [reflexivity|]).
  apply cap_left; [|reflexivity]. apply cap_here.
Qed.

Lemma try_pattern_sound r (html_content url : str) :
  captures (Re.Plus image_downloader.not_quote) r ->
  image_downloader.try_pattern r html_content = Some url ->
  exists g a b,
    url = image_downloader.mm5 g
    /\ image_downloader.is_product_image g = true
    /\ ~ In 34 g /\ html_content = a ++ g ++ b.
Proof.
  intros Hr. unfold image_downloader.try_pattern.
  destruct (Re.search r html_content) as [m|] eqn:E; [|discriminate].
  destruct (search_captures _ _ _ _ Hr E) as (a & w & b & Hw & Es & Eg).
  rewrite Eg. cbv zeta. change (default [] (Some w)) with w.
  destruct (image_downloader.is_product_image w) eqn:Ep; [|discriminate].
  intros [= <-]. exists w, a, b.
  split; [reflexivity|]. split; [exact Ep|].
  split; [apply matched_src_unquoted, Hw|exact Es].
Qed.

Lemma sized_is_product (g : str) :
  image_downloader.is_sized_product_image g = true ->
  image_downloader.is_product_image g = true.
Proof.
  unfold image_downloader.is_sized_product_image,
    image_downloader.is_product_image.
  intros H. repeat (apply andb_true_iff in H as [H ?]).
  repeat (apply andb_true_iff; split); assumption.
Qed.

Lemma first_sized_sound (matches : list str) url :
  image_downloader.first_sized matches = Some url ->
  exists g, In g matches /\ url = image_downloader.mm5 g
            /\ image_downloader.is_sized_product_image g = true.
Proof.
  induction matches as [|g matches IH]; cbn [image_downloader.first_sized];
    [discriminate|].
  destruct (image_downloader.is_sized_product_image g) eqn:E.
  - intros [= <-]. exists g. split; [left; reflexivity|auto].
  - intros H. apply IH in H as (g' & Hin & H). exists g'.
    split; [right; exact Hin|exact H].
Qed.

(** X19: an image URL that [extract_image_url_from_galaxy_html] returns is
    the prefix [https://www.pickleballgalaxy.com/mm5/] followed by a text
    that occurs in the page, has no double quote, starts with [graphics/],
    does not end with [blank.gif] and mentions no logo, header or banner
    in any letter case. *)
Theorem X19_galaxy_image_url (html_content url : str) :
  image_downloader.extract_image_url_from_galaxy_html html_content = Some url ->
  exists g a b,
    url = lit "https://www.pickleballgalaxy.com/mm5/" ++ g
    /\ html_content = a ++ g ++ b
    /\ ~ In 34 g
    /\ Py.startswith (lit "graphics/") g = true
    /\ Py.endswith g (lit "blank.gif") = false
    /\ Py.contains (lit "logo") (Py.lower g) = false
    /\ Py.contains (lit "header") (Py.lower g) = false
    /\ Py.contains (lit "banner") (Py.lower g) = false.
Proof.
  intros H.
  assert (K : exists g a b,
             url = image_downloader.mm5 g
             /\ image_downloader.is_product_image g = true
             /\ ~ In 34 g /\ html_content = a ++ g ++ b).
  { unfold image_downloader.extract_image_url_from_galaxy_html in H.
    destruct (image_downloader.try_pattern
                (image_downloader.img_id_re (lit "closeup_image"))
                html_content) as [u1|] eqn:E1.
    { injection H as <-.
      exact (try_pattern_sound _ _ _ (img_id_captures _) E1). }
    destruct (image_downloader.try_pattern
                (image_downloader.img_id_re (lit "main_image"))
                html_content) as [u2|] eqn:E2.
    { injection H as <-.
      exact (try_pattern_sound _ _ _ (img_id_captures _) E2). }
    destruct (image_downloader.try_pattern image_downloader.img_class_re
                html_content) as [u3|] eqn:E3.
    { injection H as <-.
      exact (try_pattern_sound _ _ _ img_class_captures E3). }
    apply first_sized_sound in H as (g & Hin & -> & Hg).
    unfold PyLib.findall in Hin.
    apply (findall_from_captures _ _ _ _ _ _ img_graphics_captures) in Hin
      as (a & b & Hm & Es).
    exists g, a, b. split; [reflexivity|].
    split; [apply sized_is_product, Hg|].
    split; [apply matched_graphics_unquoted, Hm|exact Es]. }
  destruct K as (g & a & b & -> & Hp & Hq & Es).
  exists g, a, b. unfold image_downloader.is_product_image in Hp.
  repeat (apply andb_true_iff in Hp as [Hp ?]).
  repeat match goal with
         | H : negb _ = true |- _ => apply negb_true_iff in H
         end.
  repeat split; assumption.
Qed.

Lemma X19_witness :
  exists g a b,
    lit "https://www.pickleballgalaxy.com/mm5/graphics/era_960x960.jpg"
    = lit "https://www.pickleballgalaxy.com/mm5/" ++ g
    /\ lit "<img id=" ++ [34] ++ lit "main_image" ++ [34] ++ lit " src="
       ++ [34] ++ lit "graphics/era_960x960.jpg" ++ [34] ++ lit ">"
       = a ++ g ++ b
    /\ ~ In 34 g
    /\ Py.startswith (lit "graphics/") g = true
    /\ Py.endswith g (lit "blank.gif") = false
    /\ Py.contains (lit "logo") (Py.lower g) = false
    /\ Py.contains (lit "header") (Py.lower g) = false
    /\ Py.contains (lit "banner") (Py.lower g) = false.
Proof.
  apply (X19_galaxy_image_url
           (lit "<img id=" ++ [34] ++ lit "main_image" ++ [34] ++ lit " src="
            ++ [34] ++ lit "graphics/era_960x960.jpg" ++ [34] ++ lit ">")
           (lit "https://www.pickleballgalaxy.com/mm5/graphics/era_960x960.jpg")).
  vm_compute. reflexivity.
Defined.

(** ** The loader of insert_paddles_fixed.py *)

Section Loader.

Import Obj.

Lemma op_bind_done {A B} (c : op A) (f : A -> op B) w b w' :
  (c ≫= f) w = (Done b, w') ->
  exists a w1, c w = (Done a, w1) /\ f a w1 = (Done b, w').
Proof.
  unfold mbind, op_bind. destruct (c w) as [[a|e] w1]; [eauto|discriminate].
Qed.

Lemma getitem_done v key w x w' :
  getitem v key w = (Done x, w') ->
  w' = w /\ exists d, dict_of (heap w) v = Some d /\ d !! key = Some x.
Proof.
  unfold getitem, dict_of. destruct v as [| | | | |l|]; try discriminate.
  destruct (heap w !! l) as [[d|]|]; try discriminate.
  destruct (d !! key) as [y|] eqn:E; [|discriminate].
  intros [= <- <-]. eauto.
Qed.

Lemma get_done v key w x w' :
  get v key w = (Done x, w') ->
  w' = w /\ exists d, dict_of (heap w) v = Some d
                      /\ x = default VNone (d !! key).
Proof.
  unfold get, dict_of. destruct v as [| | | | |l|]; try discriminate.
  destruct (heap w !! l) as [[d|]|]; try discriminate.
  intros [= <- <-]. eauto.
Qed.

Lemma dict_of_loc h v d :
  dict_of h v = Some d -> exists l, v = VDict l /\ h !! l = Some (ODict d).
Proof.
  unfold dict_of. destruct v as [| | | | |l|]; try discriminate.
  destruct (h !! l) as [[d'|]|] eqn:E; try discriminate. intros [= <-]. eauto.
Qed.

Lemma getitem_ok v key w d x :
  dict_of (heap w) v = Some d -> d !! key = Some x ->
  getitem v key w = (Done x, w).
Proof.
  intros Hd Hk. apply dict_of_loc in Hd as (l & -> & Hl).
  unfold getitem. rewrite Hl, Hk. reflexivity.
Qed.

Lemma get_ok v key w d :
  dict_of (heap w) v = Some d ->
  get v key w = (Done (default VNone (d !! key)), w).
Proof.
  intros Hd. apply dict_of_loc in Hd as (l & -> & Hl).
  unfold get. rewrite Hl. reflexivity.
Qed.

Lemma setitem_ok l key x w d :
  heap w !! l = Some (ODict d) ->
  setitem (VDict l) key x w
  = (Done tt, World (<[ l := ODict (<[ key := x ]> d) ]> (heap w)) (next w)
                    (posts w)).
Proof. intros Hl. unfold setitem. rewrite Hl. reflexivity. Qed.

Lemma world_eta w : World (heap w) (next w) (posts w) = w.
Proof. destruct w. reflexivity. Qed.

(** One [if] statement of [fix_paddle_data]. *)
Lemma fix_null_run l d ls d0 key x w :
  heap w !! l = Some (ODict d) -> d !! lit "specs" = Some (VDict ls) ->
  heap w !! ls = Some (ODict d0) -> key <> lit "specs" ->
  let d1 := if is_none (default VNone (d0 !! key))
            then <[ key := x ]> d0 else d0 in
  exists d',
    insert_paddles_fixed.fix_null (VDict l) key x w
    = (Done tt, World (<[ ls := ODict d1 ]> (heap w)) (next w) (posts w))
    /\ (<[ ls := ODict d1 ]> (heap w)) !! l = Some (ODict d')
    /\ d' !! lit "specs" = Some (VDict ls)
    /\ (forall k, k <> key -> d' !! k = d !! k).
Proof.
  intros Hl Hs Hls Hk d1.
  assert (G : getitem (VDict l) (lit "specs") w = (Done (VDict ls), w)).
  { apply (getitem_ok _ _ _ d); [cbn; rewrite Hl; reflexivity|exact Hs]. }
  assert (Hd' : exists d',
             (<[ ls := ODict d1 ]> (heap w)) !! l = Some (ODict d')
             /\ d' !! lit "specs" = Some (VDict ls)
             /\ (forall k, k <> key -> d' !! k = d !! k)).
  { destruct (decide (l = ls)) as [->|Hne].
    - rewrite Hl in Hls. injection Hls as ->. exists d1.
      rewrite lookup_insert_eq. split; [reflexivity|]. subst d1.
      destruct (is_none _); [|auto]. split.
      + rewrite lookup_insert_ne by congruence. exact Hs.
      + intros k Hne. apply lookup_insert_ne. congruence.
    - exists d. rewrite lookup_insert_ne by congruence. auto. }
  destruct Hd' as (d' & H1 & H2 & H3). exists d'. split; [|auto].
  unfold insert_paddles_fixed.fix_null.
  unfold mbind at 1, op_bind. rewrite G.
  unfold mbind at 1, op_bind.
  rewrite (get_ok (VDict ls) key w d0) by (cbn; rewrite Hls; reflexivity).
  subst d1. destruct (is_none (default VNone (d0 !! key))).
  - unfold mbind, op_bind. rewrite G. apply setitem_ok, Hls.
  - unfold mret, op_ret. rewrite insert_id by exact Hls.
    rewrite world_eta. reflexivity.
Qed.

(** A run of the statement that does not raise starts from a record with a
    dictionary of specifications. *)
Lemma fix_null_done paddle_data key x w w' :
  insert_paddles_fixed.fix_null paddle_data key x w = (Done tt, w') ->
  exists l d ls d0,
    paddle_data = VDict l /\ heap w !! l = Some (ODict d)
    /\ d !! lit "specs" = Some (VDict ls) /\ heap w !! ls = Some (ODict d0).
Proof.
  unfold insert_paddles_fixed.fix_null. intros H.
  apply op_bind_done in H as (sv & w1 & G & H).
  apply getitem_done in G as (-> & d & Hd & Hs).
  apply dict_of_loc in Hd as (l & -> & Hl).
  apply op_bind_done in H as (v & w1 & G & _).
  apply get_done in G as (_ & d0 & Hd0 & _).
  apply dict_of_loc in Hd0 as (ls & -> & Hls).
  exists l, d, ls, d0. auto.
Qed.

(** [fix_paddle_data] on a record with a dictionary of specifications. *)
Lemma fix_forward l d ls d0 w :
  heap w !! l = Some (ODict d) -> d !! lit "specs" = Some (VDict ls) ->
  heap w !! ls = Some (ODict d0) ->
  exists d',
    insert_paddles_fixed.fix_paddle_data (VDict l) w
    = (Done (VDict l),
       World (<[ ls := ODict (fixed_specs d0) ]> (heap w)) (next w) (posts w))
    /\ (<[ ls := ODict (fixed_specs d0) ]> (heap w)) !! l = Some (ODict d')
    /\ d' !! lit "specs" = Some (VDict ls)
    /\ (forall key, key <> lit "average_weight" -> key <> lit "core" ->
                    d' !! key = d !! key).
Proof.
  intros Hl Hs Hls. unfold insert_paddles_fixed.fix_paddle_data.
  destruct (fix_null_run l d ls d0 (lit "average_weight")
              (VFloat (Float.flt "8.0")) w Hl Hs Hls)
    as (d1' & R1 & Hl1 & Hs1 & Hk1); [discriminate|].
  set (d1 := if is_none (default VNone (d0 !! lit "average_weight"))
             then <[ lit "average_weight" := VFloat (Float.flt "8.0") ]> d0
             else d0) in *.
  destruct (fix_null_run l d1' ls d1 (lit "core")
              (VFloat (Float.flt "16.0"))
              (World (<[ ls := ODict d1 ]> (heap w)) (next w) (posts w))
              Hl1 Hs1) as (d2' & R2 & Hl2 & Hs2 & Hk2);
    [apply lookup_insert_eq|discriminate|].
  cbn [heap next posts] in *. rewrite insert_insert_eq in R2, Hl2.
  exists d2'. split; [|split; [exact Hl2|split; [exact Hs2|]]].
  - unfold mbind at 1, op_bind. rewrite R1.
    unfold mbind at 1, op_bind. rewrite R2. reflexivity.
  - intros key Ha Hc. rewrite Hk2, Hk1 by assumption. reflexivity.
Qed.

(** What a run of [fix_paddle_data] that does not raise has done. *)
Lemma fix_run paddle_data w r w' :
  insert_paddles_fixed.fix_paddle_data paddle_data w = (Done r, w') ->
  r = paddle_data
  /\ exists l d ls d0 d',
       paddle_data = VDict l
       /\ heap w !! l = Some (ODict d)
       /\ d !! lit "specs" = Some (VDict ls)
       /\ heap w !! ls = Some (ODict d0)
       /\ w' = World (<[ ls := ODict (fixed_specs d0) ]> (heap w)) (next w)
                     (posts w)
       /\ heap w' !! l = Some (ODict d')
       /\ d' !! lit "specs" = Some (VDict ls)
       /\ (forall key, key <> lit "average_weight" -> key <> lit "core" ->
                       d' !! key = d !! key).
Proof.
  intros H. assert (H0 := H).
  unfold insert_paddles_fixed.fix_paddle_data in H0.
  apply op_bind_done in H0 as ([] & w1 & H1 & _).
  destruct (fix_null_done _ _ _ _ _ H1) as (l & d & ls & d0 & -> & Hl & Hs & Hls).
  destruct (fix_forward l d ls d0 w Hl Hs Hls) as (d' & R & Hl' & Hs' & Hk).
  rewrite R in H. injection H as <- <-. split; [reflexivity|].
  exists l, d, ls, d0, d'. repeat split; assumption.
Qed.

Lemma fixed_specs_other (d : gmap (list N) value) key :
  key <> lit "average_weight" -> key <> lit "core" ->
  fixed_specs d !! key = d !! key.
Proof.
  intros Ha Hc. unfold fixed_specs. cbv zeta.
  destruct (is_none (default VNone (d !! lit "average_weight")));
    destruct (is_none _);
    rewrite ?lookup_insert_ne by congruence; reflexivity.
Qed.

Lemma default_set (d : gmap (list N) value) key x :
  is_none x = false ->
  has_value (if is_none (default VNone (d !! key)) then <[ key := x ]> d
             else d) key.
Proof.
  intros Hx. destruct (d !! key) as [v|] eqn:E; cbn.
  - destruct (is_none v) eqn:Ev.
    + exists x. rewrite lookup_insert_eq. auto.
    + exists v. auto.
  - exists x. rewrite lookup_insert_eq. auto.
Qed.

Lemma fixed_specs_values (d : gmap (list N) value) :
  has_value (fixed_specs d) (lit "average_weight")
  /\ has_value (fixed_specs d) (lit "core").
Proof.
  unfold fixed_specs. cbv zeta.
  set (d1 := if is_none (default VNone (d !! lit "average_weight"))
             then <[ lit "average_weight" := VFloat (Float.flt "8.0") ]> d
             else d).
  pose proof (default_set d (lit "average_weight")
                (VFloat (Float.flt "8.0")) eq_refl) as H1. fold d1 in H1.
  split; [|apply default_set; reflexivity].
  destruct (is_none (default VNone (d1 !! lit "core"))); [|exact H1].
  destruct H1 as (x & Hx & Hn). exists x.
  rewrite lookup_insert_ne by discriminate. auto.
Qed.



Lemma default_id (d : gmap (list N) value) key x :
  has_value d key ->
  (if is_none (default VNone (d !! key)) then <[ key := x ]> d else d) = d.
Proof.
  intros (v & Hv & Hn). rewrite Hv. cbn. rewrite Hn. reflexivity.
Qed.

Lemma fixed_specs_idem (d : gmap (list N) value) :
  fixed_specs (fixed_specs d) = fixed_specs d.
Proof.
  destruct (fixed_specs_values d) as [H1 H2].
  unfold fixed_specs at 1. cbv zeta.
  rewrite (default_id _ _ _ H1). apply default_id, H2.
Qed.

(** What a run of [transform_paddle_data] that does not raise has done:
    the record, its specifications, its metadata and what it builds. *)
Lemma transform_run paddle_data w out w' :
  fresh_from w ->
  insert_paddles_fixed.transform_paddle_data paddle_data w = (Done out, w') ->
  exists l d ls d0 mv md brand model performance,
    paddle_data = VDict l
    /\ heap w !! l = Some (ODict d)
    /\ d !! lit "specs" = Some (VDict ls)
    /\ heap w !! ls = Some (ODict d0)
    /\ d !! lit "metadata" = Some mv
    /\ dict_of (heap w) mv = Some md
    /\ md !! lit "brand" = Some brand
    /\ md !! lit "model" = Some model
    /\ d !! lit "performance" = Some performance
    /\ out = VDict (Pos.succ (next w))
    /\ w' = World
              (<[ Pos.succ (next w) :=
                    ODict (<[ lit "performance" := performance ]>
                             (<[ lit "specs" := VDict ls ]>
                                {[ lit "metadata" := VDict (next w) ]})) ]>
                 (<[ next w :=
                       ODict (<[ lit "model" := model ]>
                                {[ lit "brand" := brand ]}) ]>
                    (<[ ls := ODict (fixed_specs d0) ]> (heap w))))
              (Pos.succ (Pos.succ (next w))) (posts w).
Proof.
  intros Hf H. unfold insert_paddles_fixed.transform_paddle_data in H.
  apply op_bind_done in H as (pd & w1 & Hfix & H).
  apply fix_run in Hfix
    as (-> & l & d & ls & d0 & d' & -> & Hl & Hs & Hls & -> & Hl' & Hs' & Hk).
  cbn [heap] in Hl'.
  set (h1 := <[ ls := ODict (fixed_specs d0) ]> (heap w)) in *.
  set (w1 := World h1 (next w) (posts w)) in *.
  assert (Hln : l <> next w).
  { intros ->. rewrite Hf in Hl by reflexivity. discriminate. }
  assert (Hlsn : ls <> next w).
  { intros ->. rewrite Hf in Hls by reflexivity. discriminate. }
  apply op_bind_done in H as (mv & w2 & G & H).
  apply getitem_done in G as (-> & dd & Hdd & Hm).
  cbn in Hdd. rewrite Hl' in Hdd. injection Hdd as <-.
  apply op_bind_done in H as (brand & w2 & G & H).
  apply getitem_done in G as (-> & md & Hmd & Hb).
  apply op_bind_done in H as (mv2 & w2 & G & H).
  apply getitem_done in G as (-> & dd & Hdd & Hm2).
  cbn in Hdd. rewrite Hl' in Hdd. injection Hdd as <-.
  rewrite Hm in Hm2. injection Hm2 as <-.
  apply op_bind_done in H as (model & w2 & G & H).
  apply getitem_done in G as (-> & md2 & Hmd2 & Hmo).
  rewrite Hmd in Hmd2. injection Hmd2 as <-.
  apply op_bind_done in H as (meta & w2 & G & H).
  unfold new_dict in G. injection G as <- <-.
  apply op_bind_done in H as (sv & w3 & G & H).
  apply getitem_done in G as (-> & dd & Hdd & Hs2).
  cbn in Hdd. rewrite lookup_insert_ne in Hdd by congruence.
  fold h1 in Hdd. rewrite Hl' in Hdd. injection Hdd as <-.
  rewrite Hs' in Hs2. injection Hs2 as <-.
  apply op_bind_done in H as (performance & w3 & G & H).
  apply getitem_done in G as (-> & dd & Hdd & Hp).
  cbn in Hdd. rewrite lookup_insert_ne in Hdd by congruence.
  fold h1 in Hdd. rewrite Hl' in Hdd. injection Hdd as <-.
  unfold new_dict in H. cbn [heap next posts] in H. injection H as <- <-.
  (* the metadata as the original heap has it *)
  assert (Hmd0 : exists md0,
             dict_of (heap w) mv = Some md0
             /\ md0 !! lit "brand" = Some brand
             /\ md0 !! lit "model" = Some model).
  { apply dict_of_loc in Hmd as (lm & -> & Hlm). cbn [heap w1] in Hlm.
    subst h1. destruct (decide (lm = ls)) as [->|Hne].
    - rewrite lookup_insert_eq in Hlm. injection Hlm as <-.
      exists d0. cbn. rewrite Hls.
      rewrite fixed_specs_other in Hb, Hmo by discriminate. auto.
    - rewrite lookup_insert_ne in Hlm by congruence.
      exists md. cbn. rewrite Hlm. auto. }
  destruct Hmd0 as (md0 & Hmd0 & Hb0 & Hmo0).
  exists l, d, ls, d0, mv, md0, brand, model, performance.
  rewrite <- (Hk (lit "metadata")) by discriminate.
  rewrite <- (Hk (lit "performance")) by discriminate.
  repeat split; assumption || reflexivity.
Qed.

(** The payload and its metadata in the heap after the run. *)
Lemma payload_shape paddle_data w out w' :
  fresh_from w ->
  insert_paddles_fixed.transform_paddle_data paddle_data w = (Done out, w') ->
  exists meta brand model d,
    dict_of (heap w') out = Some d
    /\ d !! lit "metadata" = Some meta
    /\ dict_of (heap w') meta
       = Some (<[ lit "model" := model ]> {[ lit "brand" := brand ]}).
Proof.
  intros Hf H.
  destruct (transform_run _ _ _ _ Hf H)
    as (l & d & ls & d0 & mv & md & brand & model & performance
        & -> & Hl & Hs & Hls & Hm & Hmd & Hb & Hmo & Hp & -> & ->).
  exists (VDict (next w)), brand, model.
  eexists. cbn [dict_of heap]. rewrite lookup_insert_eq.
  split; [reflexivity|]. split.
  - rewrite !lookup_insert_ne by discriminate. apply lookup_singleton_eq.
  - rewrite (lookup_insert_ne _ (Pos.succ (next w)) (next w)) by lia.
    rewrite lookup_insert_eq. reflexivity.
Qed.



(** X21: [fix_paddle_data] returns the record it was given and works in
    place: the only object it changes is the dictionary of the
    specifications of the record, so that the loaded record itself has the
    defaults afterwards.  It allocates and posts nothing, and a second run
    changes nothing. *)
Theorem X21_fix_in_place (paddle_data r : value) (w w' : world) :
  insert_paddles_fixed.fix_paddle_data paddle_data w = (Done r, w') ->
  r = paddle_data
  /\ next w' = next w /\ posts w' = posts w
  /\ (exists d d' ls sd0,
         dict_of (heap w) paddle_data = Some d
         /\ d !! lit "specs" = Some (VDict ls)
         /\ heap w !! ls = Some (ODict sd0)
         /\ heap w' !! ls = Some (ODict (fixed_specs sd0))
         /\ (forall l, l <> ls -> heap w' !! l = heap w !! l)
         /\ dict_of (heap w') paddle_data = Some d'
         /\ d' !! lit "specs" = Some (VDict ls))
  /\ insert_paddles_fixed.fix_paddle_data paddle_data w'
     = (Done paddle_data, w').
Proof.
  intros H.
  apply fix_run in H
    as (-> & l & d & ls & d0 & d' & -> & Hl & Hs & Hls & -> & Hl' & Hs' & Hk).
  cbn [heap next posts] in *.
  split; [reflexivity|]. split; [reflexivity|]. split; [reflexivity|]. split.
  - exists d, d', ls, d0. cbn [dict_of]. rewrite Hl, Hl', lookup_insert_eq.
    repeat split; try assumption || reflexivity.
    intros l0 Hne. apply lookup_insert_ne. congruence.
  - destruct (fix_forward l d' ls (fixed_specs d0)
                (World (<[ ls := ODict (fixed_specs d0) ]> (heap w)) (next w)
                       (posts w)) Hl' Hs')
      as (d'' & R & _); [apply lookup_insert_eq|].
    rewrite R. cbn [heap next posts].
    rewrite fixed_specs_idem, insert_insert_eq. reflexivity.
Qed.

Lemma X21_witness :
  let w :=
    World (<[ 1%positive := ODict {[ lit "specs" := VDict 2 ]} ]>
             {[ 2%positive := ODict {[ lit "core" := VNone ]} ]}) 3 [] in
  VDict 1 = VDict 1
  /\ next (snd (insert_paddles_fixed.fix_paddle_data (VDict 1) w)) = next w
  /\ posts (snd (insert_paddles_fixed.fix_paddle_data (VDict 1) w)) = posts w
  /\ (exists d d' ls sd0,
         dict_of (heap w) (VDict 1) = Some d
         /\ d !! lit "specs" = Some (VDict ls)
         /\ heap w !! ls = Some (ODict sd0)
         /\ heap (snd (insert_paddles_fixed.fix_paddle_data (VDict 1) w)) !! ls
            = Some (ODict (fixed_specs sd0))
         /\ (forall l, l <> ls ->
                heap (snd (insert_paddles_fixed.fix_paddle_data (VDict 1) w))
                  !! l = heap w !! l)
         /\ dict_of
              (heap (snd (insert_paddles_fixed.fix_paddle_data (VDict 1) w)))
              (VDict 1) = Some d'
         /\ d' !! lit "specs" = Some (VDict ls))
  /\ insert_paddles_fixed.fix_paddle_data (VDict 1)
       (snd (insert_paddles_fixed.fix_paddle_data (VDict 1) w))
     = (Done (VDict 1),
        snd (insert_paddles_fixed.fix_paddle_data (VDict 1) w)).
Proof.
  intros w.
  apply (X21_fix_in_place (VDict 1) (VDict 1) w
           (snd (insert_paddles_fixed.fix_paddle_data (VDict 1) w))).
  vm_compute. reflexivity.
Defined.

End Loader.

(** ** The loop of the loader *)

Section Inserting.

Import Obj.

Variable respond : gmap positive object -> value -> option Z.

Lemma new_dict_done d w v w' :
  new_dict d w = (Done v, w') -> posts w' = posts w.
Proof. unfold new_dict. intros [= _ <-]. reflexivity. Qed.

Lemma transform_posts paddle_data w out w' :
  insert_paddles_fixed.transform_paddle_data paddle_data w = (Done out, w') ->
  posts w' = posts w.
Proof.
  unfold insert_paddles_fixed.transform_paddle_data. intros H.
  apply op_bind_done in H as (pd & w1 & Hfix & H).
  apply fix_run in Hfix as (_ & l & d & ls & d0 & d' & _ & _ & _ & _ & -> & _).
  apply op_bind_done in H as (x1 & w2 & G & H).
  apply getitem_done in G as (-> & _).
  apply op_bind_done in H as (x2 & w2 & G & H).
  apply getitem_done in G as (-> & _).
  apply op_bind_done in H as (x3 & w2 & G & H).
  apply getitem_done in G as (-> & _).
  apply op_bind_done in H as (x4 & w2 & G & H).
  apply getitem_done in G as (-> & _).
  apply op_bind_done in H as (x5 & w2 & G & H).
  apply new_dict_done in G.
  apply op_bind_done in H as (x6 & w3 & G1 & H).
  apply getitem_done in G1 as (-> & _).
  apply op_bind_done in H as (x7 & w3 & G1 & H).
  apply getitem_done in G1 as (-> & _).
  apply new_dict_done in H. rewrite H, G. reflexivity.
Qed.

Lemma log_paddle_done v w w' :
  insert_paddles_fixed.log_paddle v w = (Done tt, w') -> w' = w.
Proof.
  unfold insert_paddles_fixed.log_paddle. intros H.
  apply op_bind_done in H as (x1 & w1 & G & H).
  apply getitem_done in G as (-> & _).
  apply op_bind_done in H as (x2 & w1 & G & H).
  apply getitem_done in G as (-> & _).
  apply op_bind_done in H as (x3 & w1 & G & H).
  apply getitem_done in G as (-> & _).
  apply op_bind_done in H as (x4 & w1 & G & H).
  apply getitem_done in G as (-> & _).
  injection H as <-. reflexivity.
Qed.

(** A run of [insert_paddle] that does not raise has posted the payload
    once; it reports success exactly for the status codes 201 and 409. *)
Lemma insert_paddle_done v w ok w' :
  insert_paddles_fixed.insert_paddle respond v w = (Done ok, w') ->
  w' = World (heap w) (next w) (v :: posts w)
  /\ ok = match respond (heap w) v with
          | Some status_code =>
              (status_code =? 201)%Z || (status_code =? 409)%Z
          | None => false
          end.
Proof.
  unfold insert_paddles_fixed.insert_paddle. intros H.
  apply op_bind_done in H as (response & w1 & G & H).
  unfold insert_paddles_fixed.post in G. injection G as <- <-.
  destruct (respond (heap w) v) as [status_code|].
  - destruct (status_code =? 201)%Z.
    + apply op_bind_done in H as ([] & w2 & G & H).
      apply log_paddle_done in G as ->. injection H as <- <-. auto.
    + destruct (status_code =? 409)%Z;
        apply op_bind_done in H as ([] & w2 & G & H);
        apply log_paddle_done in G as ->; injection H as <- <-; auto.
  - apply op_bind_done in H as ([] & w2 & G & H).
    apply log_paddle_done in G as ->. injection H as <- <-. auto.
Qed.

Lemma modulo_done a b w m w' :
  modulo a b w = (Done m, w') -> w' = w /\ b <> 0%Z.
Proof.
  unfold modulo. destruct (Z.eqb_spec b 0); [discriminate|].
  intros [= _ <-]. auto.
Qed.

(** The counters of the loop. *)
Lemma insert_loop_done (paddles : list value) (batch_size : Z) :
  forall i s f w s' f' w',
    insert_paddles_fixed.insert_loop respond paddles batch_size i s f w
    = (Done (s', f'), w') ->
    (s' + f' = s + f + length paddles)%nat
    /\ (s <= s')%nat /\ (f <= f')%nat
    /\ length (posts w') = (length (posts w) + length paddles)%nat
    /\ (paddles <> [] -> batch_size <> 0%Z)
    /\ ((forall h v, respond h v = Some 201%Z \/ respond h v = Some 409%Z) ->
        f' = f)
    /\ ((forall h v, respond h v <> Some 201%Z /\ respond h v <> Some 409%Z) ->
        s' = s).
Proof.
  induction paddles as [|p paddles IH]; intros i s f w s' f' w';
    cbn [insert_paddles_fixed.insert_loop].
  - intros [= <- <- <-]. cbn [length]. repeat split; try lia. congruence.
  - intros H.
    apply op_bind_done in H as (t & w1 & Ht & H).
    apply transform_posts in Ht.
    apply op_bind_done in H as (ok & w2 & Hi & H).
    apply insert_paddle_done in Hi as (-> & Hok).
    cbv zeta in H.
    apply op_bind_done in H as (m & w3 & Hm & H).
    apply modulo_done in Hm as (-> & Hb).
    apply IH in H as (H1 & H2 & H3 & H4 & _ & H6 & H7).
    cbn [posts length] in H4. rewrite Ht in H4. cbn [length].
    split; [destruct ok; lia|]. split; [destruct ok; lia|].
    split; [destruct ok; lia|]. split; [lia|]. split; [auto|]. split.
    + intros Hr. rewrite (H6 Hr).
      destruct (Hr (heap w1) t) as [E|E]; rewrite E in Hok; subst ok;
        reflexivity.
    + intros Hr. rewrite (H7 Hr). destruct (Hr (heap w1) t) as [E1 E2].
      destruct (respond (heap w1) t) as [c|]; [|subst ok; reflexivity].
      destruct (c =? 201)%Z eqn:A.
      { apply Z.eqb_eq in A. subst c. exfalso. apply E1. reflexivity. }
      destruct (c =? 409)%Z eqn:B.
      { apply Z.eqb_eq in B. subst c. exfalso. apply E2. reflexivity. }
      subst ok. reflexivity.
Qed.

(** X22: when [insert_paddles] ends without an exception, it has posted
    one payload for each record of the list, and the two counts it logs
    add up to the number of records; the batch size was not zero.  A
    response with the status 201 or 409 counts as a success, any other
    outcome as a failure: if the server only answers 201 or 409 nothing
    fails, and if it never does nothing succeeds.  On an empty list nothing
    is done at all. *)
Theorem X22_insert_counts (paddles : list value) (batch_size : Z)
  (w w' : world) (r : option (nat * nat)) :
  insert_paddles_fixed.insert_paddles respond paddles batch_size w
  = (Done r, w') ->
  match r with
  | None => paddles = [] /\ w' = w
  | Some (successful_inserts, failed_inserts) =>
      paddles <> []
      /\ (successful_inserts + failed_inserts = length paddles)%nat
      /\ length (posts w') = (length (posts w) + length paddles)%nat
      /\ batch_size <> 0%Z
      /\ ((forall h v,
              respond h v = Some 201%Z \/ respond h v = Some 409%Z) ->
          failed_inserts = 0%nat)
      /\ ((forall h v,
              respond h v <> Some 201%Z /\ respond h v <> Some 409%Z) ->
          successful_inserts = 0%nat)
  end.
Proof.
  unfold insert_paddles_fixed.insert_paddles.
  destruct paddles as [|p paddles].
  - intros [= <- <-]. auto.
  - intros H. apply op_bind_done in H as ([s f] & w1 & Hl & H).
    injection H as <- <-.
    apply insert_loop_done in Hl as (H1 & _ & _ & H4 & H5 & H6 & H7).
    split; [discriminate|]. split; [lia|]. split; [exact H4|].
    split; [apply H5; discriminate|]. auto.
Qed.

(** The log messages of [insert_paddle] can always show the brand and the
    model of a payload of [transform_paddle_data]. *)
Lemma log_payload paddle_data w out w1 ps :
  fresh_from w ->
  insert_paddles_fixed.transform_paddle_data paddle_data w = (Done out, w1) ->
  insert_paddles_fixed.log_paddle out (World (heap w1) (next w1) ps)
  = (Done tt, World (heap w1) (next w1) ps).
Proof.
  intros Hf H.
  destruct (payload_shape _ _ _ _ Hf H) as (meta & brand & model & d & Hd & Hm & Hmd).
  set (W := World (heap w1) (next w1) ps).
  assert (Ho : getitem out (lit "metadata") W = (Done meta, W))
    by (apply (getitem_ok out (lit "metadata") W d meta); assumption).
  assert (Hb : getitem meta (lit "brand") W = (Done brand, W)).
  { apply (getitem_ok meta (lit "brand") W _ brand Hmd).
    rewrite lookup_insert_ne by discriminate. apply lookup_singleton_eq. }
  assert (Hmo : getitem meta (lit "model") W = (Done model, W)).
  { apply (getitem_ok meta (lit "model") W _ model Hmd).
    apply lookup_insert_eq. }
  unfold insert_paddles_fixed.log_paddle.
  unfold mbind at 1, op_bind. rewrite Ho.
  unfold mbind at 1, op_bind. rewrite Hb.
  unfold mbind at 1, op_bind. rewrite Ho.
  unfold mbind at 1, op_bind. rewrite Hmo.
  reflexivity.
Qed.

(** X23: with a batch size of zero the loop does not get past its first
    record: once the record is transformed and its payload posted, the
    test of the progress message divides by zero.  The run ends with a
    [ZeroDivisionError] after exactly one POST, and no other record is
    sent. *)
Theorem X23_zero_batch_size (p : value) (rest : list value) (w w1 : world)
  (out : value) :
  fresh_from w ->
  insert_paddles_fixed.transform_paddle_data p w = (Done out, w1) ->
  insert_paddles_fixed.insert_paddles respond (p :: rest) 0 w
  = (Throw ZeroDivisionError, World (heap w1) (next w1) (out :: posts w)).
Proof.
  intros Hf H. pose proof (transform_posts _ _ _ _ H) as Hp.
  unfold insert_paddles_fixed.insert_paddles.
  unfold mbind, op_bind. cbn [insert_paddles_fixed.insert_loop].
  unfold mbind at 1, op_bind. rewrite H.
  unfold mbind at 1, op_bind.
  unfold insert_paddles_fixed.insert_paddle at 1.
  unfold mbind at 1, op_bind. unfold insert_paddles_fixed.post at 1.
  rewrite Hp.
  assert (L := log_payload p w out w1 (out :: posts w) Hf H).
  destruct (respond (heap w1) out) as [status_code|].
  - destruct (status_code =? 201)%Z.
    + unfold mbind at 1, op_bind. rewrite L. reflexivity.
    + destruct (status_code =? 409)%Z;
        unfold mbind at 1, op_bind; rewrite L; reflexivity.
  - unfold mbind at 1, op_bind. rewrite L. reflexivity.
Qed.

End Inserting.

Lemma X22_witness :
  let w :=
    Obj.World
      (<[ 1%positive :=
            Obj.ODict (<[ lit "performance" := Obj.VNone ]>
                         (<[ lit "specs" := Obj.VDict 2 ]>
                            {[ lit "metadata" := Obj.VDict 3 ]})) ]>
         (<[ 2%positive := Obj.ODict {[ lit "core" := Obj.VNone ]} ]>
            {[ 3%positive :=
                 Obj.ODict (<[ lit "model" := Obj.VStr (lit "Era") ]>
                              {[ lit "brand" := Obj.VStr (lit "Selkirk") ]}) ]}))
      4 [] in
  let respond := fun (_ : gmap positive Obj.object) (_ : Obj.value) =>
                   Some 409%Z in
  let w' :=
    snd (insert_paddles_fixed.insert_paddles respond [Obj.VDict 1] 10 w) in
  [Obj.VDict 1] <> []
  /\ (1 + 0 = length [Obj.VDict 1])%nat
  /\ length (Obj.posts w') = (length (Obj.posts w) + length [Obj.VDict 1])%nat
  /\ 10%Z <> 0%Z
  /\ ((forall h v, respond h v = Some 201%Z \/ respond h v = Some 409%Z) ->
      0%nat = 0%nat)
  /\ ((forall h v, respond h v <> Some 201%Z /\ respond h v <> Some 409%Z) ->
      1%nat = 0%nat).
Proof.
  intros w respond w'.
  apply (X22_insert_counts respond [Obj.VDict 1] 10 w w' (Some (1%nat, 0%nat))).
  vm_compute. reflexivity.
Defined.

Lemma X23_witness :
  let w :=
    Obj.World
      (<[ 1%positive :=
            Obj.ODict (<[ lit "performance" := Obj.VNone ]>
                         (<[ lit "specs" := Obj.VDict 2 ]>
                            {[ lit "metadata" := Obj.VDict 3 ]})) ]>
         (<[ 2%positive := Obj.ODict {[ lit "core" := Obj.VNone ]} ]>
            {[ 3%positive :=
                 Obj.ODict (<[ lit "model" := Obj.VStr (lit "Era") ]>
                              {[ lit "brand" := Obj.VStr (lit "Selkirk") ]}) ]}))
      4 [] in
  let w1 := snd (insert_paddles_fixed.transform_paddle_data (Obj.VDict 1) w) in
  insert_paddles_fixed.insert_paddles (fun _ _ => Some 201%Z)
    [Obj.VDict 1; Obj.VDict 1] 0 w
  = (Obj.Throw Obj.ZeroDivisionError,
     Obj.World (Obj.heap w1) (Obj.next w1) (Obj.VDict 5 :: Obj.posts w)).
Proof.
  intros w w1.
  apply (X23_zero_batch_size (fun _ _ => Some 201%Z) (Obj.VDict 1)
           [Obj.VDict 1] w w1 (Obj.VDict 5)).
  - intros l Hl. cbn [Obj.next Obj.heap w] in *.
    rewrite !lookup_insert_ne by lia. apply lookup_singleton_ne. lia.
  - vm_compute. reflexivity.
Defined.

(** ** The model name of a Galaxy page *)

Lemma clean_no_group (x : str) :
  no_paren_group (data_models.clean_model_name x) = true.
Proof.
  destruct x as [|x0 x']; [reflexivity|].
  rewrite clean_model_name_cons. unfold data_models.squeeze.
  change (lit " ") with [32]. rewrite sub_plus_collapse.
  eapply no_paren_group_sublist; [apply strip_sublist|].
  rewrite collapse_no_group.
  eapply no_paren_group_sublist; [apply remove_descriptors_sublist|].
  eapply no_paren_group_sublist; [apply strip_sublist|].
  apply (sub_paren_no_group _ 0 None).
Qed.

Lemma clean_chars (x : str) (c : N) :
  In c (data_models.clean_model_name x) -> In c x \/ c = 32.
Proof.
  destruct x as [|x0 x']; [tauto|].
  rewrite clean_model_name_cons. intros Hc.
  apply squeeze_chars in Hc as [Hc|Hc]; [|auto].
  apply remove_descriptors_chars, paren_step_chars in Hc as [Hc|Hc];
    [|auto].
  apply strip_suffixes_chars, sub_chars in Hc as [Hc|[]].
  apply sub_chars in Hc as [Hc|[]]. auto.
Qed.

Lemma sub_caret_chars r (s : str) (c : N) :
  In c (PyLib.sub_caret r [] s) -> In c s.
Proof.
  unfold PyLib.sub_caret.
  destruct (Re.match_at r None s) as [[len g]|]; [|tauto].
  cbn [app]. intros H. rewrite <- (firstn_skipn len s).
  apply in_or_app. right. exact H.
Qed.

Lemma strip_sub_fold_chars (mk : str -> Re.regex) (l : list str) :
  forall (m : str) (c : N),
    In c (List.fold_left (fun model x => Py.strip (Re.sub (mk x) [] model))
                         l m) ->
    In c m.
Proof.
  induction l as [|x l IH]; intros m c H; [exact H|].
  cbn [List.fold_left] in H. apply IH in H.
  apply strip_chars, sub_chars in H as [H|[]]. exact H.
Qed.

(** X26: the model name of a Galaxy record is never empty.  It is in the
    normal form of the cleaner (single spaces between other characters,
    no pipe character, no parenthetical), and it is either the
    placeholder [Unknown Model] or made of characters of the title and
    spaces: the scraper invents no text. *)
Theorem X26_galaxy_model_name (brand title_text : str) :
  PickleballGalaxyScraper.resolve_model brand title_text <> []
  /\ squeezed (PickleballGalaxyScraper.resolve_model brand title_text) = true
  /\ pipe_free (PickleballGalaxyScraper.resolve_model brand title_text)
  /\ no_paren_group (PickleballGalaxyScraper.resolve_model brand title_text)
     = true
  /\ (PickleballGalaxyScraper.resolve_model brand title_text
      = lit "Unknown Model"
      \/ forall c,
           In c (PickleballGalaxyScraper.resolve_model brand title_text) ->
           In c title_text \/ c = 32).
Proof.
  unfold PickleballGalaxyScraper.resolve_model.
  set (m0 := if negb (Py.eqb brand (lit "Unknown")) then _ else title_text).
  set (m1 := List.fold_left _ PickleballGalaxyScraper.common_suffixes m0).
  set (m2 := data_models.squeeze
               (Py.strip (Re.sub data_models.paren_re (lit " ") m1))).
  set (m3 := List.fold_left _ PickleballGalaxyScraper.source_names m2).
  destruct (clean_output m3) as [Hs Hp].
  rewrite (squeeze_id _ Hs).
  assert (Hg := clean_no_group m3).
  assert (Hc := clean_chars m3).
  destruct (data_models.clean_model_name m3) as [|c0 m].
  - cbn [Py.truthy negb].
    split; [discriminate|]. split; [reflexivity|].
    split; [repeat constructor|]. split; [reflexivity|]. left. reflexivity.
  - cbn [Py.truthy negb].
    split; [discriminate|]. split; [exact Hs|].
    split; [exact Hp|]. split; [exact Hg|].
    right. intros c Hin.
    apply Hc in Hin as [Hc'|Hc']; [|auto]. clear Hc. rename Hc' into Hc.
    apply (strip_sub_fold_chars data_models.descriptor_re) in Hc.
    apply squeeze_chars in Hc as [Hc|Hc]; [|auto].
    apply paren_step_chars in Hc as [Hc|Hc]; [|auto].
    apply (strip_sub_fold_chars PickleballGalaxyScraper.suffix_re) in Hc.
    left. subst m0.
    destruct (negb (Py.eqb brand (lit "Unknown"))); [|exact Hc].
    apply strip_chars, sub_caret_chars in Hc. exact Hc.
Qed.

(** ** The brand of a Galaxy page *)

Lemma isspace_not_word (c : N) : Py.isspace c = true -> Py.isword c = false.
Proof.
  intros H. destruct (Py.isword c) eqn:W; [exfalso|reflexivity].
  unfold Py.isspace in H.
  unfold Py.isword, Py.isalpha, Py.isupper, Py.isdigit in W.
  repeat match goal with
         | A : _ || _ = true |- _ => apply orb_true_iff in A; destruct A
         | A : _ && _ = true |- _ => apply andb_true_iff in A; destruct A
         | A : (_ <=? _) = true |- _ => apply N.leb_le in A
         | A : (_ =? _) = true |- _ => apply N.eqb_eq in A
         end; lia.
Qed.

Lemma split_ws_from_words (s : str) : forall cur,
  (forall c, In c cur -> Py.isspace c = false) ->
  Forall (fun w => w <> [] /\ forall c, In c w -> Py.isspace c = false)
         (Py.split_ws_from cur s).
Proof.
  induction s as [|c s IH]; intros cur Hcur; cbn [Py.split_ws_from].
  - destruct cur as [|c0 cur]; constructor; [|constructor].
    split.
    + intros E. apply (f_equal (@length N)) in E.
      rewrite length_rev in E. discriminate.
    + intros c Hc. apply in_rev in Hc. auto.
  - destruct (Py.isspace c) eqn:Ec.
    + destruct cur as [|c0 cur].
      * apply IH. intros ? [].
      * constructor; [|apply IH; intros ? []].
        split.
        -- intros E. apply (f_equal (@length N)) in E.
           rewrite length_rev in E. discriminate.
        -- intros x Hx. apply in_rev in Hx. auto.
    + apply IH. intros x [<-|Hx]; auto.
Qed.

(** The first word of a text, where it stands. *)
Lemma split_ws_from_first (s : str) : forall cur w0 rest,
  Py.split_ws_from cur s = w0 :: rest ->
  exists ws w tail,
    s = ws ++ w ++ tail
    /\ w0 = rev cur ++ w
    /\ (cur <> [] -> ws = [])
    /\ Forall (fun c => Py.isspace c = true) ws
    /\ head_is_space tail = negb (match tail with [] => true | _ => false end).
Proof.
  induction s as [|c s IH]; intros cur w0 rest; cbn [Py.split_ws_from].
  - destruct cur as [|c0 cur]; [discriminate|]. intros [= <- _].
    exists [], [], [].
    split; [reflexivity|].
    split; [cbn [rev]; rewrite app_nil_r; reflexivity|].
    split; [reflexivity|]. split; [constructor|reflexivity].
  - destruct (Py.isspace c) eqn:Ec.
    + destruct cur as [|c0 cur].
      * intros H. apply IH in H as (ws & w & tail & -> & -> & _ & Hws & Ht).
        exists (c :: ws), w, tail.
        split; [reflexivity|]. split; [reflexivity|].
        split; [intros []; reflexivity|].
        split; [constructor; assumption|exact Ht].
      * intros [= <- _].
        exists [], [], (c :: s).
        split; [reflexivity|].
        split; [cbn [rev]; rewrite app_nil_r; reflexivity|].
        split; [reflexivity|]. split; [constructor|].
        cbn. exact Ec.
    + intros H. apply IH in H as (ws & w & tail & -> & -> & Hc & Hws & Ht).
      rewrite (Hc ltac:(discriminate)).
      exists [], (c :: w), tail.
      split; [reflexivity|].
      split; [cbn [rev]; rewrite <- app_assoc; reflexivity|].
      split; [reflexivity|]. split; [constructor|exact Ht].
Qed.

Lemma search_from_complete r (pre s : str) : forall prev,
  Re.match_at r (match rev pre with c :: _ => Some c | [] => prev end) s
  <> None ->
  Re.search_from r prev (pre ++ s) <> None.
Proof.
  induction pre as [|c pre IH]; intros prev H.
  - cbn [rev app] in *.
    destruct s; cbn [Re.search_from];
      destruct (Re.match_at r prev _); congruence.
  - cbn [app Re.search_from].
    destruct (Re.match_at r prev (c :: pre ++ s)); [discriminate|].
    apply IH. cbn [rev] in H.
    destruct (rev pre) as [|x l] eqn:E; cbn [app] in H; exact H.
Qed.
Lemma adidas_word_match (prev : option N) (tail : str) :
  Re.is_word_opt prev = false ->
  head_is_space tail = negb (match tail with [] => true | _ => false end) ->
  Re.match_at (PickleballGalaxyScraper.brand_re (lit "adidas")) prev
              (lit "Adidas" ++ tail) <> None.
Proof.
  intros Hp Ht.
  unfold Re.match_at, PickleballGalaxyScraper.brand_re.
  cbn [Re.rmatch Re.ms_prev Re.ms_rest Re.ms_off Re.ms_grp].
  rewrite Hp.
  change (lit "Adidas" ++ tail) with (65 :: 100 :: 105 :: 100 :: 97 :: 115 :: tail).
  change (Re.word true (lit "adidas")) with
    (Re.Cat (Re.One (Re.chr_i 97)) (Re.Cat (Re.One (Re.chr_i 100)) (Re.Cat (Re.One (Re.chr_i 105)) (Re.Cat (Re.One (Re.chr_i 100)) (Re.Cat (Re.One (Re.chr_i 97)) (Re.Cat (Re.One (Re.chr_i 115)) Re.Eps)))))).
  cbn [head Re.is_word_opt]. change (Py.isword 65) with true. cbn [xorb].
  cbn [Re.rmatch Re.ms_prev Re.ms_rest Re.ms_off Re.ms_grp].
  change (Re.chr_i 97 65) with true. change (Re.chr_i 100 100) with true.
  change (Re.chr_i 105 105) with true. change (Re.chr_i 97 97) with true.
  change (Re.chr_i 115 115) with true. cbv iota.
  cbn [Re.rmatch Re.ms_prev Re.ms_rest Re.ms_off Re.ms_grp Re.is_word_opt].
  change (Py.isword 115) with true.
  destruct tail as [|c tail]; cbn [head Re.is_word_opt xorb]; [discriminate|].
  cbn in Ht. rewrite (isspace_not_word c Ht). cbn [xorb]. discriminate.
Qed.

Lemma brand_in_title_find (l : list str) (title_text : str) :
  PickleballGalaxyScraper.brand_in_title l title_text
  = List.find (brand_hit title_text) l.
Proof.
  induction l as [|b l IH]; [reflexivity|].
  cbn [PickleballGalaxyScraper.brand_in_title List.find]. unfold brand_hit at 1.
  destruct (Py.startswith _ _); [reflexivity|]. cbn [orb].
  destruct (Re.search _ _); [reflexivity|exact IH].
Qed.

Lemma brand_in_url_find (l : list str) (url : str) :
  PickleballGalaxyScraper.brand_in_url l url
  = List.find (fun b => Py.contains (url_key b) (Py.lower url)) l.
Proof.
  induction l as [|b l IH]; [reflexivity|].
  cbn [PickleballGalaxyScraper.brand_in_url List.find]. fold (url_key b).
  destruct (Py.contains _ _); [reflexivity|exact IH].
Qed.

(** An entry that comes after an entry with the same test is never
    found. *)
Lemma find_shadowed {A : Type} (f : A -> bool) (l1 : list A) (a b : A)
  (l2 : list A) :
  f a = f b -> ~ In b l1 -> a <> b ->
  List.find f (l1 ++ a :: l2) <> Some b.
Proof.
  intros Hf Hn Hab. induction l1 as [|x l1 IH]; cbn [app List.find].
  - destruct (f a) eqn:Ea; [congruence|].
    intros H. apply find_some in H as [_ H]. congruence.
  - destruct (f x).
    + intros [= ->]. apply Hn. left. reflexivity.
    + apply IH. intros H. apply Hn. right. exact H.
Qed.

Lemma common_brands_split :
  PickleballGalaxyScraper.common_brands
  = firstn 12 PickleballGalaxyScraper.common_brands
    ++ lit "adidas" :: skipn 13 PickleballGalaxyScraper.common_brands.
Proof. reflexivity. Qed.

Lemma adidas_not_before :
  ~ In (lit "Adidas") (firstn 12 PickleballGalaxyScraper.common_brands).
Proof.
  intros H. cbv in H.
  repeat (destruct H as [H|H]; [discriminate H|]). exact H.
Qed.

Lemma brand_in_title_not_adidas (title_text : str) :
  PickleballGalaxyScraper.brand_in_title
    PickleballGalaxyScraper.common_brands title_text
  <> Some (lit "Adidas").
Proof.
  rewrite brand_in_title_find, common_brands_split.
  apply find_shadowed;
    [reflexivity|exact adidas_not_before|discriminate].
Qed.

Lemma brand_in_url_not_adidas (url : str) :
  PickleballGalaxyScraper.brand_in_url
    PickleballGalaxyScraper.common_brands url
  <> Some (lit "Adidas").
Proof.
  rewrite brand_in_url_find, common_brands_split.
  apply find_shadowed;
    [reflexivity|exact adidas_not_before|discriminate].
Qed.

Lemma common_brands_nonempty (b : str) :
  In b PickleballGalaxyScraper.common_brands -> b <> [].
Proof.
  intros H. cbv in H.
  repeat (destruct H as [H|H]; [subst b; discriminate|]). destruct H.
Qed.

Lemma brand_from_words_spec (title_text url : str) :
  PickleballGalaxyScraper.brand_from_words title_text url
  = Ok match Py.split_ws title_text with
       | [] => None
       | [w0] => Some w0
       | w0 :: w1 :: _ =>
           Some (if Py.contains
                      (Py.replace (lit " ") (lit "-")
                                  (Py.lower (w0 ++ lit " " ++ w1)))
                      (Py.lower url)
                    || existsb
                         (fun b => Py.contains (Py.lower (w0 ++ lit " " ++ w1))
                                               (Py.lower b))
                         PickleballGalaxyScraper.common_brands
                 then w0 ++ lit " " ++ w1 else w0)
       end.
Proof.
  unfold PickleballGalaxyScraper.brand_from_words.
  destruct (Py.split_ws title_text) as [|w0 [|w1 r]]; [reflexivity..|].
  cbn [length Nat.leb index lookup list_lookup mbind result_bind].
  destruct (_ || _); reflexivity.
Qed.

(** A title whose first word is [Adidas] passes the test of [adidas]. *)
Lemma first_word_adidas (title_text : str) (rest : list str) :
  Py.split_ws title_text = lit "Adidas" :: rest ->
  brand_hit title_text (lit "adidas") = true.
Proof.
  intros H. unfold Py.split_ws in H.
  apply split_ws_from_first in H as (ws & w & tail & -> & Hw & _ & Hws & Ht).
  cbn [rev app] in Hw. subst w.
  unfold brand_hit. apply orb_true_iff. right.
  assert (M : Re.search (PickleballGalaxyScraper.brand_re (lit "adidas"))
                        (ws ++ lit "Adidas" ++ tail) <> None).
  { apply search_from_complete, adidas_word_match; [|exact Ht].
    destruct (rev ws) as [|c l] eqn:E; [reflexivity|].
    cbn [Re.is_word_opt]. apply isspace_not_word.
    rewrite List.Forall_forall in Hws. apply Hws.
    apply in_rev. rewrite E. left. reflexivity. }
  destruct (Re.search _ _); [reflexivity|congruence].
Qed.

Lemma lower_eq_in (brand : str) (l : list str) :
  In brand l ->
  existsb (fun common_brand => Py.eqb (Py.lower brand) (Py.lower common_brand))
          l = true.
Proof.
  intros H. apply existsb_exists. exists brand.
  split; [exact H|apply eqb_refl].
Qed.

(** The last step of [resolve_brand], for a brand [w] that is not
    empty. *)
Lemma brand_checked (w url : str) :
  w <> [] -> w <> lit "Adidas" ->
  exists brand,
    (if negb (Py.eqb w (lit "Unknown"))
        && negb (existsb (fun common_brand =>
                            Py.eqb (Py.lower w) (Py.lower common_brand))
                         PickleballGalaxyScraper.common_brands)
     then
       match PickleballGalaxyScraper.brand_in_url
               PickleballGalaxyScraper.common_brands url with
       | Some url_brand => Ok url_brand
       | None => Ok w
       end
     else Ok w) = Ok brand
    /\ brand <> [] /\ brand <> lit "Adidas"
    /\ (In brand PickleballGalaxyScraper.common_brands \/ brand = w).
Proof.
  intros Hw Ha.
  destruct (negb (Py.eqb w (lit "Unknown")) && _); [|exists w; auto].
  destruct (PickleballGalaxyScraper.brand_in_url _ url) as [b|] eqn:E;
    [|exists w; auto].
  exists b. split; [reflexivity|].
  assert (Hb : In b PickleballGalaxyScraper.common_brands).
  { rewrite brand_in_url_find in E. apply find_some in E as [E _]. exact E. }
  split; [apply common_brands_nonempty, Hb|].
  split; [|left; exact Hb].
  intros ->. exact (brand_in_url_not_adidas url E).
Qed.

Lemma some_brand_checked (w url : str) :
  w <> [] -> w <> lit "Adidas" ->
  exists brand,
    (let brand :=
       if PickleballGalaxyScraper.no_brand (Some w)
       then lit "Unknown" else default [] (Some w) in
     if negb (Py.eqb brand (lit "Unknown"))
        && negb (existsb (fun common_brand =>
                            Py.eqb (Py.lower brand) (Py.lower common_brand))
                         PickleballGalaxyScraper.common_brands)
     then
       match PickleballGalaxyScraper.brand_in_url
               PickleballGalaxyScraper.common_brands url with
       | Some url_brand => Ok url_brand
       | None => Ok brand
       end
     else Ok brand) = Ok brand
    /\ brand <> [] /\ brand <> lit "Adidas"
    /\ (In brand PickleballGalaxyScraper.common_brands \/ brand = w).
Proof.
  intros Hw Ha. destruct w as [|c w]; [congruence|].
  exact (brand_checked (c :: w) url Hw Ha).
Qed.

(** The brand [resolve_brand] gives. *)
Lemma resolve_brand_spec (title_text url : str) :
  exists brand,
    PickleballGalaxyScraper.resolve_brand title_text url = Ok brand
    /\ brand <> []
    /\ brand <> lit "Adidas"
    /\ (In brand PickleballGalaxyScraper.common_brands
        \/ brand = lit "Unknown"
        \/ exists w0 rest,
             Py.split_ws title_text = w0 :: rest
             /\ (brand = w0
                 \/ exists w1 rest',
                      rest = w1 :: rest' /\ brand = w0 ++ lit " " ++ w1))
    /\ (forall b,
           In b PickleballGalaxyScraper.common_brands ->
           Py.startswith (Py.lower b) (Py.lower title_text) = true ->
           In brand PickleballGalaxyScraper.common_brands).
Proof.
  unfold PickleballGalaxyScraper.resolve_brand.
  destruct (PickleballGalaxyScraper.brand_in_title _ title_text) as [b|] eqn:E.
  - assert (Hb : In b PickleballGalaxyScraper.common_brands).
    { rewrite brand_in_title_find in E. apply find_some in E as [E _].
      exact E. }
    pose proof (common_brands_nonempty b Hb) as Hne.
    assert (Hna : b <> lit "Adidas").
    { intros A. rewrite A in E. exact (brand_in_title_not_adidas _ E). }
    destruct (some_brand_checked b url Hne Hna) as (brand & Hr & H1 & H2 & H3).
    assert (Hin : In brand PickleballGalaxyScraper.common_brands).
    { destruct H3 as [H3| ->]; assumption. }
    exists brand. split.
    { destruct b as [|c b]; [congruence|]. exact Hr. }
    split; [exact H1|]. split; [exact H2|].
    split; [left; exact Hin|]. intros _ _ _. exact Hin.
  - cbn [PickleballGalaxyScraper.no_brand].
    rewrite brand_from_words_spec. cbn [mbind result_bind].
    assert (Hno : forall b,
               In b PickleballGalaxyScraper.common_brands ->
               brand_hit title_text b = false).
    { intros b Hb. rewrite brand_in_title_find in E.
      exact (find_none _ _ E b Hb). }
    assert (Hlast : forall brand b,
               In b PickleballGalaxyScraper.common_brands ->
               Py.startswith (Py.lower b) (Py.lower title_text) = true ->
               In brand PickleballGalaxyScraper.common_brands).
    { intros brand b Hb Hs. apply Hno in Hb. unfold brand_hit in Hb.
      rewrite Hs in Hb. discriminate. }
    pose proof (split_ws_from_words title_text [] ltac:(intros ? [])) as Hw.
    fold (Py.split_ws title_text) in Hw.
    destruct (Py.split_ws title_text) as [|w0 rest] eqn:S.
    + exists (lit "Unknown"). split; [reflexivity|].
      split; [discriminate|]. split; [discriminate|].
      split; [right; left; reflexivity|apply Hlast].
    + apply Forall_cons in Hw as [[Hw0 _] _].
      assert (Ha0 : w0 <> lit "Adidas").
      { intros ->. apply first_word_adidas in S.
        rewrite Hno in S; [discriminate|].
        cbv. do 12 right. left. reflexivity. }
      assert (Fin : forall w,
                 w <> [] -> w <> lit "Adidas" ->
                 (w = w0
                  \/ exists w1 rest',
                       rest = w1 :: rest' /\ w = w0 ++ lit " " ++ w1) ->
                 exists brand,
                   (let brand :=
                      if PickleballGalaxyScraper.no_brand (Some w)
                      then lit "Unknown" else default [] (Some w) in
                    if negb (Py.eqb brand (lit "Unknown"))
                       && negb (existsb
                                  (fun common_brand =>
                                     Py.eqb (Py.lower brand)
                                            (Py.lower common_brand))
                                  PickleballGalaxyScraper.common_brands)
                    then
                      match PickleballGalaxyScraper.brand_in_url
                              PickleballGalaxyScraper.common_brands url with
                      | Some url_brand => Ok url_brand
                      | None => Ok brand
                      end
                    else Ok brand) = Ok brand
                   /\ brand <> [] /\ brand <> lit "Adidas"
                   /\ (In brand PickleballGalaxyScraper.common_brands
                       \/ brand = lit "Unknown"
                       \/ exists w0' rest0,
                            w0 :: rest = w0' :: rest0
                            /\ (brand = w0'
                                \/ exists w1 rest',
                                     rest0 = w1 :: rest'
                                     /\ brand = w0' ++ lit " " ++ w1))
                   /\ (forall b,
                          In b PickleballGalaxyScraper.common_brands ->
                          Py.startswith (Py.lower b) (Py.lower title_text)
                          = true ->
                          In brand PickleballGalaxyScraper.common_brands)).
      { intros w Hne Hna Hform.
        destruct (some_brand_checked w url Hne Hna)
          as (brand & Hr & H1 & H2 & H3).
        exists brand. split; [exact Hr|]. split; [exact H1|].
        split; [exact H2|]. split; [|apply Hlast].
        destruct H3 as [H3| ->]; [left; exact H3|].
        right. right. exists w0, rest. split; [reflexivity|exact Hform]. }
      destruct rest as [|w1 rest'].
      * apply Fin; auto.
      * destruct (_ || _).
        -- apply Fin.
           ++ destruct w0; [congruence|discriminate].
           ++ intros A.
              assert (I : In 32 (lit "Adidas")).
              { rewrite <- A. apply in_or_app. right. left. reflexivity. }
              cbv in I. repeat (destruct I as [I|I]; [discriminate I|]).
              exact I.
           ++ right. eauto.
        -- apply Fin; auto.
Qed.

(** X25: the brand of a Galaxy record is never empty.  It is a brand of
    the list, the placeholder [Unknown], the first word of the title or
    its first two words; whenever the title starts with a brand of the
    list in some letter case, it is a brand of the list.  The entry
    [Adidas] of the list is dead: the entry [adidas] before it wins
    every test, so that no record has the brand [Adidas]. *)
Theorem X25_galaxy_brand (title_text url : str) :
  exists brand,
    PickleballGalaxyScraper.resolve_brand title_text url = Ok brand
    /\ brand <> []
    /\ brand <> lit "Adidas"
    /\ (In brand PickleballGalaxyScraper.common_brands
        \/ brand = lit "Unknown"
        \/ exists w0 rest,
             Py.split_ws title_text = w0 :: rest
             /\ (brand = w0
                 \/ exists w1 rest',
                      rest = w1 :: rest' /\ brand = w0 ++ lit " " ++ w1))
    /\ (forall b,
           In b PickleballGalaxyScraper.common_brands ->
           Py.startswith (Py.lower b) (Py.lower title_text) = true ->
           In brand PickleballGalaxyScraper.common_brands).
Proof.
  destruct (resolve_brand_spec title_text url)
    as (brand & Hr & Hne & Hna & Hform & Hlist).
  exists brand. split; [exact Hr|]. split; [exact Hne|].
  split; [exact Hna|]. split; [exact Hform|exact Hlist].
Qed.

(** ** The record of a Galaxy page *)

Lemma split_on_first (sep s : str) :
  exists first rest, Py.split_on sep s = first :: rest.
Proof.
  pose proof (split_from_length sep s 0 []) as H.
  unfold Py.split_on. destruct (Py.split_from sep 0 [] s); [discriminate|].
  eauto.
Qed.

Lemma page_title_total (title_elem title_from_head : option str) :
  exists title_text,
    PickleballGalaxyScraper.page_title title_elem title_from_head
    = Ok title_text.
Proof.
  unfold PickleballGalaxyScraper.page_title.
  destruct (PickleballGalaxyScraper.checked_title_elem title_elem);
    [eauto|].
  destruct title_from_head as [text|]; [|eauto].
  destruct (Py.contains _ _); [|eauto].
  destruct (split_on_first (lit " - ") (Py.strip text)) as (a & l & ->).
  cbn. eauto.
Qed.

(** The name in the URL is only used for a title of fewer than ten
    characters: the second test on navigation text comes too late. *)
Lemma title_from_url_total (title_text url : str) :
  PickleballGalaxyScraper.is_navigation title_text = false ->
  exists t,
    PickleballGalaxyScraper.title_from_url title_text url = Ok t
    /\ ((10 <= length title_text)%nat -> t = title_text).
Proof.
  intros Hn. unfold PickleballGalaxyScraper.title_from_url.
  destruct (3 <? length _)%nat; [|eauto].
  destruct (Py.contains _ _); [|eauto].
  destruct (split_on_first (lit ".html")
              (PyLib.last_item (Py.split_on (lit "/") url)))
    as (a & l & ->).
  cbn [index lookup list_lookup mbind result_bind].
  destruct (length title_text <? 10)%nat eqn:L.
  - cbn [orb]. eexists. split; [reflexivity|].
    apply Nat.ltb_lt in L. lia.
  - cbn [orb].
    assert (N1 : PyLib.is_in (Py.lower title_text)
                   [lit "home"; lit "products"; lit "paddles"] = false).
    { unfold PickleballGalaxyScraper.is_navigation, PyLib.is_in in Hn.
      unfold PyLib.is_in. cbn [existsb] in *.
      repeat (apply orb_false_iff in Hn as [? Hn]).
      repeat (apply orb_false_iff; split); assumption. }
    rewrite N1. eauto.
Qed.

Lemma resolve_model_nonempty (brand title_text : str) :
  PickleballGalaxyScraper.resolve_model brand title_text <> [].
Proof.
  unfold PickleballGalaxyScraper.resolve_model.
  match goal with
  | |- (if negb (Py.truthy ?m) then _ else _) <> [] =>
      destruct m; cbn [Py.truthy negb]; discriminate
  end.
Qed.

(** X24: a Galaxy page that could be fetched gives no record exactly when
    its title is navigation text ([home], [products], [categories] or
    [paddles] in any letter case); no other page makes the scraper give
    up.  The record has a brand and a model that are not empty, the
    identifier made of them, the source [Pickleball Galaxy] and no
    performance.  The name in the URL stands in for the title only when
    the title has fewer than ten characters. *)
Theorem X24_galaxy_page_record (title_elem title_from_head : option str)
  (url specs_text : str) (spec_items : list str) :
  exists title_text,
    PickleballGalaxyScraper.page_title title_elem title_from_head
    = Ok title_text
    /\ if PickleballGalaxyScraper.is_navigation title_text
       then PickleballGalaxyScraper.scrape_paddle
              title_elem title_from_head url specs_text spec_items = None
       else
         exists t b p,
           PickleballGalaxyScraper.title_from_url title_text url = Ok t
           /\ ((10 <= length title_text)%nat -> t = title_text)
           /\ PickleballGalaxyScraper.resolve_brand t url = Ok b
           /\ PickleballGalaxyScraper.scrape_paddle
                title_elem title_from_head url specs_text spec_items
              = Some p
           /\ metadata p
              = mkMetadata b (PickleballGalaxyScraper.resolve_model b t)
                           (lit "Pickleball Galaxy")
           /\ id p
              = data_models.generate_paddle_id
                  b (PickleballGalaxyScraper.resolve_model b t)
           /\ performance p = None
           /\ brand (metadata p) <> []
           /\ model (metadata p) <> [].
Proof.
  destruct (page_title_total title_elem title_from_head) as [title_text Ht].
  exists title_text. split; [exact Ht|].
  unfold PickleballGalaxyScraper.scrape_paddle,
    PickleballGalaxyScraper.scrape.
  rewrite Ht. cbn [mbind result_bind].
  destruct (PickleballGalaxyScraper.is_navigation title_text) eqn:Hn;
    [reflexivity|].
  destruct (title_from_url_total title_text url Hn) as (t & Hu & Hlen).
  destruct (resolve_brand_spec t url) as (b & Hb & Hne & _).
  destruct (assemble_total b (PickleballGalaxyScraper.resolve_model b t)
              t specs_text spec_items) as (p & Hp & Hid & Hm & Hperf).
  exists t, b, p. rewrite Hu. cbn [mbind result_bind].
  rewrite Hb. cbn [mbind result_bind]. rewrite Hp. cbn [mbind result_bind].
  split; [reflexivity|]. split; [exact Hlen|]. split; [reflexivity|].
  split; [reflexivity|]. split; [exact Hm|]. split; [exact Hid|].
  split; [exact Hperf|]. rewrite Hm. cbn [brand model].
  split; [exact Hne|apply resolve_model_nonempty].
Qed.

(** ** The listing pages of the Galaxy shop *)

Lemma add_links_absolute (paddle_links : list (option str)) :
  forall paddle_urls,
    Forall absolute paddle_urls ->
    Forall absolute
           (PickleballGalaxyScraper.add_links paddle_urls paddle_links).
Proof.
  induction paddle_links as [|link l IH]; intros urls H; [exact H|].
  cbn [PickleballGalaxyScraper.add_links].
  destruct link as [[|c href]|]; [apply IH, H| |apply IH, H].
  apply IH. apply Forall_app. split; [exact H|].
  constructor; [|constructor]. unfold absolute.
  destruct (Py.startswith (lit "http") (c :: href)) eqn:E;
    cbn [negb]; [exact E|].
  destruct (Py.startswith (lit "/") (c :: href)); reflexivity.
Qed.

Lemma add_links_keeps (paddle_links : list (option str)) :
  forall paddle_urls u,
    In u paddle_urls ->
    In u (PickleballGalaxyScraper.add_links paddle_urls paddle_links).
Proof.
  induction paddle_links as [|link l IH]; intros urls u H; [exact H|].
  cbn [PickleballGalaxyScraper.add_links].
  destruct link as [[|c href]|]; [apply IH, H| |apply IH, H].
  apply IH. apply in_or_app. left. exact H.
Qed.

Lemma add_links_absolute_in (paddle_links : list (option str)) :
  forall paddle_urls href,
    In (Some href) paddle_links -> href <> [] -> absolute href ->
    In href (PickleballGalaxyScraper.add_links paddle_urls paddle_links).
Proof.
  induction paddle_links as [|link l IH]; intros urls href H Hne Ha;
    [destruct H|].
  cbn [PickleballGalaxyScraper.add_links].
  destruct H as [->|H].
  - destruct href as [|c href]; [congruence|].
    apply add_links_keeps. apply in_or_app. right. left.
    unfold absolute in Ha. rewrite Ha. reflexivity.
  - destruct link as [[|c h]|]; apply IH; assumption.
Qed.

(** The loop, from the page [page] on. *)
Lemma crawl_spec (get_page : str -> option PickleballGalaxyScraper.listing)
  (todo : nat) :
  forall page paddle_urls requested,
  exists k,
    (k <= todo)%nat /\ (todo <> 0%nat -> 1 <= k)%nat
    /\ snd (PickleballGalaxyScraper.crawl get_page todo page paddle_urls
              requested)
       = requested ++ List.map PickleballGalaxyScraper.page_url (seq page k)
    /\ (forall j, (page <= j < page + k - 1)%nat ->
          exists soup,
            get_page (PickleballGalaxyScraper.page_url j) = Some soup
            /\ PickleballGalaxyScraper.select_paddle_links soup <> []
            /\ ((2 <= j)%nat ->
                PickleballGalaxyScraper.next_page soup = true))
    /\ ((k < todo)%nat ->
        match get_page (PickleballGalaxyScraper.page_url (page + k - 1)) with
        | None => True
        | Some soup =>
            PickleballGalaxyScraper.select_paddle_links soup = []
            \/ ((2 <= page + k - 1)%nat
                /\ PickleballGalaxyScraper.next_page soup = false)
        end)
    /\ (Forall absolute paddle_urls ->
        Forall absolute
               (fst (PickleballGalaxyScraper.crawl get_page todo page
                       paddle_urls requested)))
    /\ (forall u, In u paddle_urls ->
          In u (fst (PickleballGalaxyScraper.crawl get_page todo page
                       paddle_urls requested)))
    /\ (forall j soup href,
          (page <= j < page + k)%nat ->
          get_page (PickleballGalaxyScraper.page_url j) = Some soup ->
          In (Some href) (PickleballGalaxyScraper.select_paddle_links soup) ->
          href <> [] -> absolute href ->
          In href (fst (PickleballGalaxyScraper.crawl get_page todo page
                          paddle_urls requested))).
Proof.
  induction todo as [|todo IH]; intros page urls req.
  - exists 0%nat. cbn [PickleballGalaxyScraper.crawl fst snd seq List.map].
    rewrite app_nil_r.
    split; [lia|]. split; [lia|]. split; [reflexivity|].
    split; [intros; lia|]. split; [lia|]. split; [auto|].
    split; [auto|]. intros; lia.
  - cbn [PickleballGalaxyScraper.crawl].
    assert (P1 : (page + 1 - 1 = page)%nat) by lia.
    destruct (get_page (PickleballGalaxyScraper.page_url page))
      as [soup|] eqn:G.
    2:{ exists 1%nat. cbn [fst snd seq List.map]. rewrite P1, G.
        split; [lia|]. split; [lia|]. split; [reflexivity|].
        split; [intros; lia|]. split; [auto|]. split; [auto|].
        split; [auto|].
        intros j soup href Hj Hs. assert (j = page) by lia. subst j.
        congruence. }
    destruct (PickleballGalaxyScraper.select_paddle_links soup)
      as [|l0 links] eqn:L.
    { exists 1%nat. cbn [fst snd seq List.map]. rewrite P1, G.
      split; [lia|]. split; [lia|]. split; [reflexivity|].
      split; [intros; lia|]. split; [intros _; left; exact L|].
      split; [auto|]. split; [auto|].
      intros j soup' href Hj Hs. assert (j = page) by lia. subst j.
      rewrite G in Hs. injection Hs as <-. rewrite L. intros []. }
    cbn [orb].
    destruct ((1 <? page)%nat && negb (PickleballGalaxyScraper.next_page soup))
      eqn:C.
    { exists 1%nat. cbn [fst snd seq List.map]. rewrite P1, G.
      apply andb_true_iff in C as [C1 C2]. apply Nat.ltb_lt in C1.
      apply negb_true_iff in C2.
      split; [lia|]. split; [lia|]. split; [reflexivity|].
      split; [intros; lia|]. split; [intros _; right; split; [lia|exact C2]|].
      split; [apply add_links_absolute|].
      split; [apply add_links_keeps|].
      intros j soup' href Hj Hs Hin Hne Ha.
      assert (j = page) by lia. subst j.
      rewrite G in Hs. injection Hs as <-. rewrite L in Hin.
      apply add_links_absolute_in; assumption. }
    destruct (IH (page + 1)%nat
                (PickleballGalaxyScraper.add_links urls (l0 :: links))
                (req ++ [PickleballGalaxyScraper.page_url page]))
      as (k & Hk & Hk1 & Hreq & Hpages & Hstop & Habs & Hkeep & Hin).
    exists (S k). split; [lia|]. split; [lia|].
    split.
    { rewrite Hreq. cbn [seq List.map]. rewrite <- app_assoc.
      replace (page + 1)%nat with (S page) by lia. reflexivity. }
    split.
    { intros j Hj. destruct (Nat.eq_dec j page) as [->|Hne].
      - exists soup. split; [exact G|]. split; [rewrite L; discriminate|].
        intros H2. apply andb_false_iff in C as [C|C].
        + apply Nat.ltb_ge in C. lia.
        + apply negb_false_iff in C. exact C.
      - apply Hpages. lia. }
    split.
    { intros Hlt.
      replace (page + S k - 1)%nat with (page + 1 + k - 1)%nat by lia.
      apply Hstop. lia. }
    split; [intros H; apply Habs, add_links_absolute, H|].
    split; [intros u H; apply Hkeep, add_links_keeps, H|].
    intros j soup' href Hj Hs Hi Hne Ha.
    destruct (Nat.eq_dec j page) as [->|Hnp].
    + rewrite G in Hs. injection Hs as <-. rewrite L in Hi.
      apply Hkeep, add_links_absolute_in; assumption.
    + apply (Hin j soup' href); try assumption. lia.
Qed.

(** X27: [get_paddle_urls] requests the listing pages in order, the first
    one always and never more than ten.  Every page before the last
    requested one could be fetched and had links, and from the second page
    on a next-page link; when it stops before the tenth page, the last
    page could not be fetched, had no link, or is a later page without a
    next-page link.  The second page is requested whether or not the
    first one has a next-page link.  Every address returned is absolute,
    and an absolute link of a requested page is returned as it is. *)
Theorem X27_listing_crawl
  (get_page : str -> option PickleballGalaxyScraper.listing) :
  exists k,
    (1 <= k <= 10)%nat
    /\ snd (PickleballGalaxyScraper.get_paddle_urls get_page)
       = List.map PickleballGalaxyScraper.page_url (seq 1 k)
    /\ (forall j, (1 <= j < k)%nat ->
          exists soup,
            get_page (PickleballGalaxyScraper.page_url j) = Some soup
            /\ PickleballGalaxyScraper.select_paddle_links soup <> []
            /\ ((2 <= j)%nat ->
                PickleballGalaxyScraper.next_page soup = true))
    /\ ((k < 10)%nat ->
        match get_page (PickleballGalaxyScraper.page_url k) with
        | None => True
        | Some soup =>
            PickleballGalaxyScraper.select_paddle_links soup = []
            \/ ((2 <= k)%nat
                /\ PickleballGalaxyScraper.next_page soup = false)
        end)
    /\ (forall soup,
          get_page (PickleballGalaxyScraper.page_url 1) = Some soup ->
          PickleballGalaxyScraper.select_paddle_links soup <> [] ->
          (2 <= k)%nat)
    /\ Forall absolute (fst (PickleballGalaxyScraper.get_paddle_urls get_page))
    /\ (forall j soup href,
          (1 <= j <= k)%nat ->
          get_page (PickleballGalaxyScraper.page_url j) = Some soup ->
          In (Some href) (PickleballGalaxyScraper.select_paddle_links soup) ->
          href <> [] -> absolute href ->
          In href (fst (PickleballGalaxyScraper.get_paddle_urls get_page))).
Proof.
  unfold PickleballGalaxyScraper.get_paddle_urls.
  destruct (crawl_spec get_page 10 1 [] [])
    as (k & Hk & Hk1 & Hreq & Hpages & Hstop & Habs & _ & Hin).
  exists k. split; [lia|]. split; [exact Hreq|].
  split; [intros j Hj; apply Hpages; lia|].
  split.
  { intros Hlt. specialize (Hstop Hlt).
    replace (1 + k - 1)%nat with k in Hstop by lia. exact Hstop. }
  split.
  { intros soup G L.
    destruct (Nat.le_gt_cases 2 k) as [H|H]; [exact H|exfalso].
    assert (k = 1%nat) by lia. subst k.
    specialize (Hstop ltac:(lia)). cbn [Nat.add Nat.sub] in Hstop.
    rewrite G in Hstop. destruct Hstop as [E|[E _]]; [congruence|lia]. }
  split; [apply Habs; constructor|].
  intros j soup href Hj. apply Hin. lia.
Qed.
